(** * The scene-to-video pipeline of [video_generator.py]

    A shallow embedding of [VideoGenerator] (class of
    [src/video_generator.py]): the scene planner
    [split_chapter_into_scenes], the render client
    [_queue_comfyui_prompt] / [_generate_clip_for_scene], the stitcher
    [_stitch_clips_into_video] and the coordinator
    [create_chapter_video].

    Python objects that the code mutates (the workflow dictionaries) live in
    an explicit store of objects addressed by location, so that the alias
    between [self.base_workflow] and the per-scene working copy is a fact to
    be proved, not an artefact of the modelling language. Data that is only
    read (messages of the render server) is kept as JSON trees. The outside
    world (language model, render server, HTTP endpoint, file system, media
    library) is a record of oracles; those of the network and of the file
    system answer as a function of the history of events. Console output is
    left out. *)

From stdpp Require Import base option list strings gmap pretty.
From Stdlib Require Import ZArith Ascii.

Set Warnings "-register-all".

(** ** JSON documents *)

(** A decoded JSON document. A number with a fraction or an exponent is
    kept as it is written: the pipeline never computes with it, and
    [json.dumps] and [json.loads] carry it over unchanged. *)
Inductive json :=
  | JNull
  | JBool (b : bool)
  | JNum (n : Z)
  | JReal (literal : string)
  | JStr (s : string)
  | JList (items : list json)
  | JDict (members : list (string * json)).

#[global] Instance json_inhabited : Inhabited json := populate JNull.

(** ** Insertion-ordered dictionaries

    A Python [dict] keeps its keys in insertion order, and
    [workflow.items()] is scanned in that order: dictionaries are
    association lists. [dict_get] is [d.get(k)] and [dict_set] is
    [d[k] = v]: an existing key keeps its position. *)

Fixpoint dict_get {A} (k : string) (d : list (string * A)) : option A :=
  match d with
  | [] => None
  | (k', v) :: d' => if decide (k = k') then Some v else dict_get k d'
  end.

Fixpoint dict_set {A} (k : string) (v : A) (d : list (string * A))
  : list (string * A) :=
  match d with
  | [] => [(k, v)]
  | (k', v') :: d' =>
      if decide (k = k') then (k, v) :: d' else (k', v') :: dict_set k v d'
  end.

(** The dictionary that [json.loads] builds from the members of an object
    as they are written in the text: a repeated key overwrites. *)
Definition dict_of_members {A} (kvs : list (string * A)) : list (string * A) :=
  fold_left (fun d kv => dict_set kv.1 kv.2 d) kvs [].

Fixpoint normalize (j : json) : json :=
  match j with
  | JList js => JList (map normalize js)
  | JDict kvs => JDict (dict_of_members (map (fun kv => (kv.1, normalize kv.2)) kvs))
  | _ => j
  end.

(** ** The object store *)

(** A Python value is immediate or a reference to a container object. *)
Inductive pyval :=
  | VNone
  | VBool (b : bool)
  | VInt (n : Z)
  | VReal (literal : string)
  | VStr (s : string)
  | VRef (l : nat).

Inductive pyobj :=
  | ODict (entries : list (string * pyval))
  | OList (elems : list pyval).

(** Locations are indices; allocation appends. *)
Abbreviation store := (list pyobj).

(** Building the object graph of a document: children first, then the
    container that holds them, each in a fresh object. *)
Definition alloc_items (alloc : json -> store -> pyval * store)
  : list json -> store -> list pyval * store :=
  fix go js h :=
    match js with
    | [] => ([], h)
    | j :: js' =>
        let '(v, h1) := alloc j h in
        let '(vs, h2) := go js' h1 in
        (v :: vs, h2)
    end.

Definition alloc_members (alloc : json -> store -> pyval * store)
  : list (string * json) -> store -> list (string * pyval) * store :=
  fix go kvs h :=
    match kvs with
    | [] => ([], h)
    | kv :: kvs' =>
        let '(v, h1) := alloc kv.2 h in
        let '(vs, h2) := go kvs' h1 in
        ((kv.1, v) :: vs, h2)
    end.

Fixpoint alloc (j : json) (h : store) : pyval * store :=
  match j with
  | JNull => (VNone, h)
  | JBool b => (VBool b, h)
  | JNum n => (VInt n, h)
  | JReal x => (VReal x, h)
  | JStr s => (VStr s, h)
  | JList js =>
      let '(vs, h') := alloc_items alloc js h in
      (VRef (length h'), h' ++ [OList vs])
  | JDict kvs =>
      let '(vs, h') := alloc_members alloc kvs h in
      (VRef (length h'), h' ++ [ODict vs])
  end.

(** [json.loads]: decode, then build fresh objects. *)
Definition json_loads (j : json) (h : store) : pyval * store :=
  alloc (normalize j) h.

(** Reading an object graph back as a document. A reference costs one unit
    of fuel. *)
Definition dumps_entry (dumps : pyval -> option json) (kv : string * pyval)
  : option (string * json) :=
  j ← dumps kv.2; Some (kv.1, j).

Fixpoint dumps (fuel : nat) (h : store) (v : pyval) : option json :=
  match v with
  | VNone => Some JNull
  | VBool b => Some (JBool b)
  | VInt n => Some (JNum n)
  | VReal x => Some (JReal x)
  | VStr s => Some (JStr s)
  | VRef l =>
      match fuel with
      | O => None
      | S n =>
          match h !! l with
          | Some (OList vs) => JList <$> mapM (dumps n h) vs
          | Some (ODict kvs) => JDict <$> mapM (dumps_entry (dumps n h)) kvs
          | None => None
          end
      end
  end.

(** [json.dumps]. A chain of references through distinct objects is no
    longer than the store, so with this fuel [None] is returned exactly for
    a graph with a cycle, where Python raises [ValueError]. *)
Definition json_dumps (h : store) (v : pyval) : option json :=
  dumps (length h) h v.

(** ** Exceptions and results *)

Inductive exn :=
  | ValueError (msg : string)
  | AttributeError
  | KeyError (key : json)
  | TypeError
  | IndexError
  | JSONDecodeError
  | ConnectionError              (* websocket and requests failures *)
  | FileNotFoundError
  | OSError (msg : string)
  | LibraryError (msg : string). (* raised inside genai, pydantic or moviepy *)

Inductive res (A : Type) :=
  | Ok (a : A)
  | Raise (e : exn).
Arguments Ok {A} a.
Arguments Raise {A} e.

(** ** The world *)

(** The file-view URL
    [http://{server_address}/view?subfolder={..}&filename={..}], before the
    two values taken from the manifest are formatted into text. *)
Record view_url := ViewUrl {
  url_host : string;
  url_subfolder : json;
  url_filename : json
}.

Inductive event :=
  | GenerateContent (prompt : string)     (* request to the language model *)
  | WsConnect (address client : string)   (* ws.connect *)
  | WsSend (payload : json)               (* ws.send *)
  | WsClose                               (* ws.close *)
  | HttpGet (url : view_url)              (* requests.get *)
  | Stitch (clip_paths : list string).    (* entry of the stitcher *)

(** Traffic with the render server. *)
Definition render_traffic (e : event) : bool :=
  match e with
  | WsConnect _ _ | WsSend _ | WsClose | HttpGet _ => true
  | GenerateContent _ | Stitch _ => false
  end.

(** The clip lists handed to the stitcher, oldest first. *)
Definition stitch_calls (tr : list event) : list (list string) :=
  omap (fun e => match e with Stitch ps => Some ps | _ => None end) tr.

(** The jobs sent to the render server, oldest first. *)
Definition sent_jobs (tr : list event) : list json :=
  omap (fun e => match e with WsSend p => Some p | _ => None end) tr.

(** Files are keyed by their path as pathlib writes it (see [path_join]).
    Two texts that name one file, through [..] or a link, are not
    identified, and directories are not tracked: whether a directory can be
    made or a file written is for the file system to say ([fs_error]
    below). *)
Record world := World {
  heap : store;
  files : gmap string string;
  trace : list event
}.

(** What one frame received on the socket is: binary, or text together with
    what [json.loads] makes of it ([None]: not a JSON text), or the close
    frame of the server, for which [recv] returns the empty text. *)
Inductive frame :=
  | FrameBytes
  | FrameText (decoded : option json)
  | FrameClose.

(** The requests to the file system that can be refused. *)
Inductive file_op :=
  | MakeDir (path : string)      (* Path.mkdir(exist_ok=True) *)
  | WriteBytes (path : string).  (* Path.write_bytes *)

Record Scene := {
  scene_description : string;
  visual_prompt : string
}.

Record ChapterScenes := { scenes : list Scene }.

(** The collaborators. Each network oracle answers from the history of
    events so far, the request included. [ws_frames] is what the socket
    delivers before the connection is lost; a server that keeps the socket
    open and stays silent, on which the client waits for ever, is not among
    the environments. [fs_error] is the exception with which the file
    system refuses a request, if it does; a refused request changes
    nothing. [write_videofile clip path] is what the encoder does when it
    does not raise: [Some] content written at [path], or [None] when it
    returns without having written the file. *)
Record env := Env {
  model_json_schema : string;
  generate_content : list event -> res string;
  model_validate_json : string -> res ChapterScenes;
  ws_accepts : list event -> bool;
  ws_frames : list event -> list frame;
  http_get : list event -> res (Z * string);
  fs_error : list event -> file_op -> option exn;
  VideoFileClip : string -> res string;
  concatenate_videoclips : list string -> res string;
  write_videofile : string -> string -> res (option string)
}.

Record VideoGenerator := {
  server_address : string;
  client_id : string;
  base_workflow : pyval
}.

(** ** Computations: state and exceptions

    A computation transforms the world and returns a value or raises; what
    it did to the world before raising stays done. *)
Definition M (A : Type) : Type := world -> res A * world.

Definition ret {A} (a : A) : M A := fun w => (Ok a, w).

Definition raise {A} (e : exn) : M A := fun w => (Raise e, w).

Definition bind {A B} (m : M A) (k : A -> M B) : M B :=
  fun w =>
    match m w with
    | (Ok a, w') => k a w'
    | (Raise e, w') => (Raise e, w')
    end.

Notation "'let*' x := m 'in' k" := (bind m (fun x => k))
  (at level 10, x pattern, m at level 100, k at level 200).

(** [try: m except Exception: handler]. *)
Definition try_except {A} (m : M A) (handler : exn -> M A) : M A :=
  fun w =>
    match m w with
    | (Ok a, w') => (Ok a, w')
    | (Raise e, w') => handler e w'
    end.

Definition lift {A} (r : res A) : M A := fun w => (r, w).

Definition log (e : event) : M unit :=
  fun w => (Ok tt, World (heap w) (files w) (trace w ++ [e])).

(** Consulting an oracle on the history so far. *)
Definition ask {A} (oracle : list event -> A) : M A :=
  fun w => (Ok (oracle (trace w)), w).

Definition ask_res {A} (oracle : list event -> res A) : M A :=
  fun w => (oracle (trace w), w).

(** ** Operations on objects in the store *)

Definition new_object (o : pyobj) : M pyval :=
  fun w => (Ok (VRef (length (heap w))),
            World (heap w ++ [o]) (files w) (trace w)).

Definition dict_at (h : store) (v : pyval) : option (list (string * pyval)) :=
  match v with
  | VRef l => match h !! l with Some (ODict kvs) => Some kvs | _ => None end
  | _ => None
  end.

(** The entries of [v] for a method that only a [dict] has ([.items],
    [.get]). *)
Definition dict_entries (v : pyval) : M (list (string * pyval)) :=
  fun w =>
    match dict_at (heap w) v with
    | Some kvs => (Ok kvs, w)
    | None => (Raise AttributeError, w)
    end.

(** [v[key]] for a text key. *)
Definition py_getitem (v : pyval) (key : string) : M pyval :=
  fun w =>
    match dict_at (heap w) v with
    | Some kvs =>
        match dict_get key kvs with
        | Some x => (Ok x, w)
        | None => (Raise (KeyError (JStr key)), w)
        end
    | None => (Raise TypeError, w)
    end.

(** [v[key] = x] for a text key: the object that [v] refers to is updated
    in place. *)
Definition py_setitem (v : pyval) (key : string) (x : pyval) : M unit :=
  fun w =>
    match v with
    | VRef l =>
        match heap w !! l with
        | Some (ODict kvs) =>
            (Ok tt, World (<[l := ODict (dict_set key x kvs)]> (heap w))
                          (files w) (trace w))
        | _ => (Raise TypeError, w)
        end
    | _ => (Raise TypeError, w)
    end.

Definition py_json_dumps (v : pyval) : M json :=
  fun w =>
    match json_dumps (heap w) v with
    | Some j => (Ok j, w)
    | None => (Raise (ValueError "Circular reference detected"), w)
    end.

Definition py_json_loads (j : json) : M pyval :=
  fun w =>
    let '(v, h') := json_loads j (heap w) in
    (Ok v, World h' (files w) (trace w)).

(** [v == s] for a text [s]. *)
Definition pyval_is_str (v : pyval) (s : string) : bool :=
  match v with
  | VStr s' => bool_decide (s' = s)
  | _ => false
  end.

(** ** Operations on documents that are only read *)

Definition json_is_str (j : json) (s : string) : bool :=
  match j with
  | JStr s' => bool_decide (s' = s)
  | _ => false
  end.

(** [xs[i]], with Python's negative indices. *)
Definition seq_index {A} (xs : list A) (i : Z) : res A :=
  let n := Z.of_nat (length xs) in
  let k := if decide (i < 0)%Z then (i + n)%Z else i in
  if decide (k < 0)%Z then Raise IndexError
  else match xs !! Z.to_nat k with
       | Some x => Ok x
       | None => Raise IndexError
       end.

(** The characters of a text, which is a byte string here: a character
    outside ASCII counts for each of its bytes. *)
Definition chars (s : string) : list json :=
  map (fun c => JStr (String c EmptyString)) (String.list_ascii_of_string s).

Fixpoint str_contains (needle s : string) : bool :=
  String.prefix needle s ||
  match s with
  | EmptyString => false
  | String _ s' => str_contains needle s'
  end.

(** [j[key]]. The keys of a JSON object are texts; a list or a text is
    indexed by an integer ([True] and [False] count as 1 and 0). *)
Definition json_getitem (j key : json) : res json :=
  match j with
  | JDict kvs =>
      match key with
      | JStr k =>
          match dict_get k kvs with
          | Some x => Ok x
          | None => Raise (KeyError key)
          end
      | JList _ | JDict _ => Raise TypeError
      | _ => Raise (KeyError key)
      end
  | JList xs =>
      match key with
      | JNum i => seq_index xs i
      | JBool b => seq_index xs (if b then 1%Z else 0%Z)
      | _ => Raise TypeError
      end
  | JStr s =>
      match key with
      | JNum i => seq_index (chars s) i
      | JBool b => seq_index (chars s) (if b then 1%Z else 0%Z)
      | _ => Raise TypeError
      end
  | _ => Raise TypeError
  end.

(** [needle in j]. *)
Definition json_contains (needle : string) (j : json) : res bool :=
  match j with
  | JDict kvs => Ok (bool_decide (is_Some (dict_get needle kvs)))
  | JList xs => Ok (existsb (fun x => json_is_str x needle) xs)
  | JStr s => Ok (str_contains needle s)
  | _ => Raise TypeError
  end.

(** [for x in j]. *)
Definition json_iter (j : json) : res (list json) :=
  match j with
  | JDict kvs => Ok (map (fun kv => JStr kv.1) kvs)
  | JList xs => Ok xs
  | JStr s => Ok (chars s)
  | _ => Raise TypeError
  end.

(** [j.get(key, default)]. *)
Definition json_get (j : json) (key : string) (dflt : json) : res json :=
  match j with
  | JDict kvs => Ok (default dflt (dict_get key kvs))
  | _ => Raise AttributeError
  end.

(** ** Files *)

(** Paths as [pathlib] has them on POSIX. A path text is cut at its
    slashes; the empty parts and the parts [.] are dropped, the parts [..]
    are kept. Two leading slashes are a root of their own, three or more
    count as one. *)
Fixpoint split_slash (s : string) : list string :=
  match s with
  | EmptyString => [EmptyString]
  | String c s' =>
      if Ascii.eqb c "/" then EmptyString :: split_slash s'
      else match split_slash s' with
           | [] => [String c EmptyString]
           | part :: parts => String c part :: parts
           end
  end.

Definition path_parts (s : string) : list string :=
  List.filter (fun part => negb (String.eqb part "" || String.eqb part "."))
    (split_slash s).

Definition path_root (s : string) : string :=
  match s with
  | String "/" (String "/" (String "/" _)) => "/"
  | String "/" (String "/" _) => "//"
  | String "/" _ => "/"
  | _ => ""
  end.

(** [str] of the path with this root and these parts. *)
Definition path_str (root : string) (parts : list string) : string :=
  let s := root +:+ String.concat "/" parts in
  if decide (s = "") then "." else s.

(** [str(Path(dir) / name)]: a [name] with a root replaces [dir]. *)
Definition path_join (dir name : string) : string :=
  if decide (path_root name = "")
  then path_str (path_root dir) (path_parts dir ++ path_parts name)
  else path_str (path_root name) (path_parts name).

(** [Path(dir) / name] for a value taken from a document. *)
Definition path_div (dir : string) (name : json) : res string :=
  match name with
  | JStr s => Ok (path_join dir s)
  | _ => Raise TypeError
  end.

(** A request that the file system may refuse. *)
Definition permitted (fs_error : list event -> file_op -> option exn)
  (op : file_op) : M unit :=
  fun w =>
    match fs_error (trace w) op with
    | Some e => (Raise e, w)
    | None => (Ok tt, w)
    end.

(** [Path(path).mkdir(exist_ok=True)]. *)
Definition mkdir (fs_error : list event -> file_op -> option exn)
  (path : string) : M unit :=
  permitted fs_error (MakeDir path).

(** [path.write_bytes(content)]: the file holds [content], or the write is
    refused and nothing is written. *)
Definition write_bytes (fs_error : list event -> file_op -> option exn)
  (path content : string) : M unit :=
  fun w =>
    match fs_error (trace w) (WriteBytes path) with
    | Some e => (Raise e, w)
    | None =>
        (Ok tt, World (heap w) (<[path := content]> (files w)) (trace w))
    end.

(** What the encoder left at [path]. *)
Definition store_video (path : string) (written : option string) : M unit :=
  fun w =>
    match written with
    | Some content =>
        (Ok tt, World (heap w) (<[path := content]> (files w)) (trace w))
    | None => (Ok tt, w)
    end.

Definition read_file (path : string) : M string :=
  fun w =>
    match files w !! path with
    | Some content => (Ok content, w)
    | None => (Raise (OSError "the file could not be found"), w)
    end.

Definition unlink (path : string) : M unit :=
  fun w =>
    match files w !! path with
    | Some _ => (Ok tt, World (heap w) (delete path (files w)) (trace w))
    | None => (Raise FileNotFoundError, w)
    end.

(** ** The video generator *)

Definition dq : string := String "034"%char EmptyString.

(** The instruction given to the language model (lines 60-64). *)
Definition system_instruction : string :=
  "你是一位电影导演和故事板画师。你的任务是将下面的章节文本分解成一系列独立的、可视化的场景。
            对于每个场景，完成两件事：
            1.  `scene_description`: 用一句话简要描述这个场景的核心内容。
            2.  `visual_prompt`: 创作一个详细、生动的提示词，供AI视频生成模型使用。这个提示词应该包含场景、角色、动作、情绪和艺术风格。例如："
  +:+ dq +:+
  "cinematic shot, Alice falling down a rabbit hole, swirling vortex of colors and objects, surreal, dreamlike, high detail"
  +:+ dq +:+
  "。
            确保场景数量在5到10个之间，以保持视频节奏。".

Definition _create_prompt (system_instruction user_content schema : string)
  : string :=
  system_instruction +:+ "

请严格按照下面的JSON Schema格式返回你的分析结果:
" +:+ schema +:+ "

需要分析的文本如下:
---
" +:+ user_content.

(** The error of line 99. *)
Definition missing_node (prompt_node_title : string) : exn :=
  ValueError ("在工作流中找不到标题为 '" +:+ prompt_node_title +:+ "' 的节点。").

(** Lines 41-51, given the address, the uuid drawn for the client and the
    decoded content of the workflow file: the template is loaded once. *)
Definition VideoGenerator_init (comfyui_address uuid4 : string)
  (workflow : json) (w : world) : VideoGenerator * world :=
  let '(v, h) := json_loads workflow (heap w) in
  ({| server_address := comfyui_address; client_id := uuid4;
      base_workflow := v |},
   World h (files w) (trace w)).

Section Pipeline.

Context (E : env) (self : VideoGenerator).

(** *** Scene planner (lines 57-76) *)

Definition split_chapter_into_scenes (chapter_text : string)
  : M (option ChapterScenes) :=
  try_except
    (let prompt :=
       _create_prompt system_instruction chapter_text (model_json_schema E) in
     let* _ := log (GenerateContent prompt) in
     let* text := ask_res (generate_content E) in
     let* scenes := lift (model_validate_json E text) in
     ret (Some scenes))
    (fun _ => ret None).

(** *** Render client (lines 78-116) *)

(** The [while True] loop on [ws.recv()]: frames are taken until a text
    frame decodes to a message of type [executed]. For the close frame of
    the server [recv] returns the empty text, which [json.loads] rejects;
    when the connection is lost with no frame left, [recv] raises. *)
Fixpoint await_executed (frames : list frame) : M json :=
  match frames with
  | [] => raise ConnectionError
  | FrameBytes :: rest => await_executed rest
  | FrameClose :: _ => raise JSONDecodeError
  | FrameText None :: _ => raise JSONDecodeError
  | FrameText (Some message) :: rest =>
      let* ty := lift (json_getitem message (JStr "type")) in
      if json_is_str ty "executed" then
        let* _ := log WsClose in
        let* data := lift (json_getitem message (JStr "data")) in
        lift (json_getitem data (JStr "output"))
      else await_executed rest
  end.

Definition _queue_comfyui_prompt (prompt_workflow : pyval) : M json :=
  let* _ := log (WsConnect (server_address self) (client_id self)) in
  let* accepted := ask (ws_accepts E) in
  if accepted : bool then
    let* message :=
      new_object (ODict [("prompt", prompt_workflow);
                         ("client_id", VStr (client_id self))]) in
    let* payload := py_json_dumps message in
    let* _ := log (WsSend payload) in
    let* frames := ask (ws_frames E) in
    await_executed frames
  else raise ConnectionError.

(** The generator expression of line 96, consumed by [next]: the first node
    id whose [_meta] title is the wanted one. The default [{}] of
    [n.get("_meta", {})] is a new object at each evaluation. *)
Fixpoint find_node (items : list (string * pyval)) (prompt_node_title : string)
  : M (option string) :=
  match items with
  | [] => ret None
  | (nid, n) :: rest =>
      let* entries := dict_entries n in
      let* empty := new_object (ODict []) in
      let meta := default empty (dict_get "_meta" entries) in
      let* meta_entries := dict_entries meta in
      let title := default VNone (dict_get "title" meta_entries) in
      if pyval_is_str title prompt_node_title then ret (Some nid)
      else find_node rest prompt_node_title
  end.

(** Lines 95-101: the working copy of the template with the prompt written
    into the input node. *)
Definition instantiate_workflow (scene_prompt prompt_node_title : string)
  : M pyval :=
  let* text := py_json_dumps (base_workflow self) in
  let* workflow := py_json_loads text in
  let* items := dict_entries workflow in
  let* target_node_id := find_node items prompt_node_title in
  match target_node_id with
  | None | Some EmptyString => raise (missing_node prompt_node_title)
  | Some nid =>
      let* node := py_getitem workflow nid in
      let* inputs := py_getitem node "inputs" in
      let* _ := py_setitem inputs "text" (VStr scene_prompt) in
      ret workflow
  end.

(** Lines 104-116: the loop over the output manifest. *)
Fixpoint fetch_video (outputs : json) (node_ids : list json)
  : M (option string) :=
  match node_ids with
  | [] => ret None
  | node_id :: rest =>
      let* output := lift (json_getitem outputs node_id) in
      let* has_videos := lift (json_contains "videos" output) in
      if has_videos : bool then
        let* videos := lift (json_getitem output (JStr "videos")) in
        let* video_data := lift (json_getitem videos (JNum 0%Z)) in
        let* subfolder := lift (json_get video_data "subfolder" (JStr "")) in
        let* filename := lift (json_getitem video_data (JStr "filename")) in
        let* _ := log (HttpGet (ViewUrl (server_address self) subfolder filename)) in
        let* response := ask_res (http_get E) in
        if decide (response.1 = 200%Z) then
          let* _ := mkdir (fs_error E) "temp_clips" in
          let* clip_path := lift (path_div "temp_clips" filename) in
          let* _ := write_bytes (fs_error E) clip_path response.2 in
          ret (Some clip_path)
        else fetch_video outputs rest
      else fetch_video outputs rest
  end.

Definition _generate_clip_for_scene (scene_prompt prompt_node_title : string)
  : M (option string) :=
  let* workflow := instantiate_workflow scene_prompt prompt_node_title in
  let* outputs := _queue_comfyui_prompt workflow in
  let* node_ids := lift (json_iter outputs) in
  fetch_video outputs node_ids.

(** *** Stitcher (lines 118-133) *)

(** [[VideoFileClip(str(p)) for p in clip_paths]]. *)
Fixpoint open_clips (clip_paths : list string) : M (list string) :=
  match clip_paths with
  | [] => ret []
  | p :: rest =>
      let* content := read_file p in
      let* clip := lift (VideoFileClip E content) in
      let* clips := open_clips rest in
      ret (clip :: clips)
  end.

(** [for p in clip_paths: p.unlink()]. *)
Fixpoint unlink_all (clip_paths : list string) : M unit :=
  match clip_paths with
  | [] => ret tt
  | p :: rest => let* _ := unlink p in unlink_all rest
  end.

Definition _stitch_clips_into_video (clip_paths : list string)
  (output_filename : string) : M string :=
  let* _ := log (Stitch clip_paths) in
  let* clips := open_clips clip_paths in
  let* final_clip := lift (concatenate_videoclips E clips) in
  let* _ := mkdir (fs_error E) "final_videos" in
  let final_path := path_join "final_videos" (output_filename +:+ ".mp4") in
  let* written := lift (write_videofile E final_clip final_path) in
  let* _ := store_video final_path written in
  let* _ := unlink_all clip_paths in
  ret final_path.

(** *** Coordinator (lines 135-151) *)

(** The [for] loop of lines 141-145 with its accumulator [clip_paths]. A
    [Path] is always truthy, so [if clip_path:] tests for [None]. *)
Fixpoint collect_clips (todo : list Scene) (clip_paths : list string)
  : M (list string) :=
  match todo with
  | [] => ret clip_paths
  | scene :: rest =>
      let* clip_path :=
        _generate_clip_for_scene (visual_prompt scene) "Prompt_Input_Node" in
      match clip_path with
      | Some p => collect_clips rest (clip_paths ++ [p])
      | None => collect_clips rest clip_paths
      end
  end.

Definition create_chapter_video (chapter_text output_filename : string)
  : M (option string) :=
  let* scenes_data := split_chapter_into_scenes chapter_text in
  match scenes_data with
  | None => ret None
  | Some data =>
      match scenes data with
      | [] => ret None
      | _ :: _ =>
          let* clip_paths := collect_clips (scenes data) [] in
          match clip_paths with
          | [] => ret None
          | _ :: _ =>
              let* final_path :=
                _stitch_clips_into_video clip_paths output_filename in
              ret (Some final_path)
          end
      end
  end.

End Pipeline.

(** ** The template as a document

    The following definitions read lines 95-101 on documents instead of
    objects: they say what the working copy of a scene must be, and are
    compared with the code on the store further down. *)

(** The document that [json.loads(json.dumps(v))] is built from. *)
Definition copied_document (h : store) (v : pyval) : option json :=
  normalize <$> json_dumps h v.

(** Two stores hold the same objects at the locations from [lo] up to
    [hi]. *)
Definition agrees (g h : store) (lo hi : nat) : Prop :=
  forall l, lo <= l < hi -> g !! l = h !! l.

(** The [_meta] title of node [n] is [title]. *)
Definition titled (title : string) (n : json) : bool :=
  match n with
  | JDict entries =>
      match default (JDict []) (dict_get "_meta" entries) with
      | JDict meta => json_is_str (default JNull (dict_get "title" meta)) title
      | _ => false
      end
  | _ => false
  end.

(** A node on which line 96 can be evaluated: a mapping whose [_meta], when
    present, is a mapping. *)
Definition node_shaped (n : json) : bool :=
  match n with
  | JDict entries =>
      match default (JDict []) (dict_get "_meta" entries) with
      | JDict _ => true
      | _ => false
      end
  | _ => false
  end.

Fixpoint find_title (nodes : list (string * json)) (title : string)
  : res (option string) :=
  match nodes with
  | [] => Ok None
  | (nid, n) :: rest =>
      if node_shaped n then
        if titled title n then Ok (Some nid) else find_title rest title
      else Raise AttributeError
  end.

(** The template with [prompt] as the text input of the first node titled
    [title]. *)
Definition with_prompt (template : json) (title prompt : string) : res json :=
  match template with
  | JDict nodes =>
      match find_title nodes title with
      | Raise e => Raise e
      | Ok None | Ok (Some EmptyString) => Raise (missing_node title)
      | Ok (Some nid) =>
          match dict_get nid nodes with
          | None => Raise (KeyError (JStr nid))
          | Some (JDict entries) =>
              match dict_get "inputs" entries with
              | None => Raise (KeyError (JStr "inputs"))
              | Some (JDict inputs) =>
                  Ok (JDict (dict_set nid
                        (JDict (dict_set "inputs"
                           (JDict (dict_set "text" (JStr prompt) inputs))
                           entries))
                        nodes))
              | Some _ => Raise TypeError
              end
          | Some _ => Raise TypeError
          end
      end
  | _ => Raise AttributeError
  end.

(** The message of line 82 for a working copy [workflow]. *)
Definition job_message (client : string) (workflow : json) : json :=
  JDict [("prompt", workflow); ("client_id", JStr client)].

(** ** Outcomes of the scenes of a run *)

Definition is_ok {A} (r : res A) : bool :=
  match r with Ok _ => true | Raise _ => false end.

(** The clip of a scene whose job produced one. *)
Definition clip_of (r : res (option string)) : option string :=
  match r with Ok (Some p) => Some p | _ => None end.

(** What the render client answers for each scene, each job started in the
    world that the previous one left. *)
Fixpoint scene_outcomes (E : env) (self : VideoGenerator) (todo : list Scene)
  (w : world) : list (res (option string)) :=
  match todo with
  | [] => []
  | scene :: rest =>
      let '(r, w') :=
        _generate_clip_for_scene E self (visual_prompt scene)
          "Prompt_Input_Node" w in
      r :: scene_outcomes E self rest w'
  end.

(** The world that the job of each scene leaves. *)
Fixpoint scene_worlds (E : env) (self : VideoGenerator) (todo : list Scene)
  (w : world) : list world :=
  match todo with
  | [] => []
  | scene :: rest =>
      let '(r, w') :=
        _generate_clip_for_scene E self (visual_prompt scene)
          "Prompt_Input_Node" w in
      w' :: scene_worlds E self rest w'
  end.

(** The number of jobs that return before the first one that raises. *)
Fixpoint returned_before_raise {A} (outs : list (res A)) : nat :=
  match outs with
  | Ok _ :: rest => S (returned_before_raise rest)
  | _ => 0
  end.

(** The clips that [VideoFileClip] opens for the files at [clip_paths]. *)
Fixpoint decode_all (E : env) (clip_paths : list string)
  (fs : gmap string string) : res (list string) :=
  match clip_paths with
  | [] => Ok []
  | p :: rest =>
      match fs !! p with
      | None => Raise (OSError "the file could not be found")
      | Some content =>
          match VideoFileClip E content with
          | Raise e => Raise e
          | Ok clip =>
              match decode_all E rest fs with
              | Raise e => Raise e
              | Ok clips => Ok (clip :: clips)
              end
          end
      end
  end.

(** The result of opening, concatenating and encoding the clips (the
    output directory is made in between), which precedes every change that
    the stitcher makes to the files. *)
Definition encode (E : env) (clip_paths : list string)
  (output_filename : string) (w : world) : res (option string) :=
  match decode_all E clip_paths (files w) with
  | Ok clips =>
      match concatenate_videoclips E clips with
      | Ok final_clip =>
          match fs_error E (trace w ++ [Stitch clip_paths])
                  (MakeDir "final_videos") with
          | Some e => Raise e
          | None =>
              write_videofile E final_clip
                (path_join "final_videos" (output_filename +:+ ".mp4"))
          end
      | Raise e => Raise e
      end
  | Raise e => Raise e
  end.

(** Document [j] is built faithfully: the objects made for it sit in fresh
    locations after those of the store it is built in, and are read back as
    [j] from every store that holds them, with fuel for each of them. *)
Definition built (j : json) : Prop :=
  forall h v h',
    alloc j h = (v, h') ->
    h `prefix_of` h' /\
    forall g f,
      agrees g h' (length h) (length h') ->
      length h' <= length h + f ->
      dumps f g v = Some j.

(** The exception that stops the loop over the scenes, if any. *)
Fixpoint first_raise {A} (outs : list (res A)) : option exn :=
  match outs with
  | [] => None
  | Ok _ :: rest => first_raise rest
  | Raise e :: _ => Some e
  end.

(** ** Well-formed output manifests

    An entry of the manifest of section 6 of the specification: a mapping
    whose [videos], when present, is a list that starts with a mapping
    naming a file. *)
Definition entry_ok (output : json) : bool :=
  match output with
  | JDict d =>
      match dict_get "videos" d with
      | None => true
      | Some (JList (JDict video :: _)) =>
          bool_decide (is_Some (dict_get "filename" video))
      | Some _ => false
      end
  | _ => false
  end.

Definition manifest_ok (outputs : json) : bool :=
  match outputs with
  | JDict kvs => forallb (fun kv => entry_ok kv.2) kvs
  | _ => false
  end.

(** The request for the first video of an entry of the manifest
    (lines 106-108). *)
Definition video_request (self : VideoGenerator)
  (video : list (string * json)) (filename : json) : event :=
  HttpGet (ViewUrl (server_address self)
             (default (JStr "") (dict_get "subfolder" video)) filename).

(** The traffic with the render server in a trace. *)
Definition render_events (tr : list event) : list event :=
  List.filter render_traffic tr.

(** The request that the planner sends for a chapter. *)
Definition planner_request (E : env) (chapter_text : string) : event :=
  GenerateContent
    (_create_prompt system_instruction chapter_text (model_json_schema E)).

(** The keys of every mapping of a document are distinct, as they are in
    every Python [dict]. *)
Fixpoint unique_keys (j : json) : bool :=
  match j with
  | JList js => forallb unique_keys js
  | JDict kvs =>
      bool_decide (NoDup kvs.*1) && forallb (fun kv => unique_keys kv.2) kvs
  | _ => true
  end.

(** The text input of node [nid] in a workflow document. *)
Definition text_input (workflow : json) (nid : string) : res json :=
  match json_getitem workflow (JStr nid) with
  | Ok node =>
      match json_getitem node (JStr "inputs") with
      | Ok inputs => json_getitem inputs (JStr "text")
      | Raise e => Raise e
      end
  | Raise e => Raise e
  end.

(** ** A render server to run the pipeline against *)

Module Scenario.

Definition template : json :=
  JDict [("3", JDict [("inputs", JDict [("seed", JNum 7)]);
                      ("_meta", JDict [("title", JStr "Sampler")])]);
         ("6", JDict [("inputs", JDict [("text", JStr "")]);
                      ("_meta", JDict [("title", JStr "Prompt_Input_Node")])])].

(** The same workflow without its prompt node. *)
Definition template_without_input : json :=
  JDict [("3", JDict [("inputs", JDict [("seed", JNum 7)]);
                      ("_meta", JDict [("title", JStr "Sampler")])]);
         ("6", JDict [("inputs", JDict [("text", JStr "")])])].

Definition scene (prompt : string) : Scene :=
  {| scene_description := "scene " +:+ prompt; visual_prompt := prompt |}.

Definition three_scenes : ChapterScenes :=
  {| scenes := [scene "dawn"; scene "storm"; scene "dusk"] |}.

Definition manifest (filename : string) : json :=
  JDict [("9", JDict [("videos",
            JList [JDict [("filename", JStr filename);
                          ("subfolder", JStr "")]])])].

Definition executed (filename : string) : frame :=
  FrameText (Some (JDict [("type", JStr "executed");
                          ("data", JDict [("output", manifest filename)])])).

Definition progress : frame :=
  FrameText (Some (JDict [("type", JStr "progress")])).

Definition clip_name (n : nat) : string :=
  match n with
  | 1 => "clip1.mp4"
  | 2 => "clip2.mp4"
  | _ => "clip3.mp4"
  end.

Definition connections (tr : list event) : nat :=
  length (omap (fun e => match e with WsConnect _ _ => Some e | _ => None end) tr).

Definition downloads (tr : list event) : nat :=
  length (omap (fun e => match e with HttpGet _ => Some e | _ => None end) tr).

(** The language model answers [planner]; the render server accepts the
    n-th connection when [accepts n], names the clip of the n-th job
    [clip_name n], and answers the n-th download with [status n]. The file
    system refuses nothing. The media library decodes and encodes
    everything, and refuses to concatenate nothing. *)
Definition server (planner : res string) (accepts : nat -> bool)
  (status : nat -> Z) : env :=
  {| model_json_schema := "{}";
     generate_content := fun _ => planner;
     model_validate_json := fun text =>
       if decide (text = "three scenes") then Ok three_scenes
       else if decide (text = "no scene") then Ok {| scenes := [] |}
       else Raise (LibraryError "validation error");
     ws_accepts := fun tr => accepts (connections tr);
     ws_frames := fun tr =>
       [FrameBytes; progress; executed (clip_name (length (sent_jobs tr)))];
     http_get := fun tr => Ok (status (downloads tr), "video");
     fs_error := fun _ _ => None;
     VideoFileClip := fun content => Ok content;
     concatenate_videoclips := fun clips =>
       match clips with
       | [] => Raise (ValueError "max() arg is an empty sequence")
       | _ => Ok (String.concat "+" clips)
       end;
     write_videofile := fun clip _ => Ok (Some clip) |}.

Definition always {A} (a : A) : nat -> A := fun _ => a.

(** Everything works. *)
Definition healthy : env := server (Ok "three scenes") (always true) (always 200%Z).

(** The second download is answered with status 500. *)
Definition second_download_fails : env :=
  server (Ok "three scenes") (always true)
    (fun n => if decide (n = 2) then 500%Z else 200%Z).

(** The first download is answered with status 500. *)
Definition first_download_fails : env :=
  server (Ok "three scenes") (always true)
    (fun n => if decide (n = 1) then 500%Z else 200%Z).

(** A manifest with two video outputs. *)
Definition two_outputs : json :=
  JDict [("9", JDict [("videos",
            JList [JDict [("filename", JStr "first.mp4");
                          ("subfolder", JStr "")]])]);
         ("12", JDict [("videos",
            JList [JDict [("filename", JStr "second.mp4");
                          ("subfolder", JStr "")]])])].

(** Every download is answered with status 500. *)
Definition no_download : env :=
  server (Ok "three scenes") (always true) (always 500%Z).

(** The first connection is refused, the later ones are accepted. *)
Definition first_connection_refused : env :=
  server (Ok "three scenes") (fun n => bool_decide (n <> 1)) (always 200%Z).

(** The second connection is refused, the others are accepted. *)
Definition second_connection_refused : env :=
  server (Ok "three scenes") (fun n => bool_decide (n <> 2)) (always 200%Z).


(** The planner finds no scene. *)
Definition nothing_to_show : env :=
  server (Ok "no scene") (always true) (always 200%Z).

(** The answer of the language model is not a list of scenes. *)
Definition planner_confused : env :=
  server (Ok "I cannot do that") (always true) (always 200%Z).

(** An encoder that fails. *)
Definition encoder_fails : env :=
  {| model_json_schema := model_json_schema healthy;
     generate_content := generate_content healthy;
     model_validate_json := model_validate_json healthy;
     ws_accepts := ws_accepts healthy;
     ws_frames := ws_frames healthy;
     http_get := http_get healthy;
     fs_error := fs_error healthy;
     VideoFileClip := VideoFileClip healthy;
     concatenate_videoclips := concatenate_videoclips healthy;
     write_videofile := fun _ _ => Raise (OSError "ffmpeg failed") |}.

(** An encoder that returns without having written the video. *)
Definition encoder_writes_nothing : env :=
  {| model_json_schema := model_json_schema healthy;
     generate_content := generate_content healthy;
     model_validate_json := model_validate_json healthy;
     ws_accepts := ws_accepts healthy;
     ws_frames := ws_frames healthy;
     http_get := http_get healthy;
     fs_error := fs_error healthy;
     VideoFileClip := VideoFileClip healthy;
     concatenate_videoclips := concatenate_videoclips healthy;
     write_videofile := fun _ _ => Ok None |}.

Definition empty_world : world := World [] ∅ [].

Definition generator : VideoGenerator :=
  (VideoGenerator_init "127.0.0.1:8188" "client-1" template empty_world).1.

Definition start : world :=
  (VideoGenerator_init "127.0.0.1:8188" "client-1" template empty_world).2.

Definition generator_without_input : VideoGenerator :=
  (VideoGenerator_init "127.0.0.1:8188" "client-1" template_without_input
     empty_world).1.

Definition start_without_input : world :=
  (VideoGenerator_init "127.0.0.1:8188" "client-1" template_without_input
     empty_world).2.

(** Two clips on disk. *)
Definition two_clips : world :=
  World [] (<["temp_clips/a.mp4" := "A"]> (<["temp_clips/b.mp4" := "B"]> ∅)) [].

End Scenario.

(** ** The rest of the module, and its caller *)

(** Events of a trace, by kind. *)
Definition connection_attempts (tr : list event) : list event :=
  omap (fun e => match e with WsConnect _ _ => Some e | _ => None end) tr.

Definition planner_requests (tr : list event) : list string :=
  omap (fun e => match e with GenerateContent p => Some p | _ => None end) tr.

Definition downloads (tr : list event) : list view_url :=
  omap (fun e => match e with HttpGet u => Some u | _ => None end) tr.

(** A frame that the loop of lines 85-91 passes over: a binary frame, or a
    message whose type is read and is not [executed]. *)
Definition passed_over (fr : frame) : bool :=
  match fr with
  | FrameBytes => true
  | FrameText (Some message) =>
      match json_getitem message (JStr "type") with
      | Ok ty => negb (json_is_str ty "executed")
      | Raise _ => false
      end
  | FrameText None | FrameClose => false
  end.

(** [message['data']['output']] (line 91). *)
Definition message_output (message : json) : res json :=
  match json_getitem message (JStr "data") with
  | Ok data => json_getitem data (JStr "output")
  | Raise e => Raise e
  end.

(** [json.loads(json.dumps(v))] (line 95). *)
Definition deep_copy (v : pyval) : M pyval :=
  let* text := py_json_dumps v in
  py_json_loads text.

(** The objects that a value leads to in a store: the object that it
    refers to, and the objects that the entries and the elements of that
    object lead to. *)
Inductive reaches (h : store) : pyval -> nat -> Prop :=
  | reaches_here l : reaches h (VRef l) l
  | reaches_entry l kvs k v l' :
      h !! l = Some (ODict kvs) -> (k, v) ∈ kvs -> reaches h v l' ->
      reaches h (VRef l) l'
  | reaches_elem l vs v l' :
      h !! l = Some (OList vs) -> v ∈ vs -> reaches h v l' ->
      reaches h (VRef l) l'.

(** Document [j] is built of new objects only: in every store that holds
    the objects made for it, its value leads to these objects and to no
    other. *)
Definition built_fresh (j : json) : Prop :=
  forall h v h',
    alloc j h = (v, h') ->
    forall g,
      agrees g h' (length h) (length h') ->
      forall l, reaches g v l -> length h <= l < length h'.

(** [output_dir / f"{output_filename}.mp4"] (lines 124-126). *)
Definition final_video_path (output_filename : string) : string :=
  path_join "final_videos" (output_filename +:+ ".mp4").

(** An entry of the output manifest without a videos payload. *)
Definition without_videos (output : json) : bool :=
  match output with
  | JDict d => bool_decide (dict_get "videos" d = None)
  | _ => false
  end.

(** The constructor (lines 41-51). [json.loads] on the text of the workflow
    file is [json_decode]; the client id is the uuid drawn. *)
Definition VideoGenerator_new (json_decode : string -> res json)
  (api_key comfyui_address uuid4 workflow_path : string) : M VideoGenerator :=
  fun w =>
    match files w !! workflow_path with
    | None => (Raise FileNotFoundError, w)
    | Some text =>
        match json_decode text with
        | Raise e => (Raise e, w)
        | Ok workflow =>
            let '(self, w') :=
              VideoGenerator_init comfyui_address uuid4 workflow w in
            (Ok self, w')
        end
    end.

(** *** The request handler of [app.py] (lines 80-98) *)

Definition COMFYUI_ADDRESS : string := "127.0.0.1:8188".
Definition COMFYUI_WORKFLOW_FILE : string := "workflow_video.json".

(** What the handler of line 97 caught: an exception of the pipeline, or
    the [gr.Error] of line 95 raised for a run that produced nothing. *)
Inductive failure :=
  | PipelineError (e : exn)
  | NothingGenerated.

(** The [gr.Error]s of the handler, by the line that raises them. *)
Inductive gr_error :=
  | ApiKeyMissing                  (* line 82 *)
  | ChapterMissing                 (* line 83 *)
  | WorkflowFileMissing            (* line 84 *)
  | GenerationError (f : failure). (* line 98 *)

(** The handler returns an update that shows the video at a path, or raises
    a [gr.Error]. *)
Inductive response :=
  | ShowVideo (path : string)
  | GrError (err : gr_error).

(** [int(time.time())] is [now]. *)
Definition generate_video_request (json_decode : string -> res json)
  (E : env) (uuid4 : string) (now : Z) (chapter_text api_key : string)
  (w : world) : response * world :=
  if decide (api_key = "") then (GrError ApiKeyMissing, w)
  else if decide (chapter_text = "") then (GrError ChapterMissing, w)
  else if decide (files w !! COMFYUI_WORKFLOW_FILE = None)
  then (GrError WorkflowFileMissing, w)
  else
    match VideoGenerator_new json_decode api_key COMFYUI_ADDRESS uuid4
            COMFYUI_WORKFLOW_FILE w with
    | (Raise e, w1) => (GrError (GenerationError (PipelineError e)), w1)
    | (Ok video_generator, w1) =>
        let output_filename := "chapter_video_" +:+ pretty now in
        match create_chapter_video E video_generator chapter_text
                output_filename w1 with
        | (Ok (Some final_video_path), w2) => (ShowVideo final_video_path, w2)
        | (Ok None, w2) => (GrError (GenerationError NothingGenerated), w2)
        | (Raise e, w2) => (GrError (GenerationError (PipelineError e)), w2)
        end
    end.

(** An entry that the loop of lines 104-105 passes over: [outputs[node_id]]
    is read and holds no [videos]. *)
Definition entry_passed_over (outputs node_id : json) : bool :=
  match json_getitem outputs node_id with
  | Ok output =>
      match json_contains "videos" output with
      | Ok has_videos => negb has_videos
      | Raise _ => false
      end
  | Raise _ => false
  end.

(** ** Further cases *)

Module Cases.

Definition sampler : string * json :=
  ("3", JDict [("inputs", JDict [("seed", JNum 7)]);
               ("_meta", JDict [("title", JStr "Sampler")])]).

(** The prompt node has the empty id. *)
Definition template_empty_id : json :=
  JDict [sampler;
         ("", JDict [("inputs", JDict [("text", JStr "")]);
                     ("_meta", JDict [("title", JStr "Prompt_Input_Node")])])].

(** The prompt node has no inputs. *)
Definition template_without_inputs : json :=
  JDict [sampler;
         ("6", JDict [("_meta", JDict [("title", JStr "Prompt_Input_Node")])])].

Definition generator_empty_id : VideoGenerator :=
  (VideoGenerator_init "127.0.0.1:8188" "client-1" template_empty_id
     Scenario.empty_world).1.

Definition start_empty_id : world :=
  (VideoGenerator_init "127.0.0.1:8188" "client-1" template_empty_id
     Scenario.empty_world).2.

Definition generator_without_inputs : VideoGenerator :=
  (VideoGenerator_init "127.0.0.1:8188" "client-1" template_without_inputs
     Scenario.empty_world).1.

Definition start_without_inputs : world :=
  (VideoGenerator_init "127.0.0.1:8188" "client-1" template_without_inputs
     Scenario.empty_world).2.

(** A decoder that knows one workflow file. *)
Definition decode (text : string) : res json :=
  if decide (text = "the workflow") then Ok Scenario.template
  else Raise JSONDecodeError.

(** The workflow file is in place. *)
Definition installed : world :=
  World [] (<["workflow_video.json" := "the workflow"]> ∅) [].

End Cases.

(** * Proofs *)

(** ** Induction on documents *)

Lemma json_ind' (P : json -> Prop) :
  P JNull -> (forall b, P (JBool b)) -> (forall n, P (JNum n)) ->
  (forall x, P (JReal x)) -> (forall s, P (JStr s)) ->
  (forall js, Forall P js -> P (JList js)) ->
  (forall kvs, Forall (fun kv => P kv.2) kvs -> P (JDict kvs)) ->
  forall j, P j.
Proof.
  intros HN HB HZ HR HS HL HD.
  fix IH 1.
  intros [| b | n | x | s | js | kvs];
    [apply HN | apply HB | apply HZ | apply HR | apply HS | |].
  - apply HL. induction js as [| j js IHjs]; constructor; auto.
  - apply HD. induction kvs as [| [k j] kvs IHkvs]; constructor; auto.
Qed.

(** ** Dictionaries *)

Lemma dict_get_set_eq {A} k (v : A) d : dict_get k (dict_set k v d) = Some v.
Proof.
  induction d as [| [k' v'] d IH]; simpl.
  - by rewrite decide_True.
  - destruct (decide (k = k')) as [-> | Hne]; simpl.
    + by rewrite decide_True.
    + by rewrite decide_False.
Qed.

(** Entries read one by one: lookups and updates commute with the reading. *)
Lemma dict_get_Forall2 {A B} (R : A -> B -> Prop) k
  (d : list (string * A)) (d' : list (string * B)) :
  Forall2 (fun x y => x.1 = y.1 /\ R x.2 y.2) d d' ->
  match dict_get k d with
  | Some v => exists j, dict_get k d' = Some j /\ R v j
  | None => dict_get k d' = None
  end.
Proof.
  induction 1 as [| [k1 v] [k2 j] d d' [Hk HR] _ IH]; simpl in *; [done |].
  subst k2. destruct (decide (k = k1)); eauto.
Qed.

Lemma dict_set_Forall2 {A B} (R : A -> B -> Prop) k v j
  (d : list (string * A)) (d' : list (string * B)) :
  R v j ->
  Forall2 (fun x y => x.1 = y.1 /\ R x.2 y.2) d d' ->
  Forall2 (fun x y => x.1 = y.1 /\ R x.2 y.2) (dict_set k v d) (dict_set k j d').
Proof.
  intros HR. induction 1 as [| [k1 v1] [k2 j2] d d' [Hk HR'] Hrest IH];
    simpl in *.
  - by repeat constructor.
  - subst k2. destruct (decide (k = k1)); constructor; auto.
Qed.

(** ** Reading the store *)

Lemma dumps_entry_Some d kv e :
  dumps_entry d kv = Some e <-> e.1 = kv.1 /\ d kv.2 = Some e.2.
Proof.
  unfold dumps_entry. destruct kv as [k v], e as [k' j]; simpl.
  destruct (d v) as [j0 |]; simpl; split.
  - by intros [= <- <-].
  - by intros [-> [= ->]].
  - done.
  - by intros [_ ?].
Qed.

Lemma mapM_entries f g kvs es :
  mapM (dumps_entry (dumps f g)) kvs = Some es <->
  Forall2 (fun x y => x.1 = y.1 /\ dumps f g x.2 = Some y.2) kvs es.
Proof.
  rewrite mapM_Some.
  split; intros H; (eapply Forall2_impl; [exact H |]); intros x y;
    rewrite dumps_entry_Some; intuition congruence.
Qed.

Lemma dumps_S f g l :
  dumps (S f) g (VRef l) =
  match g !! l with
  | Some (OList vs) => JList <$> mapM (dumps f g) vs
  | Some (ODict kvs) => JDict <$> mapM (dumps_entry (dumps f g)) kvs
  | None => None
  end.
Proof. done. Qed.

Lemma dumps_ref f g l j :
  dumps f g (VRef l) = Some j ->
  exists f', f = S f' /\
    ((exists vs js, g !! l = Some (OList vs) /\ j = JList js /\
        Forall2 (fun v j => dumps f' g v = Some j) vs js) \/
     (exists kvs es, g !! l = Some (ODict kvs) /\ j = JDict es /\
        Forall2 (fun x y => x.1 = y.1 /\ dumps f' g x.2 = Some y.2) kvs es)).
Proof.
  destruct f as [| f']; [done |]. rewrite dumps_S.
  intros H. exists f'. split; [done |].
  destruct (g !! l) as [[kvs | vs] |]; [| | done].
  - right. destruct (mapM _ kvs) as [es |] eqn:Hm; simplify_eq/=.
    exists kvs, es. by rewrite <- mapM_entries.
  - left. destruct (mapM _ vs) as [js |] eqn:Hm; simplify_eq/=.
    exists vs, js. by rewrite <- mapM_Some.
Qed.

(** Reading needs only the objects that are there, and no more fuel than it
    took. *)
Lemma dumps_mono f g v j :
  dumps f g v = Some j ->
  forall f' g', f <= f' -> g `prefix_of` g' -> dumps f' g' v = Some j.
Proof.
  revert v j. induction f as [| f IH]; intros v j H f' g' Hf Hg.
  - destruct v; simpl in *; try done; by destruct f'.
  - destruct v as [| | | | | l]; try (by destruct f').
    apply dumps_ref in H as (f0 & [= <-] & H).
    destruct f' as [| f']; [lia |]. rewrite dumps_S.
    destruct H as [(vs & js & Hl & -> & Hall) | (kvs & es & Hl & -> & Hall)].
    + rewrite (prefix_lookup_Some _ _ _ _ Hl Hg).
      assert (mapM (dumps f' g') vs = Some js) as ->; [| done].
      apply mapM_Some. eapply Forall2_impl; [done |].
      intros; eapply IH; eauto with lia.
    + rewrite (prefix_lookup_Some _ _ _ _ Hl Hg).
      assert (mapM (dumps_entry (dumps f' g')) kvs = Some es) as ->; [| done].
      apply mapM_entries. eapply Forall2_impl; [done |].
      intros ?? [? ?]; split; [done |]. eapply IH; eauto with lia.
Qed.

(** ** Building objects *)

Lemma agrees_prefix g h h' lo hi lo' hi' :
  agrees g h' lo hi -> h `prefix_of` h' ->
  lo <= lo' -> hi' <= hi -> hi' <= length h ->
  agrees g h lo' hi'.
Proof.
  intros Hg Hp ??? l Hl. rewrite Hg by lia.
  symmetry. apply prefix_lookup_lt; [lia | done].
Qed.

Lemma alloc_items_nil al h : alloc_items al [] h = ([], h).
Proof. done. Qed.

Lemma alloc_items_cons al j js h :
  alloc_items al (j :: js) h =
  let '(v, h1) := al j h in
  let '(vs, h2) := alloc_items al js h1 in (v :: vs, h2).
Proof. done. Qed.

Lemma alloc_members_nil al h : alloc_members al [] h = ([], h).
Proof. done. Qed.

Lemma alloc_members_cons al kv kvs h :
  alloc_members al (kv :: kvs) h =
  let '(v, h1) := al kv.2 h in
  let '(vs, h2) := alloc_members al kvs h1 in ((kv.1, v) :: vs, h2).
Proof. done. Qed.

Lemma alloc_JList js h :
  alloc (JList js) h =
  let '(vs, h') := alloc_items alloc js h in
  (VRef (length h'), h' ++ [OList vs]).
Proof. done. Qed.

Lemma alloc_JDict kvs h :
  alloc (JDict kvs) h =
  let '(vs, h') := alloc_members alloc kvs h in
  (VRef (length h'), h' ++ [ODict vs]).
Proof. done. Qed.

Lemma alloc_items_built js :
  Forall built js ->
  forall h vs h',
    alloc_items alloc js h = (vs, h') ->
    h `prefix_of` h' /\
    forall g f,
      agrees g h' (length h) (length h') ->
      length h' <= length h + f ->
      Forall2 (fun v j => dumps f g v = Some j) vs js.
Proof.
  induction 1 as [| j js Hj _ IH]; intros h vs h' Heq.
  - rewrite alloc_items_nil in Heq. simplify_eq. split; [done |].
    intros; constructor.
  - rewrite alloc_items_cons in Heq.
    destruct (alloc j h) as [v h1] eqn:Hv.
    destruct (alloc_items alloc js h1) as [vs' h2] eqn:Hvs. simplify_eq.
    destruct (Hj _ _ _ Hv) as [Hp1 Hread].
    destruct (IH _ _ _ Hvs) as [Hp2 Hreads].
    pose proof (prefix_length _ _ Hp1). pose proof (prefix_length _ _ Hp2).
    split; [by etrans |]. intros g f Hg Hf. constructor.
    + apply Hread; [| lia]. eapply agrees_prefix; eauto.
    + apply Hreads; [| lia]. eapply agrees_prefix; eauto; lia.
Qed.

Lemma alloc_members_built kvs :
  Forall (fun kv => built kv.2) kvs ->
  forall h vs h',
    alloc_members alloc kvs h = (vs, h') ->
    h `prefix_of` h' /\
    forall g f,
      agrees g h' (length h) (length h') ->
      length h' <= length h + f ->
      Forall2 (fun x y => x.1 = y.1 /\ dumps f g x.2 = Some y.2) vs kvs.
Proof.
  induction 1 as [| [k j] kvs Hj _ IH]; intros h vs h' Heq.
  - rewrite alloc_members_nil in Heq. simplify_eq. split; [done |].
    intros; constructor.
  - rewrite alloc_members_cons in Heq. simpl in Heq, Hj.
    destruct (alloc j h) as [v h1] eqn:Hv.
    destruct (alloc_members alloc kvs h1) as [vs' h2] eqn:Hvs. simplify_eq.
    destruct (Hj _ _ _ Hv) as [Hp1 Hread].
    destruct (IH _ _ _ Hvs) as [Hp2 Hreads].
    pose proof (prefix_length _ _ Hp1). pose proof (prefix_length _ _ Hp2).
    split; [by etrans |]. intros g f Hg Hf. constructor.
    + split; [done |]. apply Hread; [| lia]. eapply agrees_prefix; eauto.
    + apply Hreads; [| lia]. eapply agrees_prefix; eauto; lia.
Qed.

Lemma alloc_built j : built j.
Proof.
  induction j as [| b | n | x | s | js IH | kvs IH] using json_ind';
    intros h v h' Heq.
  1-5: simpl in Heq; simplify_eq; split; [done |]; intros g [| f] _ _; done.
  - rewrite alloc_JList in Heq.
    destruct (alloc_items alloc js h) as [vs h1] eqn:Hvs. simplify_eq.
    destruct (alloc_items_built _ IH _ _ _ Hvs) as [Hp Hreads].
    pose proof (prefix_length _ _ Hp).
    split; [by apply prefix_app_r |]. rewrite length_app. simpl.
    intros g [| f] Hg Hf; [lia |]. rewrite dumps_S, Hg by lia.
    rewrite list_lookup_middle by done.
    erewrite (proj2 (mapM_Some _ _ _)); [done |].
    apply Hreads; [| lia]. eapply agrees_prefix; eauto using prefix_app_r; lia.
  - rewrite alloc_JDict in Heq.
    destruct (alloc_members alloc kvs h) as [vs h1] eqn:Hvs. simplify_eq.
    destruct (alloc_members_built _ IH _ _ _ Hvs) as [Hp Hreads].
    pose proof (prefix_length _ _ Hp).
    split; [by apply prefix_app_r |]. rewrite length_app. simpl.
    intros g [| f] Hg Hf; [lia |]. rewrite dumps_S, Hg by lia.
    rewrite list_lookup_middle by done.
    erewrite (proj2 (mapM_entries _ _ _ _)); [done |].
    apply Hreads; [| lia]. eapply agrees_prefix; eauto using prefix_app_r; lia.
Qed.

Lemma all_built js : Forall built js.
Proof. apply Forall_true, alloc_built. Qed.

Lemma all_members_built (kvs : list (string * json)) :
  Forall (fun kv => built kv.2) kvs.
Proof. apply Forall_true. intros kv. apply alloc_built. Qed.

(** What is stored for a document tells mappings from everything else. *)
Lemma alloc_dict_at j ha v hb g :
  alloc j ha = (v, hb) ->
  agrees g hb (length ha) (length hb) ->
  match j with
  | JDict ms =>
      exists pvs hm,
        alloc_members alloc ms ha = (pvs, hm) /\ v = VRef (length hm) /\
        hb = hm ++ [ODict pvs] /\ dict_at g v = Some pvs
  | _ => dict_at g v = None
  end.
Proof.
  intros Heq Hg. destruct j as [| b | n | x | s | js | ms].
  1-5: by simpl in Heq; simplify_eq.
  - rewrite alloc_JList in Heq.
    destruct (alloc_items alloc js ha) as [vs h1] eqn:Hvs. simplify_eq.
    destruct (alloc_items_built js (all_built js)
                _ _ _ Hvs) as [Hp _].
    apply prefix_length in Hp. unfold dict_at.
    rewrite Hg, list_lookup_middle; [done.. |]. rewrite length_app; simpl; lia.
  - rewrite alloc_JDict in Heq.
    destruct (alloc_members alloc ms ha) as [pvs h1] eqn:Hvs. simplify_eq.
    destruct (alloc_members_built ms
                (all_members_built ms)
                _ _ _ Hvs) as [Hp _].
    apply prefix_length in Hp. exists pvs, h1. repeat split. unfold dict_at.
    rewrite Hg, list_lookup_middle; [done.. |]. rewrite length_app; simpl; lia.
Qed.

(** One entry of a mapping just built, and what the mapping reads as once
    the objects of that entry, and only they, have been changed. *)
Lemma alloc_members_child ms :
  forall h pvs h1 k,
    alloc_members alloc ms h = (pvs, h1) ->
    match dict_get k pvs with
    | None => dict_get k ms = None
    | Some vc =>
        exists jc ha hb,
          dict_get k ms = Some jc /\ alloc jc ha = (vc, hb) /\
          h `prefix_of` ha /\ ha `prefix_of` hb /\ hb `prefix_of` h1 /\
          forall g f jc',
            (forall l, length h <= l < length h1 ->
                       ~ (length ha <= l < length hb) -> g !! l = h1 !! l) ->
            length h1 <= length h + f ->
            dumps f g vc = Some jc' ->
            Forall2 (fun x y => x.1 = y.1 /\ dumps f g x.2 = Some y.2)
              pvs (dict_set k jc' ms)
    end.
Proof.
  induction ms as [| [k0 j0] ms IH]; intros h pvs h1 k Heq.
  - rewrite alloc_members_nil in Heq. by simplify_eq.
  - rewrite alloc_members_cons in Heq. simpl in Heq.
    destruct (alloc j0 h) as [v0 hx] eqn:Hv0.
    destruct (alloc_members alloc ms hx) as [vs h2] eqn:Hvs. simplify_eq.
    destruct (alloc_built j0 _ _ _ Hv0) as [Hp0 Hread0].
    destruct (alloc_members_built ms
                (all_members_built ms)
                _ _ _ Hvs) as [Hp1 Hreads].
    pose proof (prefix_length _ _ Hp0). pose proof (prefix_length _ _ Hp1).
    simpl. destruct (decide (k = k0)) as [-> | Hne].
    + exists j0, h, hx. repeat split; [done.. |].
      intros g f jc' Hg Hf Hjc. constructor; [done |].
      apply Hreads; [| lia]. intros l Hl. apply Hg; lia.
    + specialize (IH _ _ _ k Hvs). destruct (dict_get k vs) as [vc |]; [| done].
      destruct IH as (jc & ha & hb & Hjc & Hvc & Hpa & Hpb & Hpc & Hupd).
      pose proof (prefix_length _ _ Hpa). pose proof (prefix_length _ _ Hpb).
      pose proof (prefix_length _ _ Hpc).
      exists jc, ha, hb. repeat split; [done.. | by etrans | done | done |].
      intros g f jc' Hg Hf Hread. constructor.
      * split; [done |]. apply Hread0; [| lia]. intros l Hl.
        rewrite Hg by lia. symmetry. apply prefix_lookup_lt; [lia | done].
      * apply Hupd; [| lia | done]. intros l Hl Hout. apply Hg; [lia | done].
Qed.

(** ** Looking at objects through what they read as *)

Lemma dumps_dict_at f g v j :
  dumps f g v = Some j ->
  match j with
  | JDict es =>
      exists kvs f',
        f = S f' /\ dict_at g v = Some kvs /\
        Forall2 (fun x y => x.1 = y.1 /\ dumps f' g x.2 = Some y.2) kvs es
  | _ => dict_at g v = None
  end.
Proof.
  intros H. destruct v as [| | | | | l].
  1-5: by destruct f; simpl in H; simplify_eq.
  apply dumps_ref in H as (f' & -> & H). unfold dict_at.
  destruct H as [(vs & js & -> & -> & _) | (kvs & es & -> & -> & Hall)]; eauto.
Qed.

Lemma dumps_is_str f g v j s :
  dumps f g v = Some j -> pyval_is_str v s = json_is_str j s.
Proof.
  intros H. destruct v as [| | | | | l].
  1-5: by destruct f; simpl in H; simplify_eq.
  apply dumps_ref in H as (f' & -> & H).
  by destruct H as [(vs & js & _ & -> & _) | (kvs & es & _ & -> & _)].
Qed.

(** ** The scan for the input node *)

Lemma find_node_spec title items :
  forall nodes f w,
    Forall2 (fun x y => x.1 = y.1 /\ dumps f (heap w) x.2 = Some y.2)
      items nodes ->
    exists w',
      find_node items title w = (find_title nodes title, w') /\
      heap w `prefix_of` heap w' /\ files w' = files w /\ trace w' = trace w.
Proof.
  induction items as [| [nid n] items IH]; intros nodes f w Hall.
  - inversion Hall; subst. by exists w.
  - inversion Hall as [| ? [nid' jn] ? nodes' [Hk Hn] Hrest]; subst.
    simpl in Hk, Hn. subst nid'.
    cbn [find_node find_title]. unfold bind at 1. unfold dict_entries at 1.
    pose proof (dumps_dict_at _ _ _ _ Hn) as Hat.
    destruct jn as [| b | z | x | s | js | es];
      try (rewrite Hat; exists w; done).
    destruct Hat as (kvs & f' & -> & -> & Hes).
    unfold bind at 1. unfold new_object at 1.
    set (w1 := World (heap w ++ [ODict []]) (files w) (trace w)).
    assert (heap w `prefix_of` heap w1) as Hp1 by (by apply prefix_app_r).
    assert (exists w', find_node items title w1 = (find_title nodes' title, w')
              /\ heap w1 `prefix_of` heap w' /\ files w' = files w1
              /\ trace w' = trace w1) as (w' & Hfind & Hp' & Hf' & Ht').
    { apply (IH _ (S f')). eapply Forall2_impl; [exact Hrest |].
      intros ?? [? ?]; split; [done |]. eapply dumps_mono; eauto. }
    assert (exists w', find_node items title w1 = (find_title nodes' title, w')
              /\ heap w `prefix_of` heap w' /\ files w' = files w
              /\ trace w' = trace w) as Hcont.
    { exists w'. repeat split; [done | by etrans | done | done]. }
    clear Hfind Hp' Hf' Ht' w'.
    pose proof (dict_get_Forall2
                  (fun v j => dumps f' (heap w) v = Some j) "_meta" _ _ Hes)
      as Hmeta.
    unfold node_shaped, titled.
    destruct (dict_get "_meta" kvs) as [vm |] eqn:Hvm.
    + destruct Hmeta as (jm & -> & Hjm). simpl default.
      apply (dumps_mono _ _ _ _ Hjm f' (heap w1)) in Hp1 as Hjm1; [| done].
      pose proof (dumps_dict_at _ _ _ _ Hjm1) as Hat.
      unfold bind at 1. unfold dict_entries at 1.
      destruct jm as [| b | z | x | s | js | mes];
        try (rewrite Hat; exists w1; done).
      destruct Hat as (mkvs & f'' & -> & -> & Hmes).
      pose proof (dict_get_Forall2
                    (fun v j => dumps f'' (heap w1) v = Some j) "title" _ _ Hmes)
        as Htitle.
      destruct (dict_get "title" mkvs) as [vt |] eqn:Hvt.
      * destruct Htitle as (jt & -> & Hjt). simpl default.
        change (default VNone (Some vt)) with vt.
        rewrite (dumps_is_str _ _ _ _ title Hjt).
        destruct (json_is_str jt title); [by exists w1 | done].
      * rewrite Htitle. simpl. done.
    + rewrite Hmeta. simpl default.
      unfold bind at 1. unfold dict_entries at 1. unfold dict_at.
      replace (heap w1 !! length (heap w)) with (Some (ODict [])).
      * simpl. done.
      * symmetry. apply list_lookup_middle. done.
Qed.

(** ** One level of a freshly built mapping *)

Lemma prefix_agrees (h h' : store) lo hi :
  h `prefix_of` h' -> hi <= length h -> agrees h' h lo hi.
Proof. intros Hp ? l Hl. symmetry. apply prefix_lookup_lt; [lia | done]. Qed.

(** The value under key [k] of a mapping just built, and what the mapping
    reads as when only the objects of that value have changed. *)
Lemma alloc_dict_child ms ha pvs hm k :
  alloc_members alloc ms ha = (pvs, hm) ->
  match dict_get k pvs with
  | None => dict_get k ms = None
  | Some vc =>
      exists jc hc hd,
        dict_get k ms = Some jc /\ alloc jc hc = (vc, hd) /\
        ha `prefix_of` hc /\ hc `prefix_of` hd /\ hd `prefix_of` hm /\
        forall g f jc',
          g !! length hm = Some (ODict pvs) ->
          (forall l, length ha <= l < length hm ->
                     ~ (length hc <= l < length hd) -> g !! l = hm !! l) ->
          length hm <= length ha + f ->
          dumps f g vc = Some jc' ->
          dumps (S f) g (VRef (length hm)) = Some (JDict (dict_set k jc' ms))
  end.
Proof.
  intros Hms.
  pose proof (alloc_members_child ms _ _ _ k Hms) as Hchild.
  destruct (dict_get k pvs) as [vc |]; [| done].
  destruct Hchild as (jc & hc & hd & Hjc & Hvc & Hpa & Hpb & Hpc & Hupd).
  exists jc, hc, hd. repeat split; [done.. |].
  intros g f jc' Hl Hg Hf Hread. rewrite dumps_S, Hl.
  erewrite (proj2 (mapM_entries _ _ _ _)); [done |]. by apply Hupd.
Qed.

(** Writing one key of a mapping just built. *)
Lemma alloc_dict_set ms hc pvs hm :
  alloc_members alloc ms hc = (pvs, hm) ->
  forall g f k x jx,
    g !! length hm = Some (ODict (dict_set k x pvs)) ->
    agrees g hm (length hc) (length hm) ->
    length hm <= length hc + f ->
    dumps f g x = Some jx ->
    dumps (S f) g (VRef (length hm)) = Some (JDict (dict_set k jx ms)).
Proof.
  intros Hms g f k x jx Hl Hg Hf Hx.
  destruct (alloc_members_built ms (all_members_built ms) _ _ _ Hms)
    as [Hp Hreads].
  rewrite dumps_S, Hl.
  erewrite (proj2 (mapM_entries _ _ _ _)); [done |].
  apply (dict_set_Forall2 (fun v j => dumps f g v = Some j)); [done |].
  by apply Hreads.
Qed.

Lemma py_getitem_dict key v w kvs :
  dict_at (heap w) v = Some kvs ->
  py_getitem v key w =
  match dict_get key kvs with
  | Some x => (Ok x, w)
  | None => (Raise (KeyError (JStr key)), w)
  end.
Proof. intros H. unfold py_getitem. by rewrite H. Qed.

Lemma py_getitem_other key v w :
  dict_at (heap w) v = None -> py_getitem v key w = (Raise TypeError, w).
Proof. intros H. unfold py_getitem. by rewrite H. Qed.

Lemma py_setitem_other key x v w :
  dict_at (heap w) v = None -> py_setitem v key x w = (Raise TypeError, w).
Proof.
  unfold py_setitem, dict_at. destruct v as [| | | | | l]; try done.
  by destruct (heap w !! l) as [[|] |].
Qed.

Lemma py_setitem_dict key x l w kvs :
  heap w !! l = Some (ODict kvs) ->
  py_setitem (VRef l) key x w =
  (Ok tt, World (<[l := ODict (dict_set key x kvs)]> (heap w))
                (files w) (trace w)).
Proof. intros H. unfold py_setitem. by rewrite H. Qed.

(** ** The working copy of a scene *)

Ltac raised_in Hframe :=
  intros [= <- <-]; repeat split; try done; try (by apply Hframe).

(** Lines 95-101 against the document-level reading: the working copy is
    built in fresh objects, everything that existed before is left as it
    was, and the copy reads as the template with the prompt written in. *)
Lemma instantiate_spec self prompt title w r w' :
  instantiate_workflow self prompt title w = (r, w') ->
  files w' = files w /\ trace w' = trace w /\
  length (heap w) <= length (heap w') /\
  (forall l, l < length (heap w) -> heap w' !! l = heap w !! l) /\
  match copied_document (heap w) (base_workflow self) with
  | None => is_ok r = false
  | Some t =>
      match with_prompt t title prompt with
      | Raise e => r = Raise e
      | Ok j' =>
          exists v,
            r = Ok v /\
            forall g f,
              agrees g (heap w') (length (heap w)) (length (heap w')) ->
              length (heap w') <= length (heap w) + f ->
              dumps f g v = Some j'
      end
  end.
Proof.
  unfold instantiate_workflow, copied_document.
  unfold bind at 1. unfold py_json_dumps at 1.
  destruct (json_dumps (heap w) (base_workflow self)) as [j |];
    [| by intros [= <- <-]].
  change (normalize <$> Some j) with (Some (normalize j)).
  unfold bind at 1. unfold py_json_loads at 1. unfold json_loads.
  generalize (normalize j); clear j; intros t.
  destruct (alloc t (heap w)) as [v h'] eqn:Ha.
  destruct (alloc_built _ _ _ _ Ha) as [Hp _].
  pose proof (prefix_length _ _ Hp) as Hlen.
  set (w1 := World h' (files w) (trace w)).
  assert (forall w2 : world,
            h' `prefix_of` heap w2 ->
            length (heap w) <= length (heap w2) /\
            forall l, l < length (heap w) -> heap w2 !! l = heap w !! l)
    as Hframe.
  { intros w2 Hp2. pose proof (prefix_length _ _ Hp2). split; [lia |].
    intros l Hl. symmetry. apply prefix_lookup_lt; [done | by etrans]. }
  assert (h' `prefix_of` heap w1) as Hp1 by done.
  pose proof (alloc_dict_at _ _ _ _ h' Ha ltac:(done)) as Hshape.
  unfold bind at 1. unfold dict_entries at 1. change (heap w1) with h' at 1.
  destruct t as [| b | z | x | s | js | nodes];
    try (rewrite Hshape; raised_in (Hframe w1)).
  destruct Hshape as (pvs & hm & Hms & -> & Hh' & Hat). rewrite Hat.
  destruct (alloc_members_built nodes (all_members_built nodes) _ _ _ Hms)
    as [Hpm Hreads].
  pose proof (prefix_length _ _ Hpm) as Hlenm.
  (* the scan *)
  destruct (find_node_spec title pvs nodes (length hm) w1)
    as (w2 & Hfind & Hp2 & Hf2 & Ht2).
  { apply Hreads; [| lia]. apply prefix_agrees; [| done].
    simpl. rewrite Hh'. by apply prefix_app_r. }
  change (heap w1) with h' in Hp2. simpl in Hf2, Ht2.
  unfold bind at 1. rewrite Hfind. unfold with_prompt.
  destruct (find_title nodes title) as [[nid |] | e];
    [| raised_in (Hframe w2) | raised_in (Hframe w2)].
  destruct nid as [| c nid']; [raised_in (Hframe w2) |].
  set (nid := String c nid').
  assert (forall X : store, X `prefix_of` hm -> X `prefix_of` heap w2) as Hin.
  { intros X HX. etrans; [exact HX |]. etrans; [| exact Hp2].
    rewrite Hh'. by apply prefix_app_r. }
  (* the node *)
  assert (dict_at (heap w2) (VRef (length hm)) = Some pvs) as Hat2.
  { assert (heap w2 !! length hm = Some (ODict pvs)) as Hl2.
    { eapply prefix_lookup_Some; [| exact Hp2].
      rewrite Hh'. by apply list_lookup_middle. }
    unfold dict_at. by rewrite Hl2. }
  pose proof (alloc_dict_child nodes _ _ _ nid Hms) as Hnode.
  unfold bind at 1. rewrite (py_getitem_dict _ _ _ _ Hat2).
  destruct (dict_get nid pvs) as [vn |];
    [| rewrite Hnode; raised_in (Hframe w2)].
  destruct Hnode as (jn & ha & hb & -> & Hvn & Hpa & Hpb & Hpc & Hupd_top).
  pose proof (alloc_dict_at _ _ _ _ (heap w2) Hvn
                (prefix_agrees _ _ _ _ (Hin _ Hpc) ltac:(done))) as Hshape_n.
  unfold bind at 1.
  destruct jn as [| b | z | x | s | js | members];
    try (rewrite (py_getitem_other _ _ _ Hshape_n); raised_in (Hframe w2)).
  destruct Hshape_n as (mvs & hn & Hmvs & -> & Hhb & Hatn).
  rewrite (py_getitem_dict _ _ _ _ Hatn).
  (* its inputs *)
  pose proof (alloc_dict_child members _ _ _ "inputs" Hmvs) as Hinp.
  destruct (dict_get "inputs" mvs) as [vi |];
    [| rewrite Hinp; raised_in (Hframe w2)].
  destruct Hinp as (ji & hc & hd & -> & Hvi & Hpc' & Hpd & Hpe & Hupd_node).
  assert (hn `prefix_of` hm) as Hpn.
  { etrans; [| exact Hpc]. rewrite Hhb. by apply prefix_app_r. }
  assert (hd `prefix_of` hm) as Hpdm by (by etrans).
  pose proof (alloc_dict_at _ _ _ _ (heap w2) Hvi
                (prefix_agrees _ _ _ _ (Hin _ Hpdm) ltac:(done))) as Hshape_i.
  unfold bind at 1.
  destruct ji as [| b | z | x | s | js | ikvs];
    try (rewrite (py_setitem_other _ _ _ _ Hshape_i); raised_in (Hframe w2)).
  destruct Hshape_i as (ivs & hi & Hivs & -> & Hhd & Hati).
  assert (heap w2 !! length hi = Some (ODict ivs)) as Hli.
  { unfold dict_at in Hati.
    by destruct (heap w2 !! length hi) as [[|] |]; simplify_eq. }
  rewrite (py_setitem_dict _ _ _ _ _ Hli). unfold ret.
  intros [= <- <-]. cbn [heap files trace].
  (* lengths *)
  destruct (alloc_members_built _ (all_members_built members) _ _ _ Hmvs)
    as [Hpan _].
  destruct (alloc_members_built _ (all_members_built ikvs) _ _ _ Hivs)
    as [Hpci _].
  pose proof (prefix_length _ _ Hpa). pose proof (prefix_length _ _ Hpc).
  pose proof (prefix_length _ _ Hpc'). pose proof (prefix_length _ _ Hpe).
  pose proof (prefix_length _ _ Hpan). pose proof (prefix_length _ _ Hpci).
  pose proof (prefix_length _ _ Hp2) as Hlen2.
  assert (length hb = S (length hn)) as Hlb
    by (rewrite Hhb, length_app; simpl; lia).
  assert (length hd = S (length hi)) as Hld
    by (rewrite Hhd, length_app; simpl; lia).
  assert (length h' = S (length hm)) as Hlh
    by (rewrite Hh', length_app; simpl; lia).
  destruct (Hframe w2 Hp2) as [Hge Hold].
  repeat split; [done | done | by rewrite length_insert | |].
  { intros l Hl. rewrite list_lookup_insert_ne by lia. by apply Hold. }
  exists (VRef (length hm)). split; [done |]. rewrite length_insert.
  intros g f Hg Hf.
  assert (forall (X : store) l,
            X `prefix_of` heap w2 -> length (heap w) <= l < length X ->
            l <> length hi -> g !! l = X !! l) as Hlook.
  { intros X l HX Hl Hne. pose proof (prefix_length _ _ HX).
    rewrite Hg by lia. rewrite list_lookup_insert_ne by done.
    symmetry. apply prefix_lookup_lt; [lia | done]. }
  destruct f as [| f1]; [lia |]. apply Hupd_top.
  - rewrite (Hlook h') by (done || lia).
    rewrite Hh'. by apply list_lookup_middle.
  - intros l Hl Hout. apply Hlook; [by apply Hin | lia | lia].
  - lia.
  - destruct f1 as [| f2]; [lia |]. apply Hupd_node.
    + rewrite (Hlook hb) by (by apply Hin || lia).
      rewrite Hhb. by apply list_lookup_middle.
    + intros l Hl Hout. apply Hlook; [by apply Hin | lia | lia].
    + lia.
    + destruct f2 as [| f3]; [lia |].
      apply (alloc_dict_set ikvs hc ivs hi Hivs g f3 "text" (VStr prompt)).
      * rewrite Hg by lia. apply list_lookup_insert_eq.
        apply lookup_lt_Some in Hli. lia.
      * intros l Hl. apply Hlook; [| lia | lia].
        apply Hin. etrans; [| exact Hpdm]. rewrite Hhd. by apply prefix_app_r.
      * lia.
      * by destruct f3.
Qed.

(** ** The render client *)

Lemma bind_inv {A B} (m : M A) (k : A -> M B) w r w' :
  bind m k w = (r, w') ->
  (exists a w1, m w = (Ok a, w1) /\ k a w1 = (r, w')) \/
  (exists e, m w = (Raise e, w') /\ r = Raise e).
Proof.
  unfold bind. destruct (m w) as [[a | e] w1]; intros H.
  - left. eauto.
  - right. exists e. by simplify_eq.
Qed.

Lemma lift_inv {A} (x : res A) w r w' : lift x w = (r, w') -> r = x /\ w' = w.
Proof. by intros [= <- <-]. Qed.

(** An extension of a store that leaves what was there is a longer store. *)
Lemma prefix_of_lookup (h h' : store) :
  length h <= length h' ->
  (forall l, l < length h -> h' !! l = h !! l) ->
  h `prefix_of` h'.
Proof.
  intros Hlen Hl. exists (drop (length h) h').
  rewrite <- (take_drop (length h) h') at 1. f_equal.
  apply list_eq. intros i. destruct (decide (i < length h)).
  - by rewrite lookup_take_lt, Hl.
  - rewrite lookup_take_ge, lookup_ge_None_2; [done | lia | lia].
Qed.

Lemma permitted_inv fs op w r w' :
  permitted fs op w = (r, w') ->
  (r = Ok tt -> fs (trace w) op = None) /\ w' = w.
Proof.
  unfold permitted. destruct (fs (trace w) op); intros [= <- <-]; by split.
Qed.

Lemma write_bytes_inv fs path content w r w' :
  write_bytes fs path content w = (r, w') ->
  heap w' = heap w /\ (r = Ok tt -> fs (trace w) (WriteBytes path) = None) /\
  trace w' = trace w /\
  files w' = match r with
             | Ok _ => <[path := content]> (files w)
             | Raise _ => files w
             end.
Proof.
  unfold write_bytes. destruct (fs (trace w) (WriteBytes path));
    intros [= <- <-]; by split_and!.
Qed.

(** Lines 110-115: the clip is saved, or a request to the file system is
    refused (or the name is no text) and nothing changes. *)
Lemma save_clip_inv fs filename body w r w' :
  (let* _ := mkdir fs "temp_clips" in
   let* clip_path := lift (path_div "temp_clips" filename) in
   let* _ := write_bytes fs clip_path body in
   ret (Some clip_path)) w = (r, w') ->
  heap w' = heap w /\ trace w' = trace w /\
  match r with
  | Ok (Some clip_path) =>
      path_div "temp_clips" filename = Ok clip_path /\
      fs (trace w) (MakeDir "temp_clips") = None /\
      fs (trace w) (WriteBytes clip_path) = None /\
      files w' = <[clip_path := body]> (files w)
  | Ok None => False
  | Raise _ => files w' = files w
  end.
Proof.
  intros H.
  apply bind_inv in H as [(u & w1 & H1 & H) | (e & H1 & ->)];
    apply permitted_inv in H1 as [Hdir ->]; [| done].
  destruct u. specialize (Hdir eq_refl).
  apply bind_inv in H as [(clip_path & w1 & H1 & H) | (e & H1 & ->)];
    apply lift_inv in H1 as [Hpath ->]; [| done].
  apply bind_inv in H as [(u & w1 & H1 & H) | (e & H1 & ->)];
    apply write_bytes_inv in H1 as (Hh & Hfile & Ht & Hf).
  - destruct u. injection H as <- <-. split_and!; try done. by apply Hfile.
  - by split_and!.
Qed.

Lemma await_executed_spec frames :
  forall w r w',
    await_executed frames w = (r, w') ->
    heap w' = heap w /\ files w' = files w /\
    (trace w' = trace w \/ trace w' = trace w ++ [WsClose]).
Proof.
  induction frames as [| fr frames IH]; intros w r w' H; simpl in H.
  - apply lift_inv in H as [_ ->]. auto.
  - destruct fr as [| [message |] |];
      [| | | by apply lift_inv in H as [_ ->]; auto].
    + by apply IH in H.
    + apply bind_inv in H as [(ty & w1 & H1 & H) | (e & H1 & _)];
        apply lift_inv in H1 as [_ ->]; [| auto].
      destruct (json_is_str ty "executed"); [| by apply IH in H].
      apply bind_inv in H as [([] & w1 & H1 & H) | (e & H1 & _)];
        [| by simplify_eq].
      injection H1 as <-.
      apply bind_inv in H as [(d & w2 & H1 & H) | (e & H1 & _)];
        apply lift_inv in H1 as [_ ->]; [| auto].
      apply lift_inv in H as [_ ->]. auto.
    + apply lift_inv in H as [_ ->]. auto.
Qed.

Lemma stitch_calls_app t1 t2 :
  stitch_calls (t1 ++ t2) = stitch_calls t1 ++ stitch_calls t2.
Proof. apply omap_app. Qed.

Lemma sent_jobs_app t1 t2 : sent_jobs (t1 ++ t2) = sent_jobs t1 ++ sent_jobs t2.
Proof. apply omap_app. Qed.

Lemma message_dumps h v cid :
  json_dumps (h ++ [ODict [("prompt", v); ("client_id", VStr cid)]])
    (VRef (length h)) =
  job_message cid <$>
    dumps (length h) (h ++ [ODict [("prompt", v); ("client_id", VStr cid)]]) v.
Proof.
  set (g := h ++ _). unfold json_dumps, g. rewrite length_app. cbn [length].
  rewrite Nat.add_1_r, dumps_S, list_lookup_middle by done. fold g.
  cbn [mapM]. unfold dumps_entry. cbn [fst snd].
  destruct (dumps (length h) g v) as [j |]; [| done].
  assert (dumps (length h) g (VStr cid) = Some (JStr cid)) as ->
    by (by destruct (length h)).
  done.
Qed.

(** Lines 78-91: the job that goes out is the message built around what the
    workflow reads as at that moment. *)
Lemma queue_spec E self v w r w' :
  _queue_comfyui_prompt E self v w = (r, w') ->
  files w' = files w /\ heap w `prefix_of` heap w' /\
  exists tr,
    trace w' = trace w ++ tr /\ stitch_calls tr = [] /\
    ((sent_jobs tr = [] /\ is_ok r = false) \/
     exists j,
       dumps (length (heap w)) (heap w') v = Some j /\
       sent_jobs tr = [job_message (client_id self) j]).
Proof.
  unfold _queue_comfyui_prompt. intros H.
  apply bind_inv in H as [(u & w1 & H1 & H) | (e & H1 & ->)];
    unfold log in H1; simplify_eq.
  apply bind_inv in H as [(acc & w1 & H1 & H) | (e & H1 & ->)];
    unfold ask in H1; simplify_eq. cbn [trace] in H.
  destruct (ws_accepts E _).
  2: { apply lift_inv in H as [-> ->]. cbn. repeat split; [done |].
       eexists. split; [done |]. split; [done |]. by left. }
  apply bind_inv in H as [(msg & w1 & H1 & H) | (e & H1 & ->)];
    unfold new_object in H1; simplify_eq. cbn [heap] in H.
  apply bind_inv in H as [(payload & w1 & H1 & H) | (e & H1 & ->)];
    unfold py_json_dumps in H1; cbn [heap files trace] in H1;
    rewrite message_dumps in H1;
    destruct (dumps (length (heap w)) _ v) as [j |] eqn:Hj;
    cbn [fmap option_fmap option_map] in H1; simplify_eq.
  2: { cbn. repeat split; [by apply prefix_app_r |].
       eexists. split; [done |]. split; [done |]. by left. }
  apply bind_inv in H as [(u & w1 & H1 & H) | (e & H1 & ->)];
    unfold log in H1; simplify_eq. cbn [heap files trace] in H.
  apply bind_inv in H as [(frames & w1 & H1 & H) | (e & H1 & ->)];
    unfold ask in H1; simplify_eq. cbn [trace] in H.
  apply await_executed_spec in H as (Hh & Hf & Ht). cbn in Hh, Hf, Ht.
  rewrite Hh, Hf. repeat split; [by apply prefix_app_r |].
  destruct Ht as [-> | ->]; eexists;
    (split; [by rewrite <- !app_assoc |]); (split; [done |]);
    right; by exists j.
Qed.

(** Lines 104-116 talk to the file-view endpoint only and touch no object. *)
Lemma fetch_video_spec E self outputs node_ids :
  forall w r w',
    fetch_video E self outputs node_ids w = (r, w') ->
    heap w' = heap w /\
    exists tr,
      trace w' = trace w ++ tr /\ stitch_calls tr = [] /\ sent_jobs tr = [].
Proof.
  induction node_ids as [| node_id rest IH]; intros w r w' H; simpl in H.
  - injection H as <- <-. split; [done |]. exists []. by rewrite app_nil_r.
  - assert (heap w = heap w /\
            exists tr, trace w = trace w ++ tr /\ stitch_calls tr = [] /\
                       sent_jobs tr = []) as Hstay.
    { split; [done |]. exists []. by rewrite app_nil_r. }
    apply bind_inv in H as [(output & w1 & H1 & H) | (e & H1 & ->)];
      apply lift_inv in H1 as [_ ->]; [| done].
    apply bind_inv in H as [(has & w1 & H1 & H) | (e & H1 & ->)];
      apply lift_inv in H1 as [_ ->]; [| done].
    destruct has; [| by apply IH in H].
    apply bind_inv in H as [(videos & w1 & H1 & H) | (e & H1 & ->)];
      apply lift_inv in H1 as [_ ->]; [| done].
    apply bind_inv in H as [(video_data & w1 & H1 & H) | (e & H1 & ->)];
      apply lift_inv in H1 as [_ ->]; [| done].
    apply bind_inv in H as [(subfolder & w1 & H1 & H) | (e & H1 & ->)];
      apply lift_inv in H1 as [_ ->]; [| done].
    apply bind_inv in H as [(filename & w1 & H1 & H) | (e & H1 & ->)];
      apply lift_inv in H1 as [_ ->]; [| done].
    apply bind_inv in H as [(u & w1 & H1 & H) | (e & H1 & ->)];
      unfold log in H1; simplify_eq.
    set (get := HttpGet _) in H.
    assert (forall (w2 : world),
              heap w2 = heap w ->
              (exists tr, trace w2 = (trace w ++ [get]) ++ tr /\
                          stitch_calls tr = [] /\ sent_jobs tr = []) ->
              heap w2 = heap w /\
              exists tr, trace w2 = trace w ++ tr /\ stitch_calls tr = [] /\
                         sent_jobs tr = []) as Hafter.
    { intros w2 Hh (tr & Ht & Hs & Hj). split; [done |].
      exists (get :: tr). rewrite Ht, <- app_assoc. repeat split.
      - change (get :: tr) with ([get] ++ tr).
        by rewrite stitch_calls_app, Hs.
      - change (get :: tr) with ([get] ++ tr).
        by rewrite sent_jobs_app, Hj. }
    apply bind_inv in H as [(response & w1 & H1 & H) | (e & H1 & ->)];
      unfold ask_res in H1; cbn [trace] in H1.
    2: { injection H1 as _ <-. apply Hafter; [done |].
         exists []. by rewrite app_nil_r. }
    injection H1 as _ <-.
    destruct (decide (response.1 = 200%Z)) as [Hstatus | Hstatus].
    2: { apply IH in H as [Hh Ht]. by apply Hafter. }
    apply save_clip_inv in H as (Hh & Ht & _).
    apply Hafter; [done |]. exists []. by rewrite app_nil_r.
Qed.

(** The render client as a whole: it leaves every object that existed
    where it was, calls no stitcher, and the only job it can send is the
    template with this scene's prompt. *)
Lemma generate_spec E self prompt title w r w' :
  _generate_clip_for_scene E self prompt title w = (r, w') ->
  heap w `prefix_of` heap w' /\
  exists tr,
    trace w' = trace w ++ tr /\ stitch_calls tr = [] /\
    match copied_document (heap w) (base_workflow self) with
    | None => tr = [] /\ is_ok r = false /\ files w' = files w
    | Some t =>
        match with_prompt t title prompt with
        | Raise e => tr = [] /\ r = Raise e /\ files w' = files w
        | Ok j' =>
            (sent_jobs tr = [] /\ is_ok r = false) \/
            sent_jobs tr = [job_message (client_id self) j']
        end
    end.
Proof.
  unfold _generate_clip_for_scene. intros H.
  apply bind_inv in H as [(v & w1 & H1 & H) | (e & H1 & ->)];
    apply instantiate_spec in H1 as (Hf1 & Ht1 & Hlen1 & Hold1 & Hdoc);
    pose proof (prefix_of_lookup _ _ Hlen1 Hold1) as Hp1.
  2: { split; [done |]. exists []. rewrite app_nil_r.
       repeat split; [done.. |].
       destruct (copied_document _ _) as [t |]; [| by repeat split].
       destruct (with_prompt t title prompt) as [j' | e']; [by left |].
       injection Hdoc as ->. by split_and!. }
  destruct (copied_document _ _) as [t |]; [| done].
  destruct (with_prompt t title prompt) as [j' | e']; [| done].
  destruct Hdoc as (v' & [= <-] & Hread).
  assert (exists w2 tr2,
            heap w1 `prefix_of` heap w2 /\ trace w2 = trace w1 ++ tr2 /\
            stitch_calls tr2 = [] /\
            ((sent_jobs tr2 = [] /\ is_ok r = false) \/
             sent_jobs tr2 = [job_message (client_id self) j']) /\
            ((r, w') = (r, w2) \/
             exists outputs ids,
               fetch_video E self outputs ids w2 = (r, w')))
    as (w2 & tr2 & Hp2 & Ht2 & Hs2 & Hj2 & Hrest).
  { assert (forall w2 j,
              heap w1 `prefix_of` heap w2 ->
              dumps (length (heap w1)) (heap w2) v = Some j -> j = j')
      as Hsame.
    { intros w2 j Hp2 Hj. rewrite Hread in Hj; [by simplify_eq | | lia].
      by apply prefix_agrees. }
    apply bind_inv in H as [(outputs & w2 & H2 & H) | (e & H2 & ->)];
      apply queue_spec in H2 as (Hf2 & Hp2 & tr2 & Ht2 & Hs2 & Hj2).
    - exists w2, tr2. repeat split; [done.. | |].
      + destruct Hj2 as [[_ ?] | (j & Hj & ?)]; [done | right].
        by rewrite <- (Hsame w2 j).
      + apply bind_inv in H as [(ids & w3 & H3 & H) | (e & H3 & ->)];
          apply lift_inv in H3 as [_ ->]; [| by left].
        right. eauto.
    - exists w', tr2. repeat split; [done.. | | by left].
      destruct Hj2 as [[? _] | (j & Hj & ?)]; [by left | right].
      by rewrite <- (Hsame w' j). }
  destruct Hrest as [[= <-] | (outputs & ids & Hfetch)].
  - split; [by etrans |]. exists tr2. by rewrite Ht2, Ht1.
  - apply fetch_video_spec in Hfetch as (Hh3 & tr3 & Ht3 & Hs3 & Hj3).
    split; [rewrite Hh3; by etrans |].
    exists (tr2 ++ tr3). rewrite Ht3, Ht2, Ht1, <- app_assoc.
    rewrite stitch_calls_app, sent_jobs_app, Hs2, Hs3, Hj3, !app_nil_r.
    by split_and!.
Qed.

(** ** Documents of Python dictionaries *)

Lemma dict_set_fresh {A} k (v : A) d :
  k ∉ d.*1 -> dict_set k v d = d ++ [(k, v)].
Proof.
  induction d as [| [k' v'] d IH]; [done |]. cbn.
  rewrite not_elem_of_cons. intros [Hne Hd].
  rewrite decide_False by done. by rewrite IH.
Qed.

Lemma dict_of_members_unique {A} (kvs : list (string * A)) :
  NoDup kvs.*1 -> dict_of_members kvs = kvs.
Proof.
  unfold dict_of_members.
  assert (forall acc : list (string * A),
            NoDup (acc.*1 ++ kvs.*1) ->
            fold_left (fun d kv => dict_set kv.1 kv.2 d) kvs acc = acc ++ kvs)
    as Hgen.
  { induction kvs as [| [k v] kvs IH]; intros acc Hnd.
    - by rewrite app_nil_r.
    - cbn in *. rewrite dict_set_fresh.
      + rewrite IH; [by rewrite <- app_assoc |].
        by rewrite fmap_app, <- app_assoc.
      + apply NoDup_app in Hnd as (_ & Hdisj & _).
        intros Hin. apply (Hdisj k Hin). by left. }
  intros Hnd. by apply (Hgen []).
Qed.

(** Decoding changes nothing in a document that a Python store can hold. *)
Lemma normalize_unique j : unique_keys j = true -> normalize j = j.
Proof.
  induction j as [| b | n | x | s | js IH | kvs IH] using json_ind';
    try done; cbn [unique_keys normalize].
  - intros Hall. f_equal. rewrite forallb_forall in Hall.
    induction IH as [| j js Hj _ IHjs]; [done |]. cbn. f_equal.
    + apply Hj, Hall. by left.
    + apply IHjs. intros j' Hin. apply Hall. by right.
  - rewrite andb_true_iff, bool_decide_eq_true. intros [Hnd Hall].
    rewrite forallb_forall in Hall. f_equal.
    assert (map (fun kv : string * json => (kv.1, normalize kv.2)) kvs = kvs)
      as ->; [| by apply dict_of_members_unique].
    clear Hnd. induction IH as [| [k j] kvs Hj _ IHkvs]; [done |].
    cbn in *. f_equal.
    + f_equal. apply Hj. apply (Hall (k, j)). by left.
    + apply IHkvs. intros kv Hin. apply Hall. by right.
Qed.

Lemma copied_document_unique h v j :
  json_dumps h v = Some j -> unique_keys j = true ->
  copied_document h v = Some j.
Proof.
  intros Hj Hu. unfold copied_document. rewrite Hj. cbn.
  by rewrite normalize_unique.
Qed.

(** The template of a generator, as constructed, reads as the decoded
    workflow file. *)
Lemma init_reads address uuid workflow w :
  let made := VideoGenerator_init address uuid workflow w in
  heap w `prefix_of` heap made.2 /\
  json_dumps (heap made.2) (base_workflow made.1) = Some (normalize workflow).
Proof.
  unfold VideoGenerator_init, json_loads.
  destruct (alloc (normalize workflow) (heap w)) as [v h'] eqn:Ha.
  destruct (alloc_built _ _ _ _ Ha) as [Hp Hread].
  cbn. split; [done |]. apply Hread; [done | lia].
Qed.

(** The working copy of a scene carries the prompt of that scene as the
    text input of the node that was looked for. *)
Lemma with_prompt_reads template title prompt workflow :
  with_prompt template title prompt = Ok workflow ->
  exists nodes nid,
    template = JDict nodes /\ find_title nodes title = Ok (Some nid) /\
    text_input workflow nid = Ok (JStr prompt).
Proof.
  unfold with_prompt.
  destruct template as [| | | | | | nodes]; try done.
  destruct (find_title nodes title) as [[nid |] | e] eqn:Hfind; try done.
  destruct nid as [| c nid']; [done |].
  destruct (dict_get _ nodes) as [[| | | | | | entries] |]; try done.
  destruct (dict_get "inputs" entries) as [[| | | | | | inputs] |]; try done.
  intros [= <-]. exists nodes, (String c nid').
  split; [done |]. split; [done |].
  unfold text_input, json_getitem.
  by rewrite !dict_get_set_eq.
Qed.

(** ** The scene planner *)

(** The planner never raises, and its only effect is its one request. *)
Lemma split_spec E chapter_text w :
  exists o,
    split_chapter_into_scenes E chapter_text w =
    (Ok o, World (heap w) (files w)
             (trace w ++ [planner_request E chapter_text])) /\
    match generate_content E (trace w ++ [planner_request E chapter_text]) with
    | Ok text =>
        match model_validate_json E text with
        | Ok data => o = Some data
        | Raise _ => o = None
        end
    | Raise _ => o = None
    end.
Proof.
  unfold split_chapter_into_scenes, try_except, bind, log, ask_res, lift, ret,
    planner_request.
  cbn [trace heap files].
  destruct (generate_content E _) as [text | e]; [| by eexists].
  destruct (model_validate_json E text) as [data | e]; by eexists.
Qed.

(** C10. When the planner's step fails with an exception, in the language
    model or in the validation of its answer as [ChapterScenes],
    [split_chapter_into_scenes] returns [None] instead of raising, and
    [create_chapter_video] returns [None] for that chapter. *)
Theorem planner_failure_is_none E self chapter_text output_filename w e :
  let asked := trace w ++ [planner_request E chapter_text] in
  generate_content E asked = Raise e \/
  (exists text, generate_content E asked = Ok text /\
                model_validate_json E text = Raise e) ->
  (split_chapter_into_scenes E chapter_text w).1 = Ok None /\
  (create_chapter_video E self chapter_text output_filename w).1 = Ok None.
Proof.
  intros asked Hfail.
  destruct (split_spec E chapter_text w) as (o & Hsplit & Ho).
  fold asked in Ho.
  assert (o = None) as ->.
  { destruct Hfail as [He | (text & Ht & He)].
    - by rewrite He in Ho.
    - by rewrite Ht, He in Ho. }
  unfold create_chapter_video, bind. by rewrite Hsplit.
Qed.

Lemma planner_failure_is_none_witness :
  (split_chapter_into_scenes Scenario.planner_confused "chapter"
     Scenario.start).1 = Ok None /\
  (create_chapter_video Scenario.planner_confused Scenario.generator
     "chapter" "out" Scenario.start).1 = Ok None.
Proof.
  apply (planner_failure_is_none Scenario.planner_confused Scenario.generator
           "chapter" "out" Scenario.start (LibraryError "validation error")).
  right. exists "I cannot do that". split; reflexivity.
Defined.

(** C3. When the planner yields no scene data or zero scenes,
    [create_chapter_video] returns [None], and the run exchanges nothing
    with the render server: its one event is the planner's request. *)
Theorem no_scene_no_render E self chapter_text output_filename w :
  match (split_chapter_into_scenes E chapter_text w).1 with
  | Ok (Some data) => scenes data = []
  | _ => True
  end ->
  let run := create_chapter_video E self chapter_text output_filename w in
  run.1 = Ok None /\
  trace run.2 = trace w ++ [planner_request E chapter_text] /\
  render_events (trace run.2) = render_events (trace w).
Proof.
  destruct (split_spec E chapter_text w) as (o & Hsplit & _).
  intros Ho run. rewrite Hsplit in Ho. cbn [fst] in Ho.
  assert (run = (Ok None, World (heap w) (files w)
                   (trace w ++ [planner_request E chapter_text]))) as ->.
  { unfold run, create_chapter_video, bind. rewrite Hsplit.
    destruct o as [data |]; [| done]. by rewrite Ho. }
  cbn [fst snd trace]. repeat split.
  unfold render_events. rewrite List.filter_app. cbn. by rewrite app_nil_r.
Qed.

Lemma no_scene_no_render_witness :
  let run := create_chapter_video Scenario.nothing_to_show Scenario.generator
               "chapter" "out" Scenario.start in
  run.1 = Ok None /\
  trace run.2 =
    trace Scenario.start ++ [planner_request Scenario.nothing_to_show "chapter"] /\
  render_events (trace run.2) = render_events (trace Scenario.start).
Proof.
  apply (no_scene_no_render Scenario.nothing_to_show Scenario.generator
           "chapter" "out" Scenario.start).
  vm_compute. reflexivity.
Defined.

(** ** The loop over the scenes *)

(** The loop returns the clips of the scenes that produced one, in order,
    after those it started with, unless a scene raises; it hands nothing to
    the stitcher. *)
Lemma collect_spec E self todo :
  forall clip_paths w,
    let outs := scene_outcomes E self todo w in
    let run := collect_clips E self todo clip_paths w in
    run.1 = match first_raise outs with
            | Some e => Raise e
            | None => Ok (clip_paths ++ omap clip_of outs)
            end /\
    heap w `prefix_of` heap run.2 /\
    exists tr, trace run.2 = trace w ++ tr /\ stitch_calls tr = [].
Proof.
  induction todo as [| scene rest IH]; intros clip_paths w; cbn zeta.
  - cbn. rewrite app_nil_r. repeat split; [done |].
    exists []. by rewrite app_nil_r.
  - cbn [scene_outcomes collect_clips]. unfold bind at 1 2 3.
    destruct (_generate_clip_for_scene E self (visual_prompt scene)
                "Prompt_Input_Node" w) as [r w1] eqn:Hgen.
    apply generate_spec in Hgen as (Hp1 & tr1 & Ht1 & Hs1 & _).
    destruct r as [[p |] | e]; cbn [first_raise omap clip_of fst snd].
    + destruct (IH (clip_paths ++ [p]) w1) as (Hr & Hp & tr & Ht & Hs).
      rewrite Hr. split; [| split].
      * destruct (first_raise _); [done |]. cbn. by rewrite <- app_assoc.
      * by etrans.
      * exists (tr1 ++ tr).
        by rewrite Ht, Ht1, <- app_assoc, stitch_calls_app, Hs1, Hs.
    + destruct (IH clip_paths w1) as (Hr & Hp & tr & Ht & Hs).
      rewrite Hr. split; [| split].
      * by destruct (first_raise _).
      * by etrans.
      * exists (tr1 ++ tr).
        by rewrite Ht, Ht1, <- app_assoc, stitch_calls_app, Hs1, Hs.
    + repeat split; [done |]. by exists tr1.
Qed.

(** ** The stitcher *)

Lemma open_clips_spec E clip_paths :
  forall w,
    open_clips E clip_paths w = (decode_all E clip_paths (files w), w).
Proof.
  induction clip_paths as [| p rest IH]; intros w; [done |].
  cbn [open_clips decode_all]. unfold bind, read_file, lift, ret.
  destruct (files w !! p) as [content |]; [| done].
  destruct (VideoFileClip E content) as [clip | e]; [| done].
  rewrite IH. by destruct (decode_all E rest (files w)).
Qed.

Lemma unlink_all_spec clip_paths :
  forall w r w',
    unlink_all clip_paths w = (r, w') ->
    heap w' = heap w /\ trace w' = trace w /\
    (forall p, files w !! p = None -> files w' !! p = None) /\
    (is_ok r = true -> Forall (fun p => files w' !! p = None) clip_paths).
Proof.
  induction clip_paths as [| p rest IH]; intros w r w' H; simpl in H.
  - injection H as <- <-. repeat split; auto.
  - apply bind_inv in H as [(u & w1 & H1 & H) | (e & H1 & ->)];
      unfold unlink in H1; destruct (files w !! p) as [content |] eqn:Hp;
      simplify_eq.
    + apply IH in H as (Hh & Ht & Hkeep & Hall). cbn in Hh, Ht, Hkeep.
      repeat split; [done | done | |].
      * intros q Hq. apply Hkeep. by rewrite lookup_delete_None; right.
      * intros Hok. constructor; [| by apply Hall].
        apply Hkeep. by rewrite lookup_delete_eq.
    + repeat split; auto. done.
Qed.

(** The stitcher unfolded: it records its call, then encodes, and only once
    the encoder has returned does it remove its inputs. *)
Lemma stitch_spec E clip_paths output_filename w :
  let called :=
    World (heap w) (files w) (trace w ++ [Stitch clip_paths]) in
  let final_path := path_join "final_videos" (output_filename +:+ ".mp4") in
  _stitch_clips_into_video E clip_paths output_filename w =
  match encode E clip_paths output_filename w with
  | Raise e => (Raise e, called)
  | Ok written =>
      match unlink_all clip_paths
              (World (heap w)
                 (match written with
                  | Some content => <[final_path := content]> (files w)
                  | None => files w
                  end)
                 (trace called)) with
      | (Ok _, w') => (Ok final_path, w')
      | (Raise e, w') => (Raise e, w')
      end
  end.
Proof.
  intros called final_path. unfold _stitch_clips_into_video, encode.
  unfold bind at 1, log at 1. fold called.
  unfold bind at 1. rewrite open_clips_spec.
  change (files called) with (files w).
  destruct (decode_all E clip_paths (files w)) as [clips | e]; [| done].
  unfold bind at 1, lift at 1.
  destruct (concatenate_videoclips E clips) as [final_clip | e]; [| done].
  unfold bind at 1, mkdir, permitted.
  change (trace called) with (trace w ++ [Stitch clip_paths]).
  destruct (fs_error E _ (MakeDir "final_videos")) as [e |]; [done |].
  unfold bind at 1, lift at 1. fold final_path.
  destruct (write_videofile E final_clip final_path) as [written | e];
    [| done].
  unfold bind at 1, store_video at 1. unfold bind at 1.
  destruct written as [content |]; cbn [heap files trace];
    by destruct (unlink_all clip_paths _) as [[[] | e] w'].
Qed.

(** ** The coordinator *)

Lemma stitch_trace E clip_paths output_filename w :
  trace (_stitch_clips_into_video E clip_paths output_filename w).2 =
  trace w ++ [Stitch clip_paths].
Proof.
  rewrite stitch_spec.
  destruct (encode E clip_paths output_filename w) as [encoded | e];
    [| done].
  destruct (unlink_all clip_paths _) as [r w'] eqn:Hrm.
  apply unlink_all_spec in Hrm as (_ & Ht & _). by destruct r as [[] | e].
Qed.

(** The coordinator in terms of its loop. *)
Lemma create_unfold E self chapter_text output_filename w data w1 :
  split_chapter_into_scenes E chapter_text w = (Ok (Some data), w1) ->
  let loop := collect_clips E self (scenes data) [] w1 in
  create_chapter_video E self chapter_text output_filename w =
  match loop.1 with
  | Raise e => (Raise e, loop.2)
  | Ok [] => (Ok None, loop.2)
  | Ok clip_paths =>
      let stitched :=
        _stitch_clips_into_video E clip_paths output_filename loop.2 in
      match stitched.1 with
      | Ok final_path => (Ok (Some final_path), stitched.2)
      | Raise e => (Raise e, stitched.2)
      end
  end.
Proof.
  intros Hsplit loop. unfold create_chapter_video.
  unfold bind at 1. rewrite Hsplit. subst loop.
  destruct (scenes data) as [| scene rest] eqn:Hscenes; [done |].
  unfold bind at 1.
  destruct (collect_clips E self (scene :: rest) [] w1)
    as [[[| p ps] | e] w2]; [done | | done].
  cbn [fst snd]. unfold bind at 1, ret.
  by destruct (_stitch_clips_into_video E (p :: ps) output_filename w2)
    as [[final | e] w3].
Qed.

Lemma stitch_calls_planner E chapter_text tr :
  stitch_calls (tr ++ [planner_request E chapter_text]) = stitch_calls tr.
Proof. rewrite stitch_calls_app. cbn. by rewrite app_nil_r. Qed.

(** What a run hands to the stitcher, from the outcomes of its scenes. *)
Lemma create_spec E self chapter_text output_filename w data :
  (split_chapter_into_scenes E chapter_text w).1 = Ok (Some data) ->
  let planned := (split_chapter_into_scenes E chapter_text w).2 in
  let outs := scene_outcomes E self (scenes data) planned in
  let run := create_chapter_video E self chapter_text output_filename w in
  match first_raise outs with
  | Some e =>
      run.1 = Raise e /\ stitch_calls (trace run.2) = stitch_calls (trace w)
  | None =>
      match omap clip_of outs with
      | [] =>
          run.1 = Ok None /\
          stitch_calls (trace run.2) = stitch_calls (trace w)
      | clip_paths =>
          stitch_calls (trace run.2) = stitch_calls (trace w) ++ [clip_paths]
      end
  end.
Proof.
  intros Hdata. cbn zeta.
  destruct (split_spec E chapter_text w) as (o & Hsplit & _).
  rewrite Hsplit in Hdata |- *. cbn [fst snd] in Hdata |- *.
  injection Hdata as ->.
  rewrite (create_unfold _ _ _ _ _ _ _ Hsplit). cbn zeta.
  set (w1 := World _ _ _) in *.
  set (outs := scene_outcomes E self (scenes data) w1).
  destruct (collect_spec E self (scenes data) [] w1)
    as (Hr & _ & tr & Ht & Hs). fold outs in Hr. cbn [app] in Hr.
  assert (stitch_calls
            (trace (collect_clips E self (scenes data) [] w1).2)
          = stitch_calls (trace w)) as Hquiet.
  { rewrite Ht, stitch_calls_app, Hs, app_nil_r.
    apply stitch_calls_planner. }
  rewrite Hr. destruct (first_raise outs) as [e |]; [done |].
  destruct (omap clip_of outs) as [| p ps]; [done |].
  set (stitched := _stitch_clips_into_video _ _ _ _).
  assert (trace stitched.2 =
          trace (collect_clips E self (scenes data) [] w1).2
            ++ [Stitch (p :: ps)]) as Hst by apply stitch_trace.
  assert (stitch_calls (trace stitched.2)
          = stitch_calls (trace w) ++ [p :: ps]) as Hcalls.
  { by rewrite Hst, stitch_calls_app, Hquiet. }
  by destruct stitched.1.
Qed.

(** The loop stops in the world left by the first job that raises. *)
Lemma collect_stops E self todo :
  forall clip_paths w e,
    first_raise (scene_outcomes E self todo w) = Some e ->
    scene_worlds E self todo w
      !! returned_before_raise (scene_outcomes E self todo w) =
    Some (collect_clips E self todo clip_paths w).2.
Proof.
  induction todo as [| scene rest IH]; intros clip_paths w e; [done |].
  cbn [scene_outcomes scene_worlds collect_clips]. unfold bind at 1.
  destruct (_generate_clip_for_scene E self (visual_prompt scene)
              "Prompt_Input_Node" w) as [[[p |] | e'] w1];
    cbn [first_raise returned_before_raise]; [| | done];
    intros Hraise; by apply (IH _ _ e).
Qed.

Lemma create_stops E self chapter_text output_filename w data e :
  (split_chapter_into_scenes E chapter_text w).1 = Ok (Some data) ->
  let planned := (split_chapter_into_scenes E chapter_text w).2 in
  let outs := scene_outcomes E self (scenes data) planned in
  first_raise outs = Some e ->
  scene_worlds E self (scenes data) planned !! returned_before_raise outs =
  Some (create_chapter_video E self chapter_text output_filename w).2.
Proof.
  intros Hdata. cbn zeta.
  destruct (split_spec E chapter_text w) as (o & Hsplit & _).
  rewrite Hsplit in Hdata |- *. cbn [fst snd] in Hdata |- *.
  injection Hdata as ->. intros Hraise.
  rewrite (create_unfold _ _ _ _ _ _ _ Hsplit). cbn zeta.
  set (w1 := World _ _ _) in *.
  rewrite (collect_stops E self (scenes data) [] w1 e Hraise).
  destruct (collect_spec E self (scenes data) [] w1) as (Hr & _).
  rewrite Hraise in Hr. by rewrite Hr.
Qed.







(** C2, as stated, fails: the first connection is refused, the exception
    leaves [create_chapter_video], and the two scenes that the server would
    have rendered are never submitted. *)
Lemma scene_exception_not_caught :
  let run := create_chapter_video Scenario.first_connection_refused
               Scenario.generator "chapter" "out" Scenario.start in
  run.1 = Raise ConnectionError /\
  sent_jobs (trace run.2) = [] /\
  scene_outcomes Scenario.first_connection_refused Scenario.generator
    (scenes Scenario.three_scenes)
    (split_chapter_into_scenes Scenario.first_connection_refused "chapter"
       Scenario.start).2 =
  [Raise ConnectionError; Ok (Some "temp_clips/clip1.mp4");
   Ok (Some "temp_clips/clip2.mp4")].
Proof. vm_compute. repeat split. Qed.

(** C2, amended. A scene whose render job returns no clip is skipped and
    the run goes on with the scenes that follow; an exception raised while a
    scene is submitted, awaited or downloaded is not caught by
    [create_chapter_video]: it leaves the run there and then, in the world
    that the job of that scene left, so that the scenes after it are not
    rendered and nothing is stitched. *)
Theorem scene_failures E self chapter_text output_filename w data :
  (split_chapter_into_scenes E chapter_text w).1 = Ok (Some data) ->
  let planned := (split_chapter_into_scenes E chapter_text w).2 in
  let outs := scene_outcomes E self (scenes data) planned in
  let worlds := scene_worlds E self (scenes data) planned in
  let run := create_chapter_video E self chapter_text output_filename w in
  match first_raise outs with
  | Some e =>
      run.1 = Raise e /\
      worlds !! returned_before_raise outs = Some run.2 /\
      stitch_calls (trace run.2) = stitch_calls (trace w)
  | None =>
      stitch_calls (trace run.2) =
      stitch_calls (trace w) ++
      match omap clip_of outs with
      | [] => []
      | clip_paths => [clip_paths]
      end
  end.
Proof.
  intros Hdata planned outs worlds run.
  pose proof (create_spec E self chapter_text output_filename w data Hdata)
    as Hrun.
  pose proof (create_stops E self chapter_text output_filename w data)
    as Hstop.
  cbn zeta in Hrun, Hstop. fold planned outs run in Hrun.
  fold planned outs worlds run in Hstop.
  destruct (first_raise outs) as [e |].
  - destruct Hrun as [Hr Hs]. split_and!; [done | by apply (Hstop e) | done].
  - destruct (omap clip_of outs) as [| p ps]; [| done].
    destruct Hrun as [_ ->]. by rewrite app_nil_r.
Qed.

Lemma scene_failures_witness :
  let E := Scenario.second_connection_refused in
  let planned := (split_chapter_into_scenes E "chapter" Scenario.start).2 in
  let worlds :=
    scene_worlds E Scenario.generator (scenes Scenario.three_scenes) planned in
  let run := create_chapter_video E Scenario.generator "chapter" "out"
               Scenario.start in
  run.1 = Raise ConnectionError /\
  worlds !! 1 = Some run.2 /\
  stitch_calls (trace run.2) = stitch_calls (trace Scenario.start).
Proof.
  apply (scene_failures Scenario.second_connection_refused
           Scenario.generator "chapter" "out" Scenario.start
           Scenario.three_scenes).
  reflexivity.
Defined.

(** ** Cleaning up after stitching *)

(** C7. When [_stitch_clips_into_video] completes, every input clip file
    has been deleted; when opening, concatenating or encoding the clips
    fails, the stitcher raises that exception and the files are as they
    were: no input is deleted. *)
Theorem stitch_cleanup E clip_paths output_filename w r w' :
  _stitch_clips_into_video E clip_paths output_filename w = (r, w') ->
  (is_ok r = true -> Forall (fun p => files w' !! p = None) clip_paths) /\
  (forall e, encode E clip_paths output_filename w = Raise e ->
             r = Raise e /\ files w' = files w).
Proof.
  rewrite stitch_spec. cbn zeta.
  destruct (encode E clip_paths output_filename w) as [encoded | e].
  - destruct (unlink_all clip_paths _) as [r1 w1] eqn:Hrm.
    apply unlink_all_spec in Hrm as (_ & _ & _ & Hall).
    destruct r1 as [[] | e1]; intros [= <- <-]; (split; [| done]);
      [| done]. intros _. by apply Hall.
  - intros [= <- <-]. split; [done |]. by intros e' [= <-].
Qed.

(** A failure that is not one of encoding: with a path listed twice the
    encoded file is written, the first [unlink] removes the clip and the
    second one raises. *)
Example clip_listed_twice :
  let run :=
    _stitch_clips_into_video Scenario.healthy
      ["temp_clips/a.mp4"; "temp_clips/a.mp4"] "out" Scenario.two_clips in
  run.1 = Raise FileNotFoundError /\
  files run.2 !! "temp_clips/a.mp4" = None /\
  files run.2 !! "final_videos/out.mp4" = Some "A+A".
Proof. vm_compute. repeat split. Qed.

Lemma stitch_cleanup_witness :
  let healthy_run :=
    _stitch_clips_into_video Scenario.healthy
      ["temp_clips/a.mp4"; "temp_clips/b.mp4"] "out" Scenario.two_clips in
  let failed_run :=
    _stitch_clips_into_video Scenario.encoder_fails
      ["temp_clips/a.mp4"; "temp_clips/b.mp4"] "out" Scenario.two_clips in
  Forall (fun p => files healthy_run.2 !! p = None)
    ["temp_clips/a.mp4"; "temp_clips/b.mp4"] /\
  failed_run.1 = Raise (OSError "ffmpeg failed") /\
  files failed_run.2 = files Scenario.two_clips.
Proof.
  intros healthy_run failed_run. split.
  - apply (stitch_cleanup Scenario.healthy
             ["temp_clips/a.mp4"; "temp_clips/b.mp4"] "out"
             Scenario.two_clips healthy_run.1 healthy_run.2);
      [apply surjective_pairing | reflexivity].
  - apply (stitch_cleanup Scenario.encoder_fails
             ["temp_clips/a.mp4"; "temp_clips/b.mp4"] "out"
             Scenario.two_clips failed_run.1 failed_run.2);
      [apply surjective_pairing | reflexivity].
Defined.

(** C8. Called with an empty clip list, the stitcher fails: the media
    library refuses to concatenate nothing and the stitcher lets that
    exception through. And whatever the run, the coordinator never calls the
    stitcher with an empty list. *)
Theorem stitcher_never_given_nothing E self e
  chapter_text output_filename w direct_name direct_world :
  concatenate_videoclips E [] = Raise e ->
  (_stitch_clips_into_video E [] direct_name direct_world).1 = Raise e /\
  let run := create_chapter_video E self chapter_text output_filename w in
  exists tr,
    trace run.2 = trace w ++ tr /\
    Forall (fun clip_paths => clip_paths <> []) (stitch_calls tr).
Proof.
  intros Hlib. split.
  - rewrite stitch_spec. unfold encode. cbn [decode_all]. by rewrite Hlib.
  - intros run. destruct (split_spec E chapter_text w) as (o & Hsplit & _).
    set (w1 := World _ _ _) in Hsplit.
    destruct o as [data |].
    2: { exists [planner_request E chapter_text]. subst run.
         unfold create_chapter_video, bind. rewrite Hsplit. cbn.
         split; [done | constructor]. }
    subst run. rewrite (create_unfold _ _ _ _ _ _ _ Hsplit). cbn zeta.
    destruct (collect_spec E self (scenes data) [] w1)
      as (_ & _ & tr & Ht & Hs). cbn zeta in Ht.
    set (loop := collect_clips E self (scenes data) [] w1) in *.
    assert (trace loop.2 = trace w ++ (planner_request E chapter_text :: tr)
            /\ stitch_calls (planner_request E chapter_text :: tr) = [])
      as [Hloop Hquiet].
    { split; [| done]. rewrite Ht. subst w1. cbn [trace].
      by rewrite <- app_assoc. }
    destruct loop.1 as [[| p ps] | e'].
    + eexists. split; [exact Hloop |]. rewrite Hquiet. constructor.
    + pose proof (stitch_trace E (p :: ps) output_filename loop.2) as Hst.
      exists ((planner_request E chapter_text :: tr) ++ [Stitch (p :: ps)]).
      split.
      * destruct (_stitch_clips_into_video _ _ _ _).1;
          cbn [snd]; by rewrite Hst, Hloop, <- app_assoc.
      * rewrite stitch_calls_app, Hquiet. cbn. by repeat constructor.
    + eexists. split; [exact Hloop |]. rewrite Hquiet. constructor.
Qed.

Lemma stitcher_never_given_nothing_witness :
  (_stitch_clips_into_video Scenario.healthy [] "out" Scenario.start).1 =
    Raise (ValueError "max() arg is an empty sequence") /\
  let run := create_chapter_video Scenario.healthy Scenario.generator
               "chapter" "out" Scenario.start in
  exists tr,
    trace run.2 = trace Scenario.start ++ tr /\
    Forall (fun clip_paths => clip_paths <> []) (stitch_calls tr).
Proof.
  apply (stitcher_never_given_nothing Scenario.healthy Scenario.generator
           (ValueError "max() arg is an empty sequence")
           "chapter" "out" Scenario.start "out" Scenario.start).
  reflexivity.
Defined.

(** ** The input node *)

Lemma find_title_untitled title nodes :
  Forall (fun kv => titled title kv.2 = false) nodes ->
  find_title nodes title =
  if forallb (fun kv => node_shaped kv.2) nodes then Ok None
  else Raise AttributeError.
Proof.
  induction 1 as [| [nid n] nodes Ht _ IH]; [done |].
  cbn in *. rewrite Ht. destruct (node_shaped n); [| done].
  rewrite IH. by destruct (forallb _ nodes).
Qed.

(** C5. When no node of the workflow template is titled as asked,
    [_generate_clip_for_scene] raises with no event at all: no connection
    is opened and the template is not sent. On a template whose nodes are
    mappings, the exception is the error of line 99 (the configuration
    error of the specification). *)
Theorem missing_input_node E self scene_prompt prompt_node_title w nodes :
  copied_document (heap w) (base_workflow self) = Some (JDict nodes) ->
  Forall (fun kv => titled prompt_node_title kv.2 = false) nodes ->
  let run :=
    _generate_clip_for_scene E self scene_prompt prompt_node_title w in
  is_ok run.1 = false /\
  trace run.2 = trace w /\ files run.2 = files w /\
  (forallb (fun kv => node_shaped kv.2) nodes = true ->
   run.1 = Raise (missing_node prompt_node_title)).
Proof.
  intros Hdoc Hnone run.
  destruct run as [r w'] eqn:Hrun. subst run.
  apply generate_spec in Hrun as (_ & tr & Ht & _ & Hcase).
  rewrite Hdoc in Hcase. unfold with_prompt in Hcase.
  rewrite (find_title_untitled _ _ Hnone) in Hcase.
  destruct (forallb _ nodes);
    destruct Hcase as (-> & -> & Hf); rewrite app_nil_r in Ht; by cbn.
Qed.

Lemma missing_input_node_witness :
  let run :=
    _generate_clip_for_scene Scenario.healthy
      Scenario.generator_without_input "dawn" "Prompt_Input_Node"
      Scenario.start_without_input in
  run.1 = Raise (missing_node "Prompt_Input_Node") /\
  trace run.2 = trace Scenario.start_without_input /\
  files run.2 = files Scenario.start_without_input.
Proof.
  destruct (missing_input_node Scenario.healthy
              Scenario.generator_without_input
              "dawn" "Prompt_Input_Node" Scenario.start_without_input
              [("3", JDict [("inputs", JDict [("seed", JNum 7)]);
                            ("_meta", JDict [("title", JStr "Sampler")])]);
               ("6", JDict [("inputs", JDict [("text", JStr "")])])])
    as (_ & Htrace & Hfiles & Herror).
  - reflexivity.
  - repeat constructor.
  - intros run. split; [apply Herror; reflexivity | by split].
Defined.

(** ** Downloads *)

(** C6, as stated, fails: the download of the first scene is answered with
    status 500, and the render client returns [None] without raising and
    without writing a file. *)
Lemma download_500_is_not_an_error :
  let run :=
    _generate_clip_for_scene Scenario.no_download Scenario.generator
      "dawn" "Prompt_Input_Node" Scenario.start in
  http_get Scenario.no_download (trace run.2) = Ok (500%Z, "video") /\
  last (trace run.2) =
    Some (HttpGet (ViewUrl "127.0.0.1:8188" (JStr "") (JStr "clip1.mp4"))) /\
  run.1 = Ok None /\
  files run.2 = ∅.
Proof. vm_compute. repeat split. Qed.

Lemma entry_ok_dict_get kvs k output :
  forallb (fun kv : string * json => entry_ok kv.2) kvs = true ->
  dict_get k kvs = Some output -> entry_ok output = true.
Proof.
  induction kvs as [| [k' o] kvs IH]; [done |]. cbn.
  rewrite andb_true_iff. intros [Ho Hrest].
  destruct (decide (k = k')); [by intros [= <-] | by apply IH].
Qed.

Lemma fetch_video_none E self kvs :
  forallb (fun kv : string * json => entry_ok kv.2) kvs = true ->
  (forall tr, exists status body,
      http_get E tr = Ok (status, body) /\ status <> 200%Z) ->
  forall node_ids w,
    Forall (fun id => exists k, id = JStr k /\ is_Some (dict_get k kvs))
      node_ids ->
    exists w',
      fetch_video E self (JDict kvs) node_ids w = (Ok None, w') /\
      files w' = files w.
Proof.
  intros Hok Hget.
  induction node_ids as [| id rest IH]; intros w Hids.
  - by exists w.
  - inversion Hids as [| ? ? (k & -> & output & Hk) Hrest]; subst.
    pose proof (entry_ok_dict_get _ _ _ Hok Hk) as Hentry.
    cbn [fetch_video]. unfold bind at 1, lift at 1.
    cbn [json_getitem]. rewrite Hk.
    destruct output as [| | | | | | d]; try done.
    unfold bind at 1, lift at 1. cbn [json_contains].
    unfold entry_ok in Hentry.
    destruct (dict_get "videos" d) as [videos |] eqn:Hv.
    2: { rewrite bool_decide_eq_false_2 by (by intros [? ?]). by apply IH. }
    rewrite bool_decide_eq_true_2 by done.
    destruct videos as [| | | | | [| [| | | | | | video] more] |]; try done.
    apply bool_decide_eq_true_1 in Hentry as [filename Hname].
    unfold bind at 1, lift at 1. cbn [json_getitem]. rewrite Hv.
    unfold bind at 1, lift at 1.
    change (json_getitem (JList (JDict video :: more)) (JNum 0))
      with (Ok (A := json) (JDict video)).
    unfold bind at 1, lift at 1. cbn [json_get].
    unfold bind at 1, lift at 1. cbn [json_getitem]. rewrite Hname.
    unfold bind at 1, log at 1. unfold bind at 1, ask_res at 1.
    cbn [trace].
    destruct (Hget (trace w ++
                [HttpGet (ViewUrl (server_address self)
                            (default (JStr "") (dict_get "subfolder" video))
                            filename)]))
      as (status & body & -> & Hstatus).
    cbn [fst]. rewrite decide_False by done.
    destruct (IH (World (heap w) (files w)
                    (trace w ++
                     [HttpGet (ViewUrl (server_address self)
                                 (default (JStr "")
                                    (dict_get "subfolder" video))
                                 filename)])) Hrest) as (w' & Hfetch & Hf).
    by exists w'.
Qed.

(** A download answered with a status other than 200: the loop goes on
    with the entries that follow, in the world where the request was
    made. *)
Lemma fetch_video_refused E self outputs node_id rest w output video more
  filename status body :
  json_getitem outputs node_id = Ok output ->
  json_getitem output (JStr "videos") = Ok (JList (JDict video :: more)) ->
  dict_get "filename" video = Some filename ->
  let asked :=
    World (heap w) (files w)
      (trace w ++ [video_request self video filename]) in
  http_get E (trace asked) = Ok (status, body) ->
  status <> 200%Z ->
  fetch_video E self outputs (node_id :: rest) w =
  fetch_video E self outputs rest asked.
Proof.
  intros Houtput Hvideos Hname asked Hget Hstatus.
  cbn [fetch_video]. unfold bind at 1, lift at 1. rewrite Houtput.
  assert (json_contains "videos" output = Ok true) as Hhas.
  { destruct output as [| | | | | | d]; try done. cbn in Hvideos |- *.
    destruct (dict_get "videos" d); [| done].
    by rewrite bool_decide_eq_true_2. }
  unfold bind at 1, lift at 1. rewrite Hhas.
  unfold bind at 1, lift at 1. rewrite Hvideos.
  unfold bind at 1, lift at 1.
  change (json_getitem (JList (JDict video :: more)) (JNum 0))
    with (Ok (A := json) (JDict video)).
  unfold bind at 1, lift at 1. cbn [json_get].
  unfold bind at 1, lift at 1. cbn [json_getitem]. rewrite Hname.
  unfold bind at 1, log at 1. unfold bind at 1, ask_res at 1.
  fold (video_request self video filename). fold asked. rewrite Hget.
  cbn [fst]. by rewrite decide_False.
Qed.

(** C6, amended. A download answered with a status other than 200 raises
    nothing and writes nothing: its entry of the manifest is passed over,
    and the loop goes on with the entries that follow as if the entry had
    held no video, the request made apart. When no download is answered
    with status 200, the render client returns [None] and writes no
    file. *)
Theorem failed_download_is_skipped E self outputs :
  (forall node_id rest w output video more filename status body,
     json_getitem outputs node_id = Ok output ->
     json_getitem output (JStr "videos") = Ok (JList (JDict video :: more)) ->
     dict_get "filename" video = Some filename ->
     let asked :=
       World (heap w) (files w)
         (trace w ++ [video_request self video filename]) in
     http_get E (trace asked) = Ok (status, body) ->
     status <> 200%Z ->
     fetch_video E self outputs (node_id :: rest) w =
     fetch_video E self outputs rest asked) /\
  (forall node_ids w,
     manifest_ok outputs = true ->
     json_iter outputs = Ok node_ids ->
     (forall tr, exists status body,
         http_get E tr = Ok (status, body) /\ status <> 200%Z) ->
     let run := fetch_video E self outputs node_ids w in
     run.1 = Ok None /\ files run.2 = files w).
Proof.
  split.
  - intros node_id rest w output video more filename status body.
    apply fetch_video_refused.
  - intros node_ids w Hok Hiter Hget run.
    destruct outputs as [| | | | | | kvs]; try done.
    cbn in Hok, Hiter. injection Hiter as <-.
    destruct (fetch_video_none E self kvs Hok Hget
                (map (fun kv => JStr kv.1) kvs) w) as (w' & Hrun & Hf).
    { apply Forall_forall. intros id Hid.
      apply list_elem_of_fmap in Hid as ([k o] & -> & Hin).
      exists k. split; [done |]. clear Hok.
      induction kvs as [| [k' o'] kvs IH]; [by apply elem_of_nil in Hin |].
      cbn. destruct (decide (k = k')); [by eexists |].
      apply IH. apply elem_of_cons in Hin as [[= -> ->] | Hin]; done. }
    subst run. by rewrite Hrun.
Qed.

(** The download of the first output is refused, and the second output is
    downloaded in its place; when every download is refused, there is no
    clip. *)
Lemma failed_download_is_skipped_witness :
  let first_asked :=
    World (heap Scenario.start) (files Scenario.start)
      (trace Scenario.start ++
       [video_request Scenario.generator
          [("filename", JStr "first.mp4"); ("subfolder", JStr "")]
          (JStr "first.mp4")]) in
  let run :=
    fetch_video Scenario.first_download_fails Scenario.generator
      Scenario.two_outputs [JStr "9"; JStr "12"] Scenario.start in
  let hopeless :=
    fetch_video Scenario.no_download Scenario.generator
      Scenario.two_outputs [JStr "9"; JStr "12"] Scenario.start in
  run =
    fetch_video Scenario.first_download_fails Scenario.generator
      Scenario.two_outputs [JStr "12"] first_asked /\
  run.1 = Ok (Some "temp_clips/second.mp4") /\
  hopeless.1 = Ok None /\ files hopeless.2 = files Scenario.start.
Proof.
  intros first_asked run hopeless.
  destruct (failed_download_is_skipped Scenario.first_download_fails
              Scenario.generator Scenario.two_outputs) as [Hstep _].
  destruct (failed_download_is_skipped Scenario.no_download
              Scenario.generator Scenario.two_outputs) as [_ Hnone].
  split; [| split].
  - apply (Hstep (JStr "9") [JStr "12"] Scenario.start
             (JDict [("videos",
                JList [JDict [("filename", JStr "first.mp4");
                              ("subfolder", JStr "")]])])
             [("filename", JStr "first.mp4"); ("subfolder", JStr "")]
             [] (JStr "first.mp4") 500%Z "video");
      [reflexivity | reflexivity | reflexivity | reflexivity | discriminate].
  - reflexivity.
  - apply (Hnone [JStr "9"; JStr "12"] Scenario.start);
      [reflexivity | reflexivity |].
    intros tr. exists 500%Z, "video". split; [reflexivity | discriminate].
Defined.

(** ** Template isolation *)

Lemma json_dumps_preserved (h h' : store) v j :
  h `prefix_of` h' -> json_dumps h v = Some j -> json_dumps h' v = Some j.
Proof.
  intros Hp Hj. unfold json_dumps in *.
  eapply dumps_mono; [exact Hj | by apply prefix_length | done].
Qed.

(** C9. Throughout the scenes of a run the stored template reads as it did
    at the start, no object that existed is changed, and each job sent to
    the render server is the pristine template with the prompt of its own
    scene, whatever was written into the working copies of the scenes
    before it. *)
Theorem template_isolation E self todo :
  forall clip_paths w j,
    json_dumps (heap w) (base_workflow self) = Some j ->
    let run := collect_clips E self todo clip_paths w in
    heap w `prefix_of` heap run.2 /\
    json_dumps (heap run.2) (base_workflow self) = Some j /\
    exists n tr,
      trace run.2 = trace w ++ tr /\
      Forall2
        (fun scene job =>
           exists workflow,
             with_prompt (normalize j) "Prompt_Input_Node"
               (visual_prompt scene) = Ok workflow /\
             job = job_message (client_id self) workflow)
        (take n todo) (sent_jobs tr).
Proof.
  induction todo as [| scene rest IH]; intros clip_paths w j Hj; cbn zeta.
  - cbn. repeat split; [done.. |]. exists 0, []. rewrite app_nil_r.
    split; [done | constructor].
  - cbn [collect_clips]. unfold bind at 1 2 3.
    destruct (_generate_clip_for_scene E self (visual_prompt scene)
                "Prompt_Input_Node" w) as [r w1] eqn:Hgen.
    apply generate_spec in Hgen as (Hp1 & tr1 & Ht1 & _ & Hcase).
    unfold copied_document in Hcase. rewrite Hj in Hcase.
    change (normalize <$> Some j) with (Some (normalize j)) in Hcase.
    cbn beta iota in Hcase.
    pose proof (json_dumps_preserved _ _ _ _ Hp1 Hj) as Hj1.
    assert (forall (next : list string),
              is_ok r = true ->
              sent_jobs tr1 = [] \/
              (exists workflow,
                 with_prompt (normalize j) "Prompt_Input_Node"
                   (visual_prompt scene) = Ok workflow /\
                 sent_jobs tr1 = [job_message (client_id self) workflow]) ->
              let run := collect_clips E self rest next w1 in
              heap w `prefix_of` heap run.2 /\
              json_dumps (heap run.2) (base_workflow self) = Some j /\
              exists n tr,
                trace run.2 = trace w ++ tr /\
                Forall2
                  (fun scene job =>
                     exists workflow,
                       with_prompt (normalize j) "Prompt_Input_Node"
                         (visual_prompt scene) = Ok workflow /\
                       job = job_message (client_id self) workflow)
                  (take n (scene :: rest)) (sent_jobs tr)) as Hnext.
    { intros next Hok Hsent. cbn zeta.
      destruct (IH next w1 j Hj1) as (Hp & Hjr & n & tr & Ht & Hjobs).
      cbn zeta in Hp, Hjr, Ht.
      split; [by etrans |]. split; [done |].
      destruct Hsent as [Hsent | (workflow & Hwp & Hsent)].
      - exfalso.
        destruct (with_prompt (normalize j) "Prompt_Input_Node"
                    (visual_prompt scene)) as [j' | e];
          [| by destruct Hcase as (_ & -> & _)].
        destruct Hcase as [[_ Hko] | Hsent']; [congruence |].
        by rewrite Hsent in Hsent'.
      - exists (S n), (tr1 ++ tr). rewrite Ht, Ht1, <- app_assoc.
        split; [done |]. rewrite sent_jobs_app, Hsent. cbn.
        constructor; [by exists workflow | done]. }
    assert (sent_jobs tr1 = [] \/
            (exists workflow,
               with_prompt (normalize j) "Prompt_Input_Node"
                 (visual_prompt scene) = Ok workflow /\
               sent_jobs tr1 = [job_message (client_id self) workflow]))
      as Hsent.
    { destruct (with_prompt (normalize j) "Prompt_Input_Node"
                  (visual_prompt scene)) as [j' | e].
      - destruct Hcase as [[? _] | ?]; [by left | right; by exists j'].
      - destruct Hcase as (-> & _). by left. }
    destruct r as [[p |] | e]; [by apply Hnext | by apply Hnext |].
    cbn [fst snd]. split; [done |]. split; [done |].
    destruct Hsent as [Hsent | (workflow & Hwp & Hsent)].
    + exists 0, tr1. rewrite Hsent. split; [done | constructor].
    + exists 1, tr1. rewrite Hsent. split; [done |]. cbn.
      rewrite take_0. constructor; [by exists workflow | constructor].
Qed.

Lemma template_isolation_witness :
  let run :=
    collect_clips Scenario.healthy Scenario.generator
      (scenes Scenario.three_scenes) [] Scenario.start in
  heap Scenario.start `prefix_of` heap run.2 /\
  json_dumps (heap run.2) (base_workflow Scenario.generator) =
    Some Scenario.template /\
  exists n tr,
    trace run.2 = trace Scenario.start ++ tr /\
    Forall2
      (fun scene job =>
         exists workflow,
           with_prompt (normalize Scenario.template) "Prompt_Input_Node"
             (visual_prompt scene) = Ok workflow /\
           job = job_message (client_id Scenario.generator) workflow)
      (take n (scenes Scenario.three_scenes)) (sent_jobs tr).
Proof.
  apply (template_isolation Scenario.healthy Scenario.generator
           (scenes Scenario.three_scenes) [] Scenario.start
           Scenario.template).
  reflexivity.
Defined.

(** * Further properties *)

(** ** Waiting for the render server *)

Lemma await_passes_over fr frames w :
  passed_over fr = true ->
  await_executed (fr :: frames) w = await_executed frames w.
Proof.
  destruct fr as [| [message |] |]; [done | | done | done].
  cbn [passed_over].
  intros Hty. cbn [await_executed]. unfold bind, lift.
  destruct (json_getitem message (JStr "type")) as [ty | e]; [| done].
  by destruct (json_is_str ty "executed").
Qed.

(** X1. The wait returns the output of the first [executed] message: the
    binary frames and the messages of another type before it are passed
    over, the frames after it are never looked at, and the socket is
    closed. *)
Theorem first_executed_message_wins before message later ty w :
  forallb passed_over before = true ->
  json_getitem message (JStr "type") = Ok ty ->
  json_is_str ty "executed" = true ->
  await_executed (before ++ FrameText (Some message) :: later) w =
  (message_output message,
   World (heap w) (files w) (trace w ++ [WsClose])).
Proof.
  intros Hbefore Hty Hexec.
  induction before as [| fr before IH].
  - cbn [app await_executed]. unfold bind, lift, log, message_output.
    rewrite Hty, Hexec.
    by destruct (json_getitem message (JStr "data")).
  - cbn in Hbefore. apply andb_true_iff in Hbefore as [Hfr Hbefore].
    cbn [app]. rewrite await_passes_over by done. by apply IH.
Qed.

Lemma first_executed_message_wins_witness :
  await_executed
    ([FrameBytes; Scenario.progress] ++
     Scenario.executed "clip1.mp4" :: [FrameText None])
    Scenario.start =
  (Ok (Scenario.manifest "clip1.mp4"),
   World (heap Scenario.start) (files Scenario.start)
     (trace Scenario.start ++ [WsClose])).
Proof.
  apply (first_executed_message_wins [FrameBytes; Scenario.progress]
           (JDict [("type", JStr "executed");
                   ("data",
                    JDict [("output", Scenario.manifest "clip1.mp4")])])
           [FrameText None] (JStr "executed") Scenario.start);
    reflexivity.
Defined.



(** X3. A text frame that is not a JSON text stops the wait with the
    decoding error, also when an [executed] message would have followed;
    the socket is left open. *)
Theorem undecodable_frame_aborts before later w :
  forallb passed_over before = true ->
  await_executed (before ++ FrameText None :: later) w =
  (Raise JSONDecodeError, w).
Proof.
  induction before as [| fr before IH]; [done |]. cbn [forallb app].
  rewrite andb_true_iff. intros [Hfr Hrest].
  rewrite await_passes_over by done. by apply IH.
Qed.

Lemma undecodable_frame_aborts_witness :
  await_executed
    ([Scenario.progress] ++ FrameText None :: [Scenario.executed "clip1.mp4"])
    Scenario.start =
  (Raise JSONDecodeError, Scenario.start).
Proof.
  apply (undecodable_frame_aborts [Scenario.progress]
           [Scenario.executed "clip1.mp4"] Scenario.start).
  reflexivity.
Defined.

(** X4. A message that is a mapping without a [type] stops the wait with
    [KeyError], also when an [executed] message would have followed. *)
Theorem untyped_message_aborts before entries later w :
  forallb passed_over before = true ->
  dict_get "type" entries = None ->
  await_executed (before ++ FrameText (Some (JDict entries)) :: later) w =
  (Raise (KeyError (JStr "type")), w).
Proof.
  intros Hbefore Hnone. induction before as [| fr before IH].
  - cbn [app await_executed]. unfold bind, lift. cbn [json_getitem].
    by rewrite Hnone.
  - cbn in Hbefore. apply andb_true_iff in Hbefore as [Hfr Hbefore].
    cbn [app]. rewrite await_passes_over by done. by apply IH.
Qed.

Lemma untyped_message_aborts_witness :
  await_executed
    ([FrameBytes] ++ FrameText (Some (JDict [("status", JStr "ok")]))
       :: [Scenario.executed "clip1.mp4"])
    Scenario.start =
  (Raise (KeyError (JStr "type")), Scenario.start).
Proof.
  apply (untyped_message_aborts [FrameBytes] [("status", JStr "ok")]
           [Scenario.executed "clip1.mp4"] Scenario.start);
    reflexivity.
Defined.

(** ** The events of a run *)

Lemma connection_attempts_app t1 t2 :
  connection_attempts (t1 ++ t2) =
  connection_attempts t1 ++ connection_attempts t2.
Proof. apply omap_app. Qed.

Lemma connection_attempts_connect a c rest :
  connection_attempts (WsConnect a c :: rest) =
  WsConnect a c :: connection_attempts rest.
Proof. done. Qed.

Lemma planner_requests_app t1 t2 :
  planner_requests (t1 ++ t2) = planner_requests t1 ++ planner_requests t2.
Proof. apply omap_app. Qed.

Lemma render_traffic_quiet tr :
  Forall (fun e => render_traffic e = true) tr ->
  planner_requests tr = [] /\ stitch_calls tr = [].
Proof.
  induction 1 as [| e tr He _ [IH1 IH2]]; [done |].
  destruct e; try done; cbn; by rewrite ?IH1, ?IH2.
Qed.

(** The events of one job on the socket: the connection attempt, then the
    job, then the closing. *)
Lemma queue_trace E self v w r w' :
  _queue_comfyui_prompt E self v w = (r, w') ->
  exists rest,
    trace w' =
      trace w ++ WsConnect (server_address self) (client_id self) :: rest /\
    Forall (fun e => render_traffic e = true) rest /\
    connection_attempts rest = [] /\
    (ws_accepts E
       (trace w ++ [WsConnect (server_address self) (client_id self)])
     = false ->
     r = Raise ConnectionError /\ rest = []).
Proof.
  unfold _queue_comfyui_prompt. intros H.
  apply bind_inv in H as [(u & w1 & H1 & H) | (e & H1 & ->)];
    unfold log in H1; simplify_eq.
  apply bind_inv in H as [(acc & w1 & H1 & H) | (e & H1 & ->)];
    unfold ask in H1; simplify_eq. cbn [trace] in H.
  destruct (ws_accepts E _).
  2: { apply lift_inv in H as [-> ->]. exists []. by cbn. }
  apply bind_inv in H as [(msg & w1 & H1 & H) | (e & H1 & ->)];
    unfold new_object in H1; simplify_eq. cbn [heap] in H.
  apply bind_inv in H as [(payload & w1 & H1 & H) | (e & H1 & ->)];
    unfold py_json_dumps in H1; cbn [heap files trace] in H1;
    destruct (json_dumps _ _) as [j |]; simplify_eq.
  2: { exists []. by cbn. }
  apply bind_inv in H as [(u & w1 & H1 & H) | (e & H1 & ->)];
    unfold log in H1; simplify_eq. cbn [heap files trace] in H.
  apply bind_inv in H as [(frames & w1 & H1 & H) | (e & H1 & ->)];
    unfold ask in H1; simplify_eq. cbn [trace] in H.
  apply await_executed_spec in H as (_ & _ & Ht). cbn in Ht.
  destruct Ht as [-> | ->].
  - exists [WsSend payload]. rewrite <- app_assoc. split; [done |].
    split; [by repeat constructor | done].
  - exists [WsSend payload; WsClose]. rewrite <- !app_assoc. split; [done |].
    split; [by repeat constructor | done].
Qed.

(** The events of the loop over the manifest are its downloads. *)
Lemma fetch_video_trace E self outputs node_ids :
  forall w r w',
    fetch_video E self outputs node_ids w = (r, w') ->
    exists gets, trace w' = trace w ++ (HttpGet <$> gets).
Proof.
  induction node_ids as [| node_id rest IH]; intros w r w' H; simpl in H.
  - injection H as <- <-. exists []. by rewrite app_nil_r.
  - assert (exists gets, trace w = trace w ++ (HttpGet <$> gets)) as Hstay
      by (exists []; by rewrite app_nil_r).
    apply bind_inv in H as [(output & w1 & H1 & H) | (e & H1 & ->)];
      apply lift_inv in H1 as [_ ->]; [| done].
    apply bind_inv in H as [(has & w1 & H1 & H) | (e & H1 & ->)];
      apply lift_inv in H1 as [_ ->]; [| done].
    destruct has; [| by apply IH in H].
    apply bind_inv in H as [(videos & w1 & H1 & H) | (e & H1 & ->)];
      apply lift_inv in H1 as [_ ->]; [| done].
    apply bind_inv in H as [(video_data & w1 & H1 & H) | (e & H1 & ->)];
      apply lift_inv in H1 as [_ ->]; [| done].
    apply bind_inv in H as [(subfolder & w1 & H1 & H) | (e & H1 & ->)];
      apply lift_inv in H1 as [_ ->]; [| done].
    apply bind_inv in H as [(filename & w1 & H1 & H) | (e & H1 & ->)];
      apply lift_inv in H1 as [_ ->]; [| done].
    apply bind_inv in H as [(u & w1 & H1 & H) | (e & H1 & ->)];
      unfold log in H1; simplify_eq.
    set (url := ViewUrl _ _ _) in H.
    assert (forall w2 : world,
              (exists gets, trace w2 = (trace w ++ [HttpGet url])
                                          ++ (HttpGet <$> gets)) ->
              exists gets, trace w2 = trace w ++ (HttpGet <$> gets))
      as Hafter.
    { intros w2 (gets & Ht). exists (url :: gets).
      by rewrite Ht, <- app_assoc. }
    apply bind_inv in H as [(response & w1 & H1 & H) | (e & H1 & ->)];
      unfold ask_res in H1; cbn [trace] in H1.
    2: { injection H1 as _ <-. apply Hafter. exists []. by rewrite app_nil_r. }
    injection H1 as _ <-.
    destruct (decide (response.1 = 200%Z)) as [Hstatus | Hstatus].
    2: { apply IH in H. by apply Hafter. }
    apply save_clip_inv in H as (_ & Ht & _).
    apply Hafter. exists []. by rewrite app_nil_r.
Qed.

Lemma gets_are_render_traffic gets :
  Forall (fun e => render_traffic e = true) (HttpGet <$> gets) /\
  connection_attempts (HttpGet <$> gets) = [].
Proof. induction gets as [| u gets [IH1 IH2]]; [done |]. by split; [constructor |]. Qed.

(** The events of one scene: traffic with the render server only, with at
    most one connection attempt. *)
Lemma generate_trace E self prompt title w r w' :
  _generate_clip_for_scene E self prompt title w = (r, w') ->
  exists tr,
    trace w' = trace w ++ tr /\
    Forall (fun e => render_traffic e = true) tr /\
    length (connection_attempts tr) <= 1.
Proof.
  unfold _generate_clip_for_scene. intros H.
  apply bind_inv in H as [(v & w1 & H1 & H) | (e & H1 & ->)];
    apply instantiate_spec in H1 as (_ & Ht1 & _).
  2: { exists []. rewrite app_nil_r. repeat split; [done | | cbn; lia].
       constructor. }
  apply bind_inv in H as [(outputs & w2 & H2 & H) | (e & H2 & ->)];
    apply queue_trace in H2 as (rest & Ht2 & Hr2 & Hc2 & _).
  2: { eexists. rewrite Ht2, Ht1. split; [done |].
       split; [by constructor |].
       rewrite connection_attempts_connect, Hc2. cbn. lia. }
  apply bind_inv in H as [(ids & w3 & H3 & H) | (e & H3 & ->)];
    apply lift_inv in H3 as [_ ->].
  2: { eexists. rewrite Ht2, Ht1. split; [done |].
       split; [by constructor |].
       rewrite connection_attempts_connect, Hc2. cbn. lia. }
  apply fetch_video_trace in H as (gets & Ht3).
  destruct (gets_are_render_traffic gets) as [Hg1 Hg2].
  exists ((WsConnect (server_address self) (client_id self) :: rest)
          ++ (HttpGet <$> gets)).
  rewrite Ht3, Ht2, Ht1, <- app_assoc. split; [done |]. split.
  - apply Forall_app. split; [by constructor | done].
  - rewrite connection_attempts_app, Hg2, app_nil_r.
    rewrite connection_attempts_connect, Hc2. cbn. lia.
Qed.

Lemma collect_trace E self todo :
  forall clip_paths w,
    exists tr,
      trace (collect_clips E self todo clip_paths w).2 = trace w ++ tr /\
      Forall (fun e => render_traffic e = true) tr /\
      length (connection_attempts tr) <= length todo.
Proof.
  induction todo as [| scene rest IH]; intros clip_paths w.
  - exists []. cbn. rewrite app_nil_r. repeat split; [constructor | lia].
  - cbn [collect_clips]. unfold bind at 1.
    destruct (_generate_clip_for_scene E self (visual_prompt scene)
                "Prompt_Input_Node" w) as [r w1] eqn:Hgen.
    apply generate_trace in Hgen as (tr1 & Ht1 & Hr1 & Hc1).
    assert (forall next,
              exists tr,
                trace (collect_clips E self rest next w1).2 = trace w ++ tr /\
                Forall (fun e => render_traffic e = true) tr /\
                length (connection_attempts tr) <= length (scene :: rest))
      as Hnext.
    { intros next. destruct (IH next w1) as (tr & Ht & Hr & Hc).
      exists (tr1 ++ tr). rewrite Ht, Ht1, <- app_assoc. split; [done |].
      split; [by apply Forall_app |].
      rewrite connection_attempts_app, length_app. cbn [length]. lia. }
    destruct r as [[p |] | e]; [apply Hnext | apply Hnext |].
    exists tr1. cbn [snd length]. repeat split; [done | done | lia].
Qed.

(** A run, event by event: the planner's request, then the traffic of the
    scenes, then at most one call of the stitcher. *)
Lemma create_trace E self chapter_text output_filename w :
  let run := create_chapter_video E self chapter_text output_filename w in
  let planned :=
    match (split_chapter_into_scenes E chapter_text w).1 with
    | Ok (Some data) => length (scenes data)
    | _ => 0
    end in
  exists tr stitched,
    trace run.2 =
      trace w ++ planner_request E chapter_text :: tr ++ stitched /\
    Forall (fun e => render_traffic e = true) tr /\
    length (connection_attempts tr) <= planned /\
    (stitched = [] \/ exists clip_paths, stitched = [Stitch clip_paths]).
Proof.
  cbn zeta. destruct (split_spec E chapter_text w) as (o & Hsplit & _).
  rewrite Hsplit. cbn [fst]. set (w1 := World _ _ _) in Hsplit.
  destruct o as [data |].
  2: { exists [], []. unfold create_chapter_video, bind. rewrite Hsplit.
       cbn. repeat split; [constructor | lia | by left]. }
  rewrite (create_unfold _ _ _ _ _ _ _ Hsplit). cbn zeta.
  destruct (collect_trace E self (scenes data) [] w1) as (tr & Ht & Hr & Hc).
  set (loop := collect_clips E self (scenes data) [] w1) in *.
  assert (trace loop.2 = trace w ++ planner_request E chapter_text :: tr)
    as Hloop.
  { rewrite Ht. subst w1. cbn [trace]. by rewrite <- app_assoc. }
  destruct loop.1 as [[| p ps] | e].
  - exists tr, []. rewrite app_nil_r. repeat split; [done.. | by left].
  - pose proof (stitch_trace E (p :: ps) output_filename loop.2) as Hst.
    exists tr, [Stitch (p :: ps)]. split.
    + destruct (_stitch_clips_into_video _ _ _ _).1; cbn [snd];
        by rewrite Hst, Hloop, <- app_assoc.
    + repeat split; [done.. |]. right. by eexists.
  - exists tr, []. rewrite app_nil_r. repeat split; [done.. | by left].
Qed.

(** X5. Every job opens one connection, before anything else; when the
    server refuses it, the call raises the connection error and nothing is
    sent. *)
Theorem one_connection_per_job E self v w :
  let run := _queue_comfyui_prompt E self v w in
  let attempt := WsConnect (server_address self) (client_id self) in
  exists rest,
    trace run.2 = trace w ++ attempt :: rest /\
    connection_attempts rest = [] /\
    (ws_accepts E (trace w ++ [attempt]) = false ->
     run.1 = Raise ConnectionError /\ rest = []).
Proof.
  cbn zeta. destruct (_queue_comfyui_prompt E self v w) as [r w'] eqn:Hrun.
  apply queue_trace in Hrun as (rest & Ht & _ & Hc & Hrefused).
  by exists rest.
Qed.

Lemma one_connection_per_job_witness :
  (_queue_comfyui_prompt Scenario.first_connection_refused Scenario.generator
     VNone Scenario.start).1 = Raise ConnectionError.
Proof.
  destruct (one_connection_per_job Scenario.first_connection_refused
              Scenario.generator VNone Scenario.start)
    as (rest & _ & _ & Hrefused).
  apply Hrefused. reflexivity.
Defined.

(** X6. In a run the language model is asked once, before any traffic with
    the render server, and never again. *)
Theorem planner_asked_once_and_first E self chapter_text output_filename w :
  let run := create_chapter_video E self chapter_text output_filename w in
  exists after,
    trace run.2 = trace w ++ planner_request E chapter_text :: after /\
    planner_requests after = [].
Proof.
  cbn zeta.
  destruct (create_trace E self chapter_text output_filename w)
    as (tr & stitched & Ht & Hr & _ & Hst).
  exists (tr ++ stitched). split; [done |].
  rewrite planner_requests_app.
  destruct (render_traffic_quiet tr Hr) as [-> _].
  by destruct Hst as [-> | [clip_paths ->]].
Qed.

(** X7. No scene is tried twice: a run makes at most as many connection
    attempts as the planner returned scenes. *)
Theorem no_scene_is_retried E self chapter_text output_filename w data :
  (split_chapter_into_scenes E chapter_text w).1 = Ok (Some data) ->
  let run := create_chapter_video E self chapter_text output_filename w in
  exists tr,
    trace run.2 = trace w ++ tr /\
    length (connection_attempts tr) <= length (scenes data).
Proof.
  intros Hdata. cbn zeta.
  destruct (create_trace E self chapter_text output_filename w)
    as (tr & stitched & Ht & _ & Hc & Hst).
  cbn zeta in Hc. rewrite Hdata in Hc.
  exists (planner_request E chapter_text :: tr ++ stitched).
  split; [done |].
  change (planner_request E chapter_text :: tr ++ stitched)
    with ([planner_request E chapter_text] ++ tr ++ stitched).
  rewrite !connection_attempts_app.
  destruct Hst as [-> | [clip_paths ->]]; cbn; rewrite app_nil_r; lia.
Qed.

Lemma no_scene_is_retried_witness :
  let run := create_chapter_video Scenario.first_connection_refused
               Scenario.generator "chapter" "out" Scenario.start in
  exists tr,
    trace run.2 = trace Scenario.start ++ tr /\
    length (connection_attempts tr) <= 3.
Proof.
  apply (no_scene_is_retried Scenario.first_connection_refused
           Scenario.generator "chapter" "out" Scenario.start
           Scenario.three_scenes).
  reflexivity.
Defined.

(** ** The working copy, case by case *)

Lemma dict_get_set_ne {A} k k' (v : A) d :
  k <> k' -> dict_get k' (dict_set k v d) = dict_get k' d.
Proof.
  intros Hne. induction d as [| [k0 v0] d IH]; simpl.
  - by rewrite decide_False.
  - destruct (decide (k = k0)) as [-> | Hne0]; simpl.
    + by rewrite !decide_False.
    + destruct (decide (k' = k0)); auto.
Qed.

Lemma dict_set_keys {A} k (v v' : A) d :
  dict_get k d = Some v' -> (dict_set k v d).*1 = d.*1.
Proof.
  induction d as [| [k0 v0] d IH]; [done |]. cbn.
  destruct (decide (k = k0)) as [-> | Hne]; [done |].
  intros Hget. cbn. by rewrite IH.
Qed.

Lemma dict_get_first {A} k (v : A) before after :
  k ∉ before.*1 -> dict_get k (before ++ (k, v) :: after) = Some v.
Proof.
  induction before as [| [k0 v0] before IH]; cbn.
  - intros _. by rewrite decide_True.
  - rewrite not_elem_of_cons. intros [Hne Hnot].
    rewrite decide_False by done. by apply IH.
Qed.

(** Line 96 stops at the first node with the title. *)
Lemma find_title_first title before nid n after :
  Forall (fun kv => node_shaped kv.2 = true /\ titled title kv.2 = false)
    before ->
  node_shaped n = true -> titled title n = true ->
  find_title (before ++ (nid, n) :: after) title = Ok (Some nid).
Proof.
  intros Hbefore Hs Ht.
  induction Hbefore as [| [k m] before [Hsk Htk] _ IH]; cbn in *.
  - by rewrite Hs, Ht.
  - by rewrite Hsk, Htk.
Qed.

(** X8. A node whose id is the empty text is not accepted as the input
    node: when the first node with the title has the empty id, the call
    raises the error of a missing node, with no event. *)
Theorem empty_node_id_counts_as_missing E self scene_prompt title w
  before n after :
  copied_document (heap w) (base_workflow self) =
    Some (JDict (before ++ ("", n) :: after)) ->
  Forall (fun kv => node_shaped kv.2 = true /\ titled title kv.2 = false)
    before ->
  node_shaped n = true -> titled title n = true ->
  let run := _generate_clip_for_scene E self scene_prompt title w in
  run.1 = Raise (missing_node title) /\
  trace run.2 = trace w /\ files run.2 = files w.
Proof.
  intros Hdoc Hbefore Hs Ht run.
  destruct run as [r w'] eqn:Hrun. subst run.
  apply generate_spec in Hrun as (_ & tr & Htr & _ & Hcase).
  rewrite Hdoc in Hcase. unfold with_prompt in Hcase.
  rewrite (find_title_first _ _ _ _ _ Hbefore Hs Ht) in Hcase.
  destruct Hcase as (-> & -> & Hf). rewrite app_nil_r in Htr. by cbn.
Qed.

(** X9. When the input node has no [inputs], or [inputs] that is not a
    mapping, the call raises [KeyError] or [TypeError] before any
    connection is opened: no event, no file. *)
Theorem input_node_without_inputs E self scene_prompt title w
  before nid entries after :
  copied_document (heap w) (base_workflow self) =
    Some (JDict (before ++ (nid, JDict entries) :: after)) ->
  Forall (fun kv => node_shaped kv.2 = true /\ titled title kv.2 = false)
    before ->
  node_shaped (JDict entries) = true -> titled title (JDict entries) = true ->
  nid <> "" -> nid ∉ before.*1 ->
  (forall inputs, dict_get "inputs" entries <> Some (JDict inputs)) ->
  let run := _generate_clip_for_scene E self scene_prompt title w in
  run.1 = Raise (match dict_get "inputs" entries with
                 | Some _ => TypeError
                 | None => KeyError (JStr "inputs")
                 end) /\
  trace run.2 = trace w /\ files run.2 = files w.
Proof.
  intros Hdoc Hbefore Hs Ht Hnid Hfresh Hinputs run.
  destruct run as [r w'] eqn:Hrun. subst run.
  apply generate_spec in Hrun as (_ & tr & Htr & _ & Hcase).
  rewrite Hdoc in Hcase. unfold with_prompt in Hcase.
  rewrite (find_title_first _ _ _ _ _ Hbefore Hs Ht) in Hcase.
  destruct nid as [| c nid']; [done |].
  rewrite (dict_get_first _ _ _ _ Hfresh) in Hcase.
  destruct (dict_get "inputs" entries) as [[| | | | | | inputs] |];
    try (destruct Hcase as (-> & -> & Hf); rewrite app_nil_r in Htr;
         by cbn).
  by destruct (Hinputs inputs).
Qed.

Lemma input_node_without_inputs_witness :
  let run :=
    _generate_clip_for_scene Scenario.healthy Cases.generator_without_inputs
      "dawn" "Prompt_Input_Node" Cases.start_without_inputs in
  run.1 = Raise (KeyError (JStr "inputs")) /\
  trace run.2 = trace Cases.start_without_inputs /\
  files run.2 = files Cases.start_without_inputs.
Proof.
  apply (input_node_without_inputs Scenario.healthy
           Cases.generator_without_inputs "dawn" "Prompt_Input_Node"
           Cases.start_without_inputs
           [("3", JDict [("inputs", JDict [("seed", JNum 7)]);
                         ("_meta", JDict [("title", JStr "Sampler")])])]
           "6" [("_meta", JDict [("title", JStr "Prompt_Input_Node")])] []).
  - reflexivity.
  - repeat constructor.
  - reflexivity.
  - reflexivity.
  - discriminate.
  - cbn. by intros Hin%list_elem_of_singleton.
  - discriminate.
Defined.

Lemma empty_node_id_counts_as_missing_witness :
  let run :=
    _generate_clip_for_scene Scenario.healthy Cases.generator_empty_id
      "dawn" "Prompt_Input_Node" Cases.start_empty_id in
  run.1 = Raise (missing_node "Prompt_Input_Node") /\
  trace run.2 = trace Cases.start_empty_id /\
  files run.2 = files Cases.start_empty_id.
Proof.
  apply (empty_node_id_counts_as_missing Scenario.healthy
           Cases.generator_empty_id "dawn" "Prompt_Input_Node"
           Cases.start_empty_id
           [("3", JDict [("inputs", JDict [("seed", JNum 7)]);
                         ("_meta", JDict [("title", JStr "Sampler")])])]
           (JDict [("inputs", JDict [("text", JStr "")]);
                   ("_meta", JDict [("title", JStr "Prompt_Input_Node")])])
           []).
  - reflexivity.
  - repeat constructor.
  - reflexivity.
  - reflexivity.
Defined.

(** What [with_prompt] changes in a template: the text input of one node. *)
Lemma with_prompt_shape nodes title prompt workflow :
  with_prompt (JDict nodes) title prompt = Ok workflow ->
  exists nid nodes' entries entries' inputs inputs',
    workflow = JDict nodes' /\
    find_title nodes title = Ok (Some nid) /\
    nodes'.*1 = nodes.*1 /\
    (forall k, k <> nid -> dict_get k nodes' = dict_get k nodes) /\
    dict_get nid nodes = Some (JDict entries) /\
    dict_get nid nodes' = Some (JDict entries') /\
    entries'.*1 = entries.*1 /\
    (forall k, k <> "inputs" -> dict_get k entries' = dict_get k entries) /\
    dict_get "inputs" entries = Some (JDict inputs) /\
    dict_get "inputs" entries' = Some (JDict inputs') /\
    (forall k, k <> "text" -> dict_get k inputs' = dict_get k inputs) /\
    dict_get "text" inputs' = Some (JStr prompt).
Proof.
  unfold with_prompt.
  destruct (find_title nodes title) as [[nid |] | e] eqn:Hfind; try done.
  destruct nid as [| c nid']; [done |]. set (nid := String c nid') in *.
  destruct (dict_get nid nodes) as [[| | | | | | entries] |] eqn:Hnode;
    try done.
  destruct (dict_get "inputs" entries) as [[| | | | | | inputs] |] eqn:Hin;
    try done.
  intros [= <-].
  eexists nid, _, entries, _, inputs, _.
  split; [done |]. split; [done |].
  split; [by eapply dict_set_keys |].
  split; [intros k Hk; by apply dict_get_set_ne |].
  split; [done |]. split; [apply dict_get_set_eq |].
  split; [by eapply dict_set_keys |].
  split; [intros k Hk; by apply dict_get_set_ne |].
  split; [done |]. split; [apply dict_get_set_eq |].
  split; [intros k Hk; by apply dict_get_set_ne |].
  apply dict_get_set_eq.
Qed.

(** X10. The job sent for a scene is the template with one thing changed:
    the nodes keep their ids and their order, every node but the input
    node is as in the template, the input node keeps every entry but
    [inputs], its inputs keep every entry but [text], and [text] is the
    prompt of the scene. *)
Theorem sent_job_differs_in_text_only E self scene_prompt title w nodes job :
  copied_document (heap w) (base_workflow self) = Some (JDict nodes) ->
  let run := _generate_clip_for_scene E self scene_prompt title w in
  job ∈ sent_jobs (trace run.2) ->
  job ∈ sent_jobs (trace w) \/
  exists nid nodes' entries entries' inputs inputs',
    job = job_message (client_id self) (JDict nodes') /\
    find_title nodes title = Ok (Some nid) /\
    nodes'.*1 = nodes.*1 /\
    (forall k, k <> nid -> dict_get k nodes' = dict_get k nodes) /\
    dict_get nid nodes = Some (JDict entries) /\
    dict_get nid nodes' = Some (JDict entries') /\
    entries'.*1 = entries.*1 /\
    (forall k, k <> "inputs" -> dict_get k entries' = dict_get k entries) /\
    dict_get "inputs" entries = Some (JDict inputs) /\
    dict_get "inputs" entries' = Some (JDict inputs') /\
    (forall k, k <> "text" -> dict_get k inputs' = dict_get k inputs) /\
    dict_get "text" inputs' = Some (JStr scene_prompt).
Proof.
  intros Hdoc run. destruct run as [r w'] eqn:Hrun. subst run.
  apply generate_spec in Hrun as (_ & tr & Htr & _ & Hcase).
  cbn [snd]. rewrite Htr, sent_jobs_app, elem_of_app.
  intros [Hold | Hnew]; [by left | right].
  rewrite Hdoc in Hcase.
  destruct (with_prompt (JDict nodes) title scene_prompt)
    as [workflow | e] eqn:Hwp.
  2: { destruct Hcase as (-> & _). by apply elem_of_nil in Hnew. }
  destruct Hcase as [[Hnone _] | Hsent];
    [rewrite Hnone in Hnew; by apply elem_of_nil in Hnew |].
  rewrite Hsent in Hnew. apply list_elem_of_singleton in Hnew as ->.
  apply with_prompt_shape in Hwp
    as (nid & nodes' & entries & entries' & inputs & inputs' & -> & Hrest).
  by exists nid, nodes', entries, entries', inputs, inputs'.
Qed.

Lemma sent_job_differs_in_text_only_witness :
  exists nid nodes' entries entries' inputs inputs',
    job_message "client-1"
      (JDict [Cases.sampler;
              ("6", JDict [("inputs", JDict [("text", JStr "dawn")]);
                           ("_meta",
                            JDict [("title", JStr "Prompt_Input_Node")])])])
    = job_message (client_id Scenario.generator) (JDict nodes') /\
    find_title [Cases.sampler;
                ("6", JDict [("inputs", JDict [("text", JStr "")]);
                             ("_meta",
                              JDict [("title", JStr "Prompt_Input_Node")])])]
      "Prompt_Input_Node" = Ok (Some nid) /\
    nodes'.*1 = ["3"; "6"] /\
    dict_get "text" inputs' = Some (JStr "dawn") /\
    dict_get nid nodes' = Some (JDict entries') /\
    dict_get "inputs" entries' = Some (JDict inputs') /\
    dict_get nid [Cases.sampler;
                  ("6", JDict [("inputs", JDict [("text", JStr "")]);
                               ("_meta",
                                JDict [("title",
                                        JStr "Prompt_Input_Node")])])]
      = Some (JDict entries) /\
    dict_get "inputs" entries = Some (JDict inputs).
Proof.
  destruct (sent_job_differs_in_text_only Scenario.healthy Scenario.generator
              "dawn" "Prompt_Input_Node" Scenario.start
              [Cases.sampler;
               ("6", JDict [("inputs", JDict [("text", JStr "")]);
                            ("_meta",
                             JDict [("title", JStr "Prompt_Input_Node")])])]
              (job_message "client-1"
                 (JDict [Cases.sampler;
                         ("6", JDict [("inputs", JDict [("text", JStr "dawn")]);
                                      ("_meta",
                                       JDict [("title",
                                               JStr "Prompt_Input_Node")])])])))
    as [Hold | (nid & nodes' & entries & entries' & inputs & inputs' &
                Hjob & Hfind & Hkeys & _ & Hn & Hn' & _ & _ & Hi & Hi' & _ &
                Htext)].
  - reflexivity.
  - vm_compute. constructor.
  - by apply elem_of_nil in Hold.
  - by exists nid, nodes', entries, entries', inputs, inputs'.
Defined.

(** ** The deep copy *)

Lemma alloc_items_fresh js :
  Forall built_fresh js ->
  forall h vs h',
    alloc_items alloc js h = (vs, h') ->
    forall g,
      agrees g h' (length h) (length h') ->
      forall v l, v ∈ vs -> reaches g v l -> length h <= l < length h'.
Proof.
  induction 1 as [| j js Hj Hjs IH]; intros h vs h' Heq g Hg v0 l Hin Hl.
  - rewrite alloc_items_nil in Heq. simplify_eq. by apply elem_of_nil in Hin.
  - rewrite alloc_items_cons in Heq.
    destruct (alloc j h) as [v h1] eqn:Hv.
    destruct (alloc_items alloc js h1) as [vs' h2] eqn:Hvs.
    injection Heq as <- <-.
    destruct (alloc_built _ _ _ _ Hv) as [Hp1 _].
    destruct (alloc_items_built js (all_built js) _ _ _ Hvs) as [Hp2 _].
    pose proof (prefix_length _ _ Hp1). pose proof (prefix_length _ _ Hp2).
    apply elem_of_cons in Hin as [-> | Hin].
    + assert (length h <= l < length h1); [| lia].
      apply (Hj _ _ _ Hv g); [| done]. eapply agrees_prefix; eauto.
    + assert (length h1 <= l < length h2); [| lia].
      apply (IH _ _ _ Hvs g) with v0; [| done | done].
      eapply agrees_prefix; eauto; lia.
Qed.

Lemma alloc_members_fresh kvs :
  Forall (fun kv => built_fresh kv.2) kvs ->
  forall h vs h',
    alloc_members alloc kvs h = (vs, h') ->
    forall g,
      agrees g h' (length h) (length h') ->
      forall k v l, (k, v) ∈ vs -> reaches g v l -> length h <= l < length h'.
Proof.
  induction 1 as [| [k j] kvs Hj Hjs IH];
    intros h vs h' Heq g Hg k0 v0 l Hin Hl.
  - rewrite alloc_members_nil in Heq. simplify_eq.
    by apply elem_of_nil in Hin.
  - rewrite alloc_members_cons in Heq. simpl in Heq, Hj.
    destruct (alloc j h) as [v h1] eqn:Hv.
    destruct (alloc_members alloc kvs h1) as [vs' h2] eqn:Hvs.
    injection Heq as <- <-.
    destruct (alloc_built _ _ _ _ Hv) as [Hp1 _].
    destruct (alloc_members_built kvs (all_members_built kvs) _ _ _ Hvs)
      as [Hp2 _].
    pose proof (prefix_length _ _ Hp1). pose proof (prefix_length _ _ Hp2).
    apply elem_of_cons in Hin as [[= -> ->] | Hin].
    + assert (length h <= l < length h1); [| lia].
      apply (Hj _ _ _ Hv g); [| done]. eapply agrees_prefix; eauto.
    + assert (length h1 <= l < length h2); [| lia].
      apply (IH _ _ _ Hvs g) with k0 v0; [| done | done].
      eapply agrees_prefix; eauto; lia.
Qed.

(** Every document is built of new objects only. *)
Lemma alloc_fresh j : built_fresh j.
Proof.
  induction j as [| b | n | x | s | js IH | kvs IH] using json_ind';
    intros h v h' Heq g Hg l Hl.
  1-5: simpl in Heq; simplify_eq; inversion Hl.
  - rewrite alloc_JList in Heq.
    destruct (alloc_items alloc js h) as [vs h1] eqn:Hvs.
    injection Heq as <- <-.
    destruct (alloc_items_built js (all_built js) _ _ _ Hvs) as [Hp _].
    pose proof (prefix_length _ _ Hp).
    rewrite length_app in Hg |- *. cbn [length] in Hg |- *.
    assert (g !! length h1 = Some (OList vs)) as Hroot.
    { rewrite Hg by lia. by apply list_lookup_middle. }
    inversion Hl as [| ? kvs k v l' Hat Hin Hv | ? vs0 v l' Hat Hin Hv];
      subst; [lia | congruence |].
    rewrite Hroot in Hat. injection Hat as <-.
    assert (length h <= l < length h1); [| lia].
    apply (alloc_items_fresh js IH _ _ _ Hvs g) with v; [| done | done].
    eapply agrees_prefix; eauto using prefix_app_r; lia.
  - rewrite alloc_JDict in Heq.
    destruct (alloc_members alloc kvs h) as [vs h1] eqn:Hvs.
    injection Heq as <- <-.
    destruct (alloc_members_built kvs (all_members_built kvs) _ _ _ Hvs)
      as [Hp _].
    pose proof (prefix_length _ _ Hp).
    rewrite length_app in Hg |- *. cbn [length] in Hg |- *.
    assert (g !! length h1 = Some (ODict vs)) as Hroot.
    { rewrite Hg by lia. by apply list_lookup_middle. }
    inversion Hl as [| ? kvs0 k v l' Hat Hin Hv | ? vs0 v l' Hat Hin Hv];
      subst; [lia | | congruence].
    rewrite Hroot in Hat. injection Hat as <-.
    assert (length h <= l < length h1); [| lia].
    apply (alloc_members_fresh kvs IH _ _ _ Hvs g) with k v; [| done | done].
    eapply agrees_prefix; eauto using prefix_app_r; lia.
Qed.

(** X11. [json.loads(json.dumps(v))] is a copy: it reads as [v] does (for
    dictionaries with distinct keys, exactly so); every object that it
    leads to, at any depth, is an object that did not exist before; and
    [v] and every object that existed are left as they were. *)
Theorem deep_copy_is_a_copy v w j :
  json_dumps (heap w) v = Some j ->
  let run := deep_copy v w in
  exists copy,
    run.1 = Ok copy /\
    files run.2 = files w /\ trace run.2 = trace w /\
    heap w `prefix_of` heap run.2 /\
    json_dumps (heap run.2) v = Some j /\
    json_dumps (heap run.2) copy = Some (normalize j) /\
    (unique_keys j = true -> json_dumps (heap run.2) copy = Some j) /\
    (forall l, reaches (heap run.2) copy l ->
               length (heap w) <= l < length (heap run.2)).
Proof.
  intros Hj. cbn zeta. unfold deep_copy, bind, py_json_dumps, py_json_loads.
  rewrite Hj. unfold json_loads.
  destruct (alloc (normalize j) (heap w)) as [copy h'] eqn:Ha.
  destruct (alloc_built _ _ _ _ Ha) as [Hp Hread].
  exists copy. cbn [fst snd heap files trace].
  assert (json_dumps h' copy = Some (normalize j)) as Hcopy
    by (apply Hread; [done | lia]).
  split_and!; try done.
  - by eapply json_dumps_preserved.
  - intros Hu. by rewrite <- (normalize_unique j Hu) at 1.
  - intros l. by apply (alloc_fresh _ _ _ _ Ha).
Qed.

Lemma deep_copy_is_a_copy_witness :
  let run := deep_copy (base_workflow Scenario.generator) Scenario.start in
  exists copy,
    run.1 = Ok copy /\
    files run.2 = files Scenario.start /\ trace run.2 = trace Scenario.start /\
    heap Scenario.start `prefix_of` heap run.2 /\
    json_dumps (heap run.2) (base_workflow Scenario.generator) =
      Some Scenario.template /\
    json_dumps (heap run.2) copy = Some (normalize Scenario.template) /\
    (unique_keys Scenario.template = true ->
     json_dumps (heap run.2) copy = Some Scenario.template) /\
    (forall l, reaches (heap run.2) copy l ->
               length (heap Scenario.start) <= l < length (heap run.2)).
Proof.
  apply (deep_copy_is_a_copy (base_workflow Scenario.generator)
           Scenario.start Scenario.template).
  reflexivity.
Defined.

(** ** Downloads *)

Lemma fetch_video_passes E self outputs node_id rest w :
  entry_passed_over outputs node_id = true ->
  fetch_video E self outputs (node_id :: rest) w =
  fetch_video E self outputs rest w.
Proof.
  unfold entry_passed_over. cbn [fetch_video]. unfold bind, lift.
  destruct (json_getitem outputs node_id) as [output | e]; [| done].
  destruct (json_contains "videos" output) as [[|] | e]; done.
Qed.

Lemma fetch_video_passes_all E self outputs before rest w :
  forallb (entry_passed_over outputs) before = true ->
  fetch_video E self outputs (before ++ rest) w =
  fetch_video E self outputs rest w.
Proof.
  induction before as [| id before IH]; [done |]. cbn [forallb app].
  rewrite andb_true_iff. intros [Hid Hrest].
  rewrite fetch_video_passes by done. by apply IH.
Qed.

(** What the loop over the manifest does to the files. *)
Lemma fetch_video_files E self outputs node_ids :
  forall w r w',
    fetch_video E self outputs node_ids w = (r, w') ->
    match r with
    | Ok (Some clip_path) =>
        exists history body,
          http_get E history = Ok (200%Z, body) /\
          files w' = <[clip_path := body]> (files w)
    | _ => files w' = files w
    end.
Proof.
  induction node_ids as [| node_id rest IH]; intros w r w' H; simpl in H.
  - by injection H as <- <-.
  - apply bind_inv in H as [(output & w1 & H1 & H) | (e & H1 & ->)];
      apply lift_inv in H1 as [_ ->]; [| done].
    apply bind_inv in H as [(has & w1 & H1 & H) | (e & H1 & ->)];
      apply lift_inv in H1 as [_ ->]; [| done].
    destruct has; [| by apply IH in H].
    apply bind_inv in H as [(videos & w1 & H1 & H) | (e & H1 & ->)];
      apply lift_inv in H1 as [_ ->]; [| done].
    apply bind_inv in H as [(video_data & w1 & H1 & H) | (e & H1 & ->)];
      apply lift_inv in H1 as [_ ->]; [| done].
    apply bind_inv in H as [(subfolder & w1 & H1 & H) | (e & H1 & ->)];
      apply lift_inv in H1 as [_ ->]; [| done].
    apply bind_inv in H as [(filename & w1 & H1 & H) | (e & H1 & ->)];
      apply lift_inv in H1 as [_ ->]; [| done].
    apply bind_inv in H as [(u & w1 & H1 & H) | (e & H1 & ->)];
      unfold log in H1; simplify_eq.
    apply bind_inv in H as [(response & w1 & H1 & H) | (e & H1 & ->)];
      unfold ask_res in H1; cbn [trace] in H1.
    2: { by injection H1 as _ <-. }
    injection H1 as Hresponse <-.
    destruct (decide (response.1 = 200%Z)) as [Hstatus | Hstatus].
    2: { by apply IH in H. }
    apply save_clip_inv in H as (_ & _ & Hsaved).
    destruct r as [[clip_path |] | e]; [| done..].
    destruct Hsaved as (_ & _ & _ & Hf).
    destruct response as [status body]. cbn in Hstatus. subst status.
    by eexists _, body.
Qed.

Lemma generate_files E self scene_prompt title w :
  let run := _generate_clip_for_scene E self scene_prompt title w in
  match run.1 with
  | Ok (Some clip_path) =>
      exists history body,
        http_get E history = Ok (200%Z, body) /\
        files run.2 = <[clip_path := body]> (files w)
  | _ => files run.2 = files w
  end.
Proof.
  cbn zeta.
  destruct (_generate_clip_for_scene E self scene_prompt title w)
    as [r w'] eqn:Hrun.
  unfold _generate_clip_for_scene in Hrun. cbn [fst snd].
  apply bind_inv in Hrun as [(v & w1 & H1 & H) | (e & H1 & ->)];
    apply instantiate_spec in H1 as (Hf1 & _); [| done].
  apply bind_inv in H as [(outputs & w2 & H2 & H) | (e & H2 & ->)];
    apply queue_spec in H2 as (Hf2 & _); [| by rewrite Hf2].
  apply bind_inv in H as [(ids & w3 & H3 & H) | (e & H3 & ->)];
    apply lift_inv in H3 as [_ ->]; [| by rewrite Hf2].
  apply fetch_video_files in H. rewrite Hf2, Hf1 in H.
  by destruct r as [[p |] | e].
Qed.

(** X12. Rendering a scene writes the scratch directory only on a
    successful download: the call either leaves the files as they were, or
    returns a clip path and has written there, and nowhere else, the body
    of an answer with status 200. *)
Theorem clip_file_holds_the_download E self scene_prompt title w :
  let run := _generate_clip_for_scene E self scene_prompt title w in
  match run.1 with
  | Ok (Some clip_path) =>
      exists history body,
        http_get E history = Ok (200%Z, body) /\
        files run.2 = <[clip_path := body]> (files w)
  | _ => files run.2 = files w
  end.
Proof. apply generate_files. Qed.

(** X13. When no entry of the output manifest holds videos, the loop
    returns [None] and makes no request: the world is as it was. *)
Theorem manifest_without_videos E self outputs node_ids w :
  forallb (entry_passed_over outputs) node_ids = true ->
  fetch_video E self outputs node_ids w = (Ok None, w).
Proof.
  intros Hall.
  rewrite <- (app_nil_r node_ids), fetch_video_passes_all by done. done.
Qed.

Lemma manifest_without_videos_witness :
  fetch_video Scenario.healthy Scenario.generator
    (JDict [("9", JDict [("images", JList [])]); ("12", JDict [])])
    [JStr "9"; JStr "12"] Scenario.start =
  (Ok None, Scenario.start).
Proof.
  apply (manifest_without_videos Scenario.healthy Scenario.generator
           (JDict [("9", JDict [("images", JList [])]); ("12", JDict [])])
           [JStr "9"; JStr "12"] Scenario.start).
  reflexivity.
Defined.

(** X14. An entry whose [videos] is the empty list stops the loop with
    [IndexError], before any request. *)
Theorem empty_videos_list E self outputs before node_id output rest w :
  forallb (entry_passed_over outputs) before = true ->
  json_getitem outputs node_id = Ok output ->
  json_contains "videos" output = Ok true ->
  json_getitem output (JStr "videos") = Ok (JList []) ->
  fetch_video E self outputs (before ++ node_id :: rest) w =
  (Raise IndexError, w).
Proof.
  intros Hbefore Hout Hhas Hvideos.
  rewrite fetch_video_passes_all by done.
  cbn [fetch_video]. unfold bind, lift. by rewrite Hout, Hhas, Hvideos.
Qed.

Lemma empty_videos_list_witness :
  fetch_video Scenario.healthy Scenario.generator
    (JDict [("9", JDict []); ("12", JDict [("videos", JList [])])])
    ([JStr "9"] ++ JStr "12" :: []) Scenario.start =
  (Raise IndexError, Scenario.start).
Proof.
  apply (empty_videos_list Scenario.healthy Scenario.generator
           (JDict [("9", JDict []); ("12", JDict [("videos", JList [])])])
           [JStr "9"] (JStr "12") (JDict [("videos", JList [])]) []
           Scenario.start);
    reflexivity.
Defined.

(** X15. A video of the manifest that names no file stops the loop with
    [KeyError], before any request: the URL cannot be written. *)
Theorem video_without_filename E self outputs before node_id output
  video more rest w :
  forallb (entry_passed_over outputs) before = true ->
  json_getitem outputs node_id = Ok output ->
  json_contains "videos" output = Ok true ->
  json_getitem output (JStr "videos") = Ok (JList (JDict video :: more)) ->
  dict_get "filename" video = None ->
  fetch_video E self outputs (before ++ node_id :: rest) w =
  (Raise (KeyError (JStr "filename")), w).
Proof.
  intros Hbefore Hout Hhas Hvideos Hname.
  rewrite fetch_video_passes_all by done.
  cbn [fetch_video]. unfold bind, lift. rewrite Hout, Hhas, Hvideos.
  change (json_getitem (JList (JDict video :: more)) (JNum 0))
    with (Ok (A := json) (JDict video)).
  cbn [json_get json_getitem]. by rewrite Hname.
Qed.

Lemma video_without_filename_witness :
  fetch_video Scenario.healthy Scenario.generator
    (JDict [("12", JDict [("videos",
                           JList [JDict [("subfolder", JStr "")]])])])
    ([] ++ JStr "12" :: []) Scenario.start =
  (Raise (KeyError (JStr "filename")), Scenario.start).
Proof.
  apply (video_without_filename Scenario.healthy Scenario.generator
           (JDict [("12", JDict [("videos",
                                  JList [JDict [("subfolder", JStr "")]])])])
           [] (JStr "12")
           (JDict [("videos", JList [JDict [("subfolder", JStr "")]])])
           [("subfolder", JStr "")] [] [] Scenario.start);
    reflexivity.
Defined.

(** X23. The loop over the scenes removes no file: whatever was on disk
    when it started is still there when it ends or raises, the clips of
    the scenes rendered so far included. *)
Theorem scenes_remove_no_file E self todo :
  forall clip_paths w q,
    is_Some (files w !! q) ->
    is_Some (files (collect_clips E self todo clip_paths w).2 !! q).
Proof.
  induction todo as [| scene rest IH]; intros clip_paths w q Hq; [done |].
  cbn [collect_clips]. unfold bind.
  pose proof (generate_files E self (visual_prompt scene)
                "Prompt_Input_Node" w) as Hfiles.
  cbn zeta in Hfiles.
  destruct (_generate_clip_for_scene E self (visual_prompt scene)
              "Prompt_Input_Node" w) as [r w1].
  cbn [fst snd] in Hfiles.
  assert (is_Some (files w1 !! q)) as Hq1.
  { destruct r as [[p |] | e]; [| by rewrite Hfiles..].
    destruct Hfiles as (history & body & _ & ->).
    destruct (decide (p = q)) as [-> | Hne].
    - rewrite lookup_insert_eq. by eexists.
    - by rewrite lookup_insert_ne. }
  destruct r as [[p |] | e]; [by apply IH | by apply IH | done].
Qed.

Lemma scenes_remove_no_file_witness :
  is_Some
    (files (collect_clips Scenario.first_connection_refused
              Scenario.generator (scenes Scenario.three_scenes) []
              Scenario.two_clips).2 !! "temp_clips/a.mp4").
Proof.
  apply (scenes_remove_no_file Scenario.first_connection_refused
           Scenario.generator (scenes Scenario.three_scenes) []
           Scenario.two_clips "temp_clips/a.mp4").
  by eexists.
Defined.

(** ** The stitcher and the files *)

(** A cleanup that completes: the paths were distinct files, and they are
    what was removed. *)
Lemma unlink_all_ok clip_paths :
  forall w u w',
    unlink_all clip_paths w = (Ok u, w') ->
    NoDup clip_paths /\
    Forall (fun p => is_Some (files w !! p)) clip_paths /\
    forall q,
      files w' !! q =
      if decide (q ∈ clip_paths) then None else files w !! q.
Proof.
  induction clip_paths as [| p rest IH]; intros w u w' H; simpl in H.
  - injection H as _ <-. split; [constructor |]. split; [constructor |].
    intros q. rewrite decide_False; [done | apply not_elem_of_nil].
  - apply bind_inv in H as [(u1 & w1 & H1 & H) | (e & H1 & [=])].
    unfold unlink in H1.
    destruct (files w !! p) as [content |] eqn:Hp; simplify_eq.
    apply IH in H as (Hnd & Hpresent & Hfiles). cbn [files] in *.
    assert (p ∉ rest) as Hfresh.
    { intros Hin. rewrite Forall_forall in Hpresent.
      destruct (Hpresent p Hin) as [x Hx]. by rewrite lookup_delete_eq in Hx. }
    split; [by constructor |]. split.
    + constructor; [by rewrite Hp |].
      eapply Forall_impl; [exact Hpresent |]. intros q [x Hx].
      apply lookup_delete_Some in Hx as [_ Hx]. by eexists.
    + intros q. rewrite Hfiles.
      destruct (decide (q ∈ rest)) as [Hin | Hout].
      * rewrite decide_True; [done | by right].
      * destruct (decide (q = p)) as [-> | Hne].
        -- rewrite decide_True by left. apply lookup_delete_eq.
        -- rewrite decide_False.
           ++ by apply lookup_delete_ne.
           ++ rewrite elem_of_cons. intros [? | ?]; done.
Qed.

(** Paths as pathlib joins them: [.] and empty parts are dropped, [..] is
    kept, a name with a root replaces the directory, and the empty name is
    the directory itself. *)
Example pathlib_joins :
  path_join "final_videos" "./out.mp4" = "final_videos/out.mp4" /\
  path_join "final_videos" "a//b/../out.mp4" = "final_videos/a/b/../out.mp4" /\
  path_join "temp_clips" "/tmp/clip.mp4" = "/tmp/clip.mp4" /\
  path_join "temp_clips" "//host/clip.mp4" = "//host/clip.mp4" /\
  path_join "temp_clips" "///tmp/clip.mp4" = "/tmp/clip.mp4" /\
  path_join "temp_clips" "" = "temp_clips" /\
  path_join "temp_clips" "./" = "temp_clips".
Proof. vm_compute. done. Qed.

Lemma stitch_success E clip_paths output_filename w final w' :
  _stitch_clips_into_video E clip_paths output_filename w = (Ok final, w') ->
  final = final_video_path output_filename /\
  NoDup clip_paths /\
  exists written,
    encode E clip_paths output_filename w = Ok written /\
    forall q,
      files w' !! q =
      if decide (q ∈ clip_paths) then None
      else if decide (q = final) then
        match written with
        | Some content => Some content
        | None => files w !! q
        end
      else files w !! q.
Proof.
  rewrite stitch_spec. cbn zeta. fold (final_video_path output_filename).
  destruct (encode E clip_paths output_filename w) as [written | e];
    [| done].
  destruct (unlink_all clip_paths _) as [[u | e] w1] eqn:Hrm; [| done].
  intros [= <- <-].
  apply unlink_all_ok in Hrm as (Hnd & _ & Hfiles). cbn [files] in Hfiles.
  split; [done |]. split; [done |]. exists written. split; [done |].
  intros q. rewrite Hfiles.
  destruct (decide (q ∈ clip_paths)); [done |].
  destruct written as [content |].
  - destruct (decide (q = final_video_path output_filename)) as [-> | Hne].
    + apply lookup_insert_eq.
    + by apply lookup_insert_ne.
  - by destruct (decide (q = final_video_path output_filename)).
Qed.

(** X16. A stitch that completes returns the path that pathlib makes of
    [final_videos] and [<name>.mp4]. The clips are gone, no file other than
    the clips and the output has changed, and the output holds what the
    encoder wrote there: when the encoder returned without writing, the
    stitch returns the path all the same and the file is as it was, absent
    if it was absent. When the output path is itself one of the clips, the
    cleanup removes it. *)
Theorem stitch_leaves_the_video_only E clip_paths output_filename w final w' :
  _stitch_clips_into_video E clip_paths output_filename w = (Ok final, w') ->
  final = final_video_path output_filename /\
  exists written,
    encode E clip_paths output_filename w = Ok written /\
    forall q,
      files w' !! q =
      if decide (q ∈ clip_paths) then None
      else if decide (q = final) then
        match written with
        | Some content => Some content
        | None => files w !! q
        end
      else files w !! q.
Proof.
  intros Hrun. apply stitch_success in Hrun as (Hfinal & _ & Hfiles). done.
Qed.

Lemma stitch_leaves_the_video_only_witness :
  let run :=
    _stitch_clips_into_video Scenario.encoder_writes_nothing
      ["temp_clips/a.mp4"; "temp_clips/b.mp4"] "./out" Scenario.two_clips in
  run.1 = Ok "final_videos/out.mp4" /\
  exists written,
    encode Scenario.encoder_writes_nothing
      ["temp_clips/a.mp4"; "temp_clips/b.mp4"] "./out" Scenario.two_clips
      = Ok written /\
    forall q,
      files run.2 !! q =
      if decide (q ∈ ["temp_clips/a.mp4"; "temp_clips/b.mp4"]) then None
      else if decide (q = "final_videos/out.mp4") then
        match written with
        | Some content => Some content
        | None => files Scenario.two_clips !! q
        end
      else files Scenario.two_clips !! q.
Proof.
  intros run. split; [reflexivity |].
  apply (stitch_leaves_the_video_only Scenario.encoder_writes_nothing
           ["temp_clips/a.mp4"; "temp_clips/b.mp4"] "./out"
           Scenario.two_clips "final_videos/out.mp4" run.2).
  reflexivity.
Defined.

(** With an encoder that returns without writing, the stitcher returns the
    path of a video that does not exist, and the clips are lost. *)
Example stitched_video_is_missing :
  let run :=
    _stitch_clips_into_video Scenario.encoder_writes_nothing
      ["temp_clips/a.mp4"; "temp_clips/b.mp4"] "out" Scenario.two_clips in
  run.1 = Ok "final_videos/out.mp4" /\ files run.2 = ∅.
Proof. vm_compute. done. Qed.

(** X17. A clip list that names a path twice never stitches successfully:
    the second [unlink] of that path finds no file. *)
Theorem repeated_clip_never_stitches E clip_paths output_filename w final w' :
  _stitch_clips_into_video E clip_paths output_filename w = (Ok final, w') ->
  NoDup clip_paths.
Proof.
  intros Hrun. by apply stitch_success in Hrun as (_ & Hnd & _).
Qed.

Lemma repeated_clip_never_stitches_witness :
  NoDup ["temp_clips/a.mp4"; "temp_clips/b.mp4"].
Proof.
  apply (repeated_clip_never_stitches Scenario.healthy
           ["temp_clips/a.mp4"; "temp_clips/b.mp4"] "out"
           Scenario.two_clips "final_videos/out.mp4"
           (_stitch_clips_into_video Scenario.healthy
              ["temp_clips/a.mp4"; "temp_clips/b.mp4"] "out"
              Scenario.two_clips).2).
  reflexivity.
Defined.

(** ** Runs that succeed, and one that cannot *)

Lemma create_success E self chapter_text output_filename w final :
  (create_chapter_video E self chapter_text output_filename w).1
    = Ok (Some final) ->
  exists data,
    (split_chapter_into_scenes E chapter_text w).1 = Ok (Some data) /\
    let planned := (split_chapter_into_scenes E chapter_text w).2 in
    let outs := scene_outcomes E self (scenes data) planned in
    let run := create_chapter_video E self chapter_text output_filename w in
    final = final_video_path output_filename /\
    first_raise outs = None /\
    omap clip_of outs <> [] /\
    NoDup (omap clip_of outs) /\
    Forall (fun p => files run.2 !! p = None) (omap clip_of outs).
Proof.
  destruct (split_spec E chapter_text w) as (o & Hsplit & _).
  set (w1 := World _ _ _) in Hsplit.
  destruct o as [data |].
  2: { unfold create_chapter_video, bind. by rewrite Hsplit. }
  intros Hrun. exists data. rewrite Hsplit. cbn [fst snd]. split; [done |].
  cbn zeta. rewrite (create_unfold _ _ _ _ _ _ _ Hsplit) in Hrun |- *.
  cbn zeta in Hrun |- *.
  destruct (collect_spec E self (scenes data) [] w1) as (Hr & _).
  cbn zeta in Hr. cbn [app] in Hr. rewrite Hr in Hrun |- *.
  destruct (first_raise _) as [e |]; [done |].
  destruct (omap clip_of _) as [| p ps] eqn:Hclips; [done |].
  destruct (_stitch_clips_into_video E (p :: ps) output_filename _)
    as [[final' | e] w2] eqn:Hst; [| done].
  cbn [fst snd] in Hrun |- *. injection Hrun as ->.
  apply stitch_success in Hst as (Hfinal & Hnd & written & _ & Hfiles).
  split; [done |]. split; [done |]. split; [done |]. split; [done |].
  apply Forall_forall. intros q Hq. by rewrite Hfiles, decide_True.
Qed.

(** X18. A run returns a path only when no scene raised, at least one
    scene produced a clip and the clips have distinct paths; the path is
    the one that pathlib makes of [final_videos] and [<name>.mp4], and the
    clips are gone when the run returns. *)
Theorem run_returns_a_stitched_video E self chapter_text output_filename w
  data final :
  (split_chapter_into_scenes E chapter_text w).1 = Ok (Some data) ->
  let planned := (split_chapter_into_scenes E chapter_text w).2 in
  let outs := scene_outcomes E self (scenes data) planned in
  let run := create_chapter_video E self chapter_text output_filename w in
  run.1 = Ok (Some final) ->
  final = final_video_path output_filename /\
  first_raise outs = None /\
  omap clip_of outs <> [] /\
  NoDup (omap clip_of outs) /\
  Forall (fun p => files run.2 !! p = None) (omap clip_of outs).
Proof.
  intros Hdata planned outs run Hrun.
  apply create_success in Hrun as (data' & Hdata' & Hfacts).
  rewrite Hdata in Hdata'. by injection Hdata' as <-.
Qed.

Lemma run_returns_a_stitched_video_witness :
  let outs :=
    scene_outcomes Scenario.second_download_fails Scenario.generator
      (scenes Scenario.three_scenes)
      (split_chapter_into_scenes Scenario.second_download_fails "chapter"
         Scenario.start).2 in
  let run :=
    create_chapter_video Scenario.second_download_fails Scenario.generator
      "chapter" "out" Scenario.start in
  "final_videos/out.mp4" = final_video_path "out" /\
  first_raise outs = None /\
  omap clip_of outs <> [] /\
  NoDup (omap clip_of outs) /\
  Forall (fun p => files run.2 !! p = None) (omap clip_of outs).
Proof.
  apply (run_returns_a_stitched_video Scenario.second_download_fails
           Scenario.generator "chapter" "out" Scenario.start
           Scenario.three_scenes "final_videos/out.mp4");
    reflexivity.
Defined.

Lemma find_title_none title nodes :
  Forall (fun kv => node_shaped kv.2 = true /\ titled title kv.2 = false)
    nodes ->
  find_title nodes title = Ok None.
Proof.
  induction 1 as [| [nid n] nodes [Hs Ht] _ IH]; [done |].
  cbn in *. by rewrite Hs, Ht.
Qed.

(** X19. A workflow without the prompt node is found out only at the first
    scene: the language model has been asked, then the run raises the error
    of the missing node, and the render server was never contacted. *)
Theorem missing_node_stops_the_run E self chapter_text output_filename w
  nodes data :
  copied_document (heap w) (base_workflow self) = Some (JDict nodes) ->
  Forall (fun kv => node_shaped kv.2 = true /\
                    titled "Prompt_Input_Node" kv.2 = false) nodes ->
  (split_chapter_into_scenes E chapter_text w).1 = Ok (Some data) ->
  scenes data <> [] ->
  let run := create_chapter_video E self chapter_text output_filename w in
  run.1 = Raise (missing_node "Prompt_Input_Node") /\
  trace run.2 = trace w ++ [planner_request E chapter_text].
Proof.
  intros Hdoc Hnodes Hdata Hscenes. cbn zeta.
  destruct (split_spec E chapter_text w) as (o & Hsplit & _).
  rewrite Hsplit in Hdata. cbn [fst] in Hdata. injection Hdata as ->.
  set (w1 := World _ _ _) in Hsplit.
  rewrite (create_unfold _ _ _ _ _ _ _ Hsplit). cbn zeta.
  assert (exists w2,
            collect_clips E self (scenes data) [] w1 =
              (Raise (missing_node "Prompt_Input_Node"), w2) /\
            trace w2 = trace w1) as (w2 & -> & Ht).
  { destruct (scenes data) as [| scene rest]; [done |].
    cbn [collect_clips]. unfold bind.
    destruct (_generate_clip_for_scene E self (visual_prompt scene)
                "Prompt_Input_Node" w1) as [r w2] eqn:Hgen.
    apply generate_spec in Hgen as (_ & tr & Ht & _ & Hcase).
    change (heap w1) with (heap w) in Hcase. rewrite Hdoc in Hcase.
    unfold with_prompt in Hcase.
    rewrite (find_title_none _ _ Hnodes) in Hcase.
    destruct Hcase as (-> & -> & _). rewrite app_nil_r in Ht.
    by exists w2. }
  cbn [fst snd]. by rewrite Ht.
Qed.

Lemma missing_node_stops_the_run_witness :
  let run :=
    create_chapter_video Scenario.healthy Scenario.generator_without_input
      "chapter" "out" Scenario.start_without_input in
  run.1 = Raise (missing_node "Prompt_Input_Node") /\
  trace run.2 =
    trace Scenario.start_without_input ++
    [planner_request Scenario.healthy "chapter"].
Proof.
  apply (missing_node_stops_the_run Scenario.healthy
           Scenario.generator_without_input "chapter" "out"
           Scenario.start_without_input
           [("3", JDict [("inputs", JDict [("seed", JNum 7)]);
                         ("_meta", JDict [("title", JStr "Sampler")])]);
            ("6", JDict [("inputs", JDict [("text", JStr "")])])]
           Scenario.three_scenes).
  - reflexivity.
  - repeat constructor.
  - reflexivity.
  - discriminate.
Defined.

(** ** The constructor *)

Lemma new_spec json_decode api_key address uuid path w text workflow :
  files w !! path = Some text ->
  json_decode text = Ok workflow ->
  exists self w1,
    VideoGenerator_new json_decode api_key address uuid path w = (Ok self, w1) /\
    server_address self = address /\ client_id self = uuid /\
    files w1 = files w /\ trace w1 = trace w /\
    heap w `prefix_of` heap w1 /\
    json_dumps (heap w1) (base_workflow self) = Some (normalize workflow).
Proof.
  intros Hfile Hdecode. unfold VideoGenerator_new. rewrite Hfile, Hdecode.
  destruct (init_reads address uuid workflow w) as [Hp Hread].
  cbn zeta in Hp, Hread.
  destruct (VideoGenerator_init address uuid workflow w) as [self w1] eqn:Hinit.
  exists self, w1. unfold VideoGenerator_init, json_loads in Hinit.
  destruct (alloc (normalize workflow) (heap w)) as [v h]. simplify_eq.
  by cbn in *.
Qed.

(** X20. A generator built on a workflow file that exists and decodes
    holds a template that reads as the decoded file (with the keys of each
    mapping made distinct), talks to the given address under the given
    client id, and its construction changes no file, records no event and
    leaves every existing object alone. *)
Theorem constructor_loads_the_template json_decode api_key address uuid path
  w text workflow :
  files w !! path = Some text ->
  json_decode text = Ok workflow ->
  let run := VideoGenerator_new json_decode api_key address uuid path w in
  exists self,
    run.1 = Ok self /\
    server_address self = address /\ client_id self = uuid /\
    files run.2 = files w /\ trace run.2 = trace w /\
    heap w `prefix_of` heap run.2 /\
    json_dumps (heap run.2) (base_workflow self) = Some (normalize workflow).
Proof.
  intros Hfile Hdecode. cbn zeta.
  destruct (new_spec json_decode api_key address uuid path w text workflow
              Hfile Hdecode) as (self & w1 & -> & Hfacts).
  by exists self.
Qed.

Lemma constructor_loads_the_template_witness :
  let run :=
    VideoGenerator_new Cases.decode "key" "127.0.0.1:8188" "client-1"
      "workflow_video.json" Cases.installed in
  exists self,
    run.1 = Ok self /\
    server_address self = "127.0.0.1:8188" /\ client_id self = "client-1" /\
    files run.2 = files Cases.installed /\
    trace run.2 = trace Cases.installed /\
    heap Cases.installed `prefix_of` heap run.2 /\
    json_dumps (heap run.2) (base_workflow self) =
      Some (normalize Scenario.template).
Proof.
  apply (constructor_loads_the_template Cases.decode "key" "127.0.0.1:8188"
           "client-1" "workflow_video.json" Cases.installed "the workflow"
           Scenario.template);
    reflexivity.
Defined.

(** ** The request handler *)

(** X21. The handler shows a video only for a request with a key and a
    chapter text and with the workflow file in place; the path shown is
    [final_videos/chapter_video_<time>.mp4]; the language model was asked
    first, the stitcher was called once, on a non-empty list of distinct
    clips, and these clips are gone when the handler returns. *)
Theorem request_shows_a_stitched_video json_decode E uuid now chapter_text
  api_key w shown w' :
  generate_video_request json_decode E uuid now chapter_text api_key w
    = (ShowVideo shown, w') ->
  api_key <> "" /\ chapter_text <> "" /\
  is_Some (files w !! COMFYUI_WORKFLOW_FILE) /\
  shown = final_video_path ("chapter_video_" +:+ pretty now) /\
  exists after clip_paths,
    trace w' = trace w ++ planner_request E chapter_text :: after /\
    stitch_calls after = [clip_paths] /\
    clip_paths <> [] /\ NoDup clip_paths /\
    Forall (fun p => files w' !! p = None) clip_paths.
Proof.
  unfold generate_video_request.
  destruct (decide (api_key = "")) as [| Hkey]; [done |].
  destruct (decide (chapter_text = "")) as [| Hchapter]; [done |].
  destruct (decide (files w !! COMFYUI_WORKFLOW_FILE = None)) as [| Hfile];
    [done |].
  destruct (VideoGenerator_new _ _ _ _ _ w) as [[vg | e] w1] eqn:Hnew;
    [| done].
  assert (trace w1 = trace w) as Htrace.
  { unfold VideoGenerator_new in Hnew.
    destruct (files w !! COMFYUI_WORKFLOW_FILE) as [text |]; [| done].
    destruct (json_decode text) as [workflow | e]; [| done].
    unfold VideoGenerator_init in Hnew.
    destruct (json_loads workflow (heap w)) as [v h]. by simplify_eq. }
  set (name := "chapter_video_" +:+ pretty now).
  destruct (create_chapter_video E vg chapter_text name w1)
    as [[[final |] | e] w2] eqn:Hrun; [| done | done].
  intros [= <- <-].
  assert ((create_chapter_video E vg chapter_text name w1).1
          = Ok (Some final)) as Hok by (by rewrite Hrun).
  apply create_success in Hok
    as (data & Hdata & Hfinal & Hraise & Hclips & Hnd & Hdisk).
  pose proof (create_spec E vg chapter_text name w1 data Hdata) as Hspec.
  cbn zeta in Hspec. rewrite Hraise in Hspec.
  destruct (create_trace E vg chapter_text name w1)
    as (tr & stitched & Ht & Hr & _ & Hst).
  rewrite Hrun in Hspec, Ht, Hdisk. cbn [fst snd] in Hspec, Ht, Hdisk.
  set (clips := omap clip_of _) in *.
  destruct clips as [| p ps] eqn:Hc; [done |].
  split; [done |]. split; [done |].
  split; [by apply not_eq_None_Some |]. split; [done |].
  exists (tr ++ stitched), (p :: ps).
  split; [by rewrite Ht, Htrace |].
  split; [| done].
  rewrite Ht in Hspec.
  change (planner_request E chapter_text :: tr ++ stitched)
    with ([planner_request E chapter_text] ++ tr ++ stitched) in Hspec.
  rewrite !stitch_calls_app in Hspec. cbn [stitch_calls omap] in Hspec.
  apply app_inv_head in Hspec. cbn in Hspec.
  by rewrite stitch_calls_app.
Qed.

Lemma request_shows_a_stitched_video_witness :
  let run :=
    generate_video_request Cases.decode Scenario.healthy "client-1"
      1700000000%Z "chapter" "key" Cases.installed in
  "key" <> "" /\ "chapter" <> "" /\
  is_Some (files Cases.installed !! COMFYUI_WORKFLOW_FILE) /\
  "final_videos/chapter_video_1700000000.mp4" =
    final_video_path ("chapter_video_" +:+ pretty 1700000000%Z) /\
  exists after clip_paths,
    trace run.2 =
      trace Cases.installed ++
      planner_request Scenario.healthy "chapter" :: after /\
    stitch_calls after = [clip_paths] /\
    clip_paths <> [] /\ NoDup clip_paths /\
    Forall (fun p => files run.2 !! p = None) clip_paths.
Proof.
  intros run.
  apply (request_shows_a_stitched_video Cases.decode Scenario.healthy
           "client-1" 1700000000%Z "chapter" "key" Cases.installed
           "final_videos/chapter_video_1700000000.mp4" run.2).
  vm_compute. reflexivity.
Defined.

(** X22. When the planner fails or plans no scene, a request that passed
    the checks of the handler is answered with the [gr.Error] of a run
    that generated nothing; the language model was asked once, the render
    server was not contacted and no file was changed. *)
Theorem request_with_nothing_to_show json_decode E uuid now chapter_text
  api_key w text workflow :
  api_key <> "" -> chapter_text <> "" ->
  files w !! COMFYUI_WORKFLOW_FILE = Some text ->
  json_decode text = Ok workflow ->
  match generate_content E (trace w ++ [planner_request E chapter_text]) with
  | Ok answer =>
      match model_validate_json E answer with
      | Ok data => scenes data = []
      | Raise _ => True
      end
  | Raise _ => True
  end ->
  let run :=
    generate_video_request json_decode E uuid now chapter_text api_key w in
  run.1 = GrError (GenerationError NothingGenerated) /\
  trace run.2 = trace w ++ [planner_request E chapter_text] /\
  files run.2 = files w.
Proof.
  intros Hkey Hchapter Hfile Hdecode Hplan. cbn zeta.
  unfold generate_video_request.
  rewrite decide_False by done. rewrite decide_False by done.
  rewrite decide_False by (by rewrite Hfile).
  destruct (new_spec json_decode api_key COMFYUI_ADDRESS uuid
              COMFYUI_WORKFLOW_FILE w text workflow Hfile Hdecode)
    as (vg & w1 & -> & _ & _ & Hf1 & Ht1 & _).
  destruct (split_spec E chapter_text w1) as (o & Hsplit & Ho).
  rewrite Ht1 in Ho.
  assert (create_chapter_video E vg chapter_text
            ("chapter_video_" +:+ pretty now) w1 =
          (Ok None, World (heap w1) (files w1)
                      (trace w1 ++ [planner_request E chapter_text])))
    as ->.
  { unfold create_chapter_video, bind. rewrite Hsplit.
    destruct (generate_content E _) as [answer | e]; [| by subst o].
    destruct (model_validate_json E answer) as [data | e]; [| by subst o].
    subst o. by rewrite Hplan. }
  cbn. by rewrite Ht1, Hf1.
Qed.

Lemma request_with_nothing_to_show_witness :
  let run :=
    generate_video_request Cases.decode Scenario.planner_confused "client-1"
      1700000000%Z "chapter" "key" Cases.installed in
  run.1 = GrError (GenerationError NothingGenerated) /\
  trace run.2 =
    trace Cases.installed ++
    [planner_request Scenario.planner_confused "chapter"] /\
  files run.2 = files Cases.installed.
Proof.
  apply (request_with_nothing_to_show Cases.decode Scenario.planner_confused
           "client-1" 1700000000%Z "chapter" "key" Cases.installed
           "the workflow" Scenario.template).
  - discriminate.
  - discriminate.
  - reflexivity.
  - reflexivity.
  - exact I.
Defined.
